(** * MovieRecommendation: the recommendation aggregation pipeline

    A shallow embedding of [train_model.py] (the similarity index
    [recommend_ml], the remote fallback [recommend_tmdb], the two
    enrichers [get_movie_full_details] and [get_ott_links], and the
    aggregator [get_full_recommendations]) and of [recommend] in
    [app.py], together with the properties of the specification that
    concern them.

    Python values are embedded as JSON-shaped data, Python exceptions as
    values of [exn], and every function that performs remote calls runs
    in a small trace monad that records the calls it makes. *)

From Stdlib Require Import ZArith Floats Ascii String.
From stdpp Require Import base option list strings gmap.

Local Open Scope Z_scope.
Local Open Scope string_scope.

Set Warnings "-register-all".

(** ** Python values *)

Module Py.

(** The values the program manipulates are the ones [json()] produces and
    [jsonify] consumes: [None], booleans, integers, floats, strings,
    lists and dictionaries with string keys (kept in insertion order). *)
Inductive json : Type :=
| JNull
| JBool (b : bool)
| JInt (z : Z)
| JFloat (f : float)
| JStr (s : string)
| JArr (items : list json)
| JObj (fields : list (string * json)).

(** Exceptions carry their message, the text [f"{e}"] prints.
    [ClientError] stands for [aiohttp.ClientError] and its subclasses,
    [OtherError] for an exception of any other class raised by a library
    (a timeout, a connection failure in [requests], an invalid body). *)
Inductive exn : Type :=
| ClientError (msg : string)
| OtherError (msg : string)
| KeyError (msg : string)
| IndexError (msg : string)
| TypeError (msg : string)
| AttributeError (msg : string)
| ValueError (msg : string).

Definition str_of_exn (e : exn) : string :=
  match e with
  | ClientError m | OtherError m | KeyError m | IndexError m
  | TypeError m | AttributeError m | ValueError m => m
  end.

Definition is_client_error (e : exn) : bool :=
  match e with ClientError _ => true | _ => false end.

(** A result of evaluating a Python expression: a value or a raised
    exception. *)
Definition res (A : Type) : Type := exn + A.

Definition type_name (v : json) : string :=
  match v with
  | JNull => "NoneType"
  | JBool _ => "bool"
  | JInt _ => "int"
  | JFloat _ => "float"
  | JStr _ => "str"
  | JArr _ => "list"
  | JObj _ => "dict"
  end.

(** [bool(v)]: what [if v] and [not v] test. *)
Definition truthy (v : json) : bool :=
  match v with
  | JNull => false
  | JBool b => b
  | JInt z => negb (z =? 0)%Z
  | JFloat f => negb (PrimFloat.eqb f PrimFloat.zero)
  | JStr s => negb (String.eqb s "")
  | JArr l => match l with [] => false | _ => true end
  | JObj d => match d with [] => false | _ => true end
  end.

(** Dictionary lookup by key; the first binding wins, as the
    dictionaries built here never repeat a key. *)
Fixpoint lookup_key (key : string) (d : list (string * json)) : option json :=
  match d with
  | [] => None
  | (k, v) :: d' => if String.eqb k key then Some v else lookup_key key d'
  end.

(** [v.get(key, default)]. *)
Definition get_or (v : json) (key : string) (dflt : json) : res json :=
  match v with
  | JObj fs => inr (default dflt (lookup_key key fs))
  | _ => inl (AttributeError ("'" +:+ type_name v +:+ "' object has no attribute 'get'"))
  end.

Definition not_subscriptable (v : json) : exn :=
  TypeError ("'" +:+ type_name v +:+ "' object is not subscriptable").

(** [v[key]] for a string [key]. *)
Definition getitem (v : json) (key : string) : res json :=
  match v with
  | JObj fs =>
      match lookup_key key fs with
      | Some x => inr x
      | None => inl (KeyError ("'" +:+ key +:+ "'"))
      end
  | JArr _ => inl (TypeError "list indices must be integers or slices, not str")
  | JStr _ => inl (TypeError "string indices must be integers, not 'str'")
  | _ => inl (not_subscriptable v)
  end.

(** [v[0]]. A dictionary decoded from JSON has string keys only, so the
    integer key is never found. *)
Definition getitem0 (v : json) : res json :=
  match v with
  | JArr (x :: _) => inr x
  | JArr [] => inl (IndexError "list index out of range")
  | JStr (String c _) => inr (JStr (String c ""))
  | JStr "" => inl (IndexError "string index out of range")
  | JObj _ => inl (KeyError "0")
  | _ => inl (not_subscriptable v)
  end.

(** [l[:k]] on a Python list: a negative [k] counts from the end. *)
Definition slice_to {A} (k : Z) (l : list A) : list A :=
  if (0 <=? k)%Z then take (Z.to_nat k) l
  else take (Z.to_nat (Z.of_nat (length l) + k)) l.

(** [v[:k]]. *)
Definition slice_upto (k : Z) (v : json) : res json :=
  match v with
  | JArr l => inr (JArr (slice_to k l))
  | JStr s => inr (JStr (string_of_list_ascii (slice_to k (list_ascii_of_string s))))
  | JObj _ => inl (TypeError "unhashable type: 'slice'")
  | _ => inl (not_subscriptable v)
  end.

Fixpoint chars (s : string) : list json :=
  match s with
  | "" => []
  | String c s' => JStr (String c "") :: chars s'
  end.

(** The items [for x in v] visits. *)
Definition iter (v : json) : res (list json) :=
  match v with
  | JArr l => inr l
  | JStr s => inr (chars s)
  | JObj fs => inr (map (fun kv => JStr kv.1) fs)
  | _ => inl (TypeError ("'" +:+ type_name v +:+ "' object is not iterable"))
  end.

(** [v == s] for a string literal [s]. *)
Definition eq_str (v : json) (s : string) : bool :=
  match v with
  | JStr s' => String.eqb s' s
  | _ => false
  end.

(** [item in v] for a string [item]. *)
Definition contains (item : string) (v : json) : res bool :=
  match v with
  | JObj fs => inr (bool_decide (is_Some (lookup_key item fs)))
  | JArr l => inr (existsb (fun x => eq_str x item) l)
  | JStr s =>
      inr (match item with
           | "" => true
           | _ => bool_decide (is_Some (String.index 0 item s))
           end)
  | _ => inl (TypeError ("argument of type '" +:+ type_name v +:+ "' is not iterable"))
  end.

(** Decimal text of a natural number. *)
Definition digit (n : nat) : ascii := ascii_of_nat (48 + n).

Fixpoint decimal_fuel (fuel n : nat) (acc : string) : string :=
  match fuel with
  | O => acc
  | S fuel' =>
      let acc' := String (digit (n mod 10)) acc in
      if (n / 10 =? 0)%nat then acc' else decimal_fuel fuel' (n / 10)%nat acc'
  end.

Definition decimal (n : nat) : string := decimal_fuel (S n) n "".

(** [sep.join(items)] for a list [items]: every item must be a [str]. *)
Fixpoint join_from (i : nat) (sep : string) (items : list json) : res string :=
  match items with
  | [] => inr ""
  | JStr s :: rest =>
      match rest with
      | [] => inr s
      | _ =>
          match join_from (S i) sep rest with
          | inr t => inr (s +:+ sep +:+ t)
          | inl e => inl e
          end
      end
  | v :: _ =>
      inl (TypeError ("sequence item " +:+ decimal i +:+ ": expected str instance, "
                      +:+ type_name v +:+ " found"))
  end.

Definition join (sep : string) (items : list json) : res string :=
  join_from 0 sep items.

(** Evaluation results form an error monad. *)
#[global] Instance res_ret : MRet res := fun _ x => inr x.
#[global] Instance res_bind : MBind res := fun _ _ f m =>
  match m with
  | inl e => inl e
  | inr x => f x
  end.

End Py.

Import Py.

(** ** ASCII text *)

(** What [str.lower], [str.strip] and [str.split] do on ASCII text.  The
    program's own calls go through the world ([str_lower], [str_strip],
    [str_split] below), as Python's functions also handle the letters
    and the whitespace outside ASCII; the sample worlds use these. *)
Module AsciiText.

Definition lower_char (c : ascii) : ascii :=
  let n := nat_of_ascii c in
  if ((65 <=? n) && (n <=? 90))%nat then ascii_of_nat (n + 32) else c.

Fixpoint lower (s : string) : string :=
  match s with
  | "" => ""
  | String c s' => String (lower_char c) (lower s')
  end.

Definition is_space (c : ascii) : bool :=
  let n := nat_of_ascii c in
  (((9 <=? n) && (n <=? 13)) || ((28 <=? n) && (n <=? 32)))%nat.

Fixpoint lstrip (s : string) : string :=
  match s with
  | "" => ""
  | String c s' => if is_space c then lstrip s' else s
  end.

Fixpoint rstrip (s : string) : string :=
  match s with
  | "" => ""
  | String c s' =>
      match rstrip s' with
      | "" => if is_space c then "" else String c ""
      | t => String c t
      end
  end.

Definition strip (s : string) : string := rstrip (lstrip s).

Fixpoint words_from (word : string) (s : string) : list string :=
  match s with
  | "" => match word with "" => [] | _ => [word] end
  | String c s' =>
      if is_space c then
        match word with
        | "" => words_from "" s'
        | _ => word :: words_from "" s'
        end
      else words_from (word +:+ String c "") s'
  end.

Definition split (s : string) : list string := words_from "" s.

End AsciiText.

(** ** Traces of calls *)

Module Trace.

(** A computation that always returns: its value and the events it
    produced, oldest first. *)
Definition T (E A : Type) : Type := list E * A.

(** A computation that may raise. *)
Definition M (E A : Type) : Type := T E (res A).

Definition log {E A} (m : T E A) : list E := m.1.
Definition outcome {E A} (m : T E A) : A := m.2.

Definition ret {E A} (a : A) : M E A := ([], inr a).
Definition raise {E A} (e : exn) : M E A := ([], inl e).
Definition lift {E A} (r : res A) : M E A := ([], r).
Definition emit {E} (ev : E) : M E unit := ([ev], inr tt).

Definition bind {E A B} (m : M E A) (f : A -> M E B) : M E B :=
  match m with
  | (l, inl e) => (l, inl e)
  | (l, inr a) => let '(l', r) := f a in ((l ++ l')%list, r)
  end.

#[global] Instance M_ret E : MRet (M E) := fun _ a => ret a.
#[global] Instance M_bind E : MBind (M E) := fun _ _ f m => bind m f.

(** [try: body except Exception as e: return handler(e)], for handlers
    that only build a value. *)
Definition try_except {E A} (body : M E A) (handler : exn -> A) : T E A :=
  match body with
  | (l, inl e) => (l, handler e)
  | (l, inr a) => (l, a)
  end.

(** Running a total computation inside a raising one. *)
Definition total {E A} (m : T E A) : M E A := (log m, inr (outcome m)).

End Trace.

Import Trace.


(** ** The world of the program *)

(** An HTTP response: the status code and what [json()] gives on the
    body (it raises on a body that is not JSON). *)
Record response : Type := Response { status : Z; body : res json }.

(** A sparse feature matrix, one row per text. *)
Definition matrix : Type := list (list (nat * float)).

(** The object loaded as the text vectorizer: [transform] gives the
    matrix of a list of texts, or raises. *)
Record TfidfVectorizer : Type := { transform : list string -> res matrix }.

(** The fitted neighbour index ([recommendation.py] builds it with the
    cosine metric and the brute-force algorithm).  Distances are floats;
    what the program uses of them is the order they induce, so the index
    is given by [ranking]: for a query, the row positions of the fitted
    samples by increasing distance, or the exception the search raises. *)
Record NearestNeighbors : Type := {
  ranking : matrix -> res (list nat)
}.

(** [knn.kneighbors(X, n_neighbors=n)] for a one-row [X]: the row of the
    [n] nearest positions.  scikit-learn rejects an [n] that is not
    positive or exceeds the number of fitted samples. *)
Definition kneighbors (knn : NearestNeighbors) (X : matrix) (n : Z) : res (list nat) :=
  if (n <=? 0)%Z then
    inl (ValueError "Expected n_neighbors > 0")
  else
    ranked ← ranking knn X;
    if (Z.of_nat (length ranked) <? n)%Z then
      inl (ValueError "Expected n_neighbors <= n_samples_fit")
    else inr (take (Z.to_nat n) ranked).

(** A data frame: the number of rows and the columns by name, each a
    function of the row position. *)
Record DataFrame : Type := {
  index_len : nat;
  columns : list (string * (nat -> json))
}.

(** [df.iloc[positions]]. *)
Definition iloc (df : DataFrame) (positions : list nat) : res DataFrame :=
  if forallb (fun i => i <? index_len df)%nat positions then
    inr {| index_len := length positions;
           columns := map (fun cf => (cf.1, fun i => cf.2 (nth i positions O)))
                          (columns df) |}
  else inl (IndexError "positional indexers are out-of-bounds").

Fixpoint find_column (name : string) (cols : list (string * (nat -> json)))
  : option (nat -> json) :=
  match cols with
  | [] => None
  | (c, f) :: cols' => if String.eqb c name then Some f else find_column name cols'
  end.

(** [df[name].tolist()]. *)
Definition column_tolist (df : DataFrame) (name : string) : res (list json) :=
  match find_column name (columns df) with
  | Some f => inr (map f (seq 0 (index_len df)))
  | None => inl (KeyError ("'" +:+ name +:+ "'"))
  end.

(** A possibly squeezed array turned into a Python value by [tolist()]:
    a one-element row comes out as a bare number. *)
Inductive squeezed : Type :=
| Scalar (i : nat)
| Vector (row : list nat).

(** [indices.squeeze().tolist()] for the one-row array of positions. *)
Definition squeeze_tolist (row : list nat) : squeezed :=
  match row with
  | [i] => Scalar i
  | _ => Vector row
  end.

(** [x[1:]]. *)
Definition from_1 (x : squeezed) : res (list nat) :=
  match x with
  | Scalar _ => inl (TypeError "'int' object is not subscriptable")
  | Vector row => inr (drop 1 row)
  end.

(** Everything outside the program that its behaviour depends on. *)
Record World : Type := {
  (** the environment variable [TMDB_API_KEY], if set *)
  environ_TMDB_API_KEY : option string;
  (** the remote catalogue: what a GET of a URL gives, a response or a
      raised exception (connection failure, timeout) *)
  remote : string -> res response;
  (** what loading the three model artifacts at start-up gives *)
  artifacts : res (NearestNeighbors * TfidfVectorizer * DataFrame);
  (** [str(v)] for a float, a list or a dictionary *)
  repr : json -> string;
  (** [s.lower()], [s.strip()] and [s.split()] of Python's [str] *)
  str_lower : string -> string;
  str_strip : string -> string;
  str_split : string -> list string;
  (** whether [app.py] could import [train_model] *)
  train_model_imported : bool
}.

(** ** Concurrent tasks *)

Module Asyncio.

Section Gather.

Context {E A : Type}.

(** The tasks complete one after the other in the order [order] names
    their positions; each result is stored under the position of its
    task.  A position that names no task, or a task already complete, is
    passed over. *)
Fixpoint complete (tasks : list (M E A)) (order : list nat) (finished : gmap nat A)
  : M E (gmap nat A) :=
  match order with
  | [] => mret finished
  | i :: rest =>
      match finished !! i, tasks !! i with
      | None, Some task =>
          x ← task;
          complete tasks rest (<[i := x]> finished)
      | _, _ => complete tasks rest finished
      end
  end.

(** [await asyncio.gather] of the tasks: every task runs to completion, those
    that [order] names first in that order, and the results are read
    back by task position. *)
Definition gather (order : list nat) (tasks : list (M E A)) : M E (list A) :=
  finished ← complete tasks (order ++ seq 0 (length tasks)) ∅;
  mret (omap (fun i => finished !! i) (seq 0 (length tasks))).

End Gather.

(** The order in which concurrent work completes: that of the per-title
    tasks, and for the title at each position that of its two calls. *)
Record schedule : Type := {
  tasks_order : list nat;
  calls_order : nat -> list nat
}.

End Asyncio.

Import Asyncio.

(** ** train_model.py *)

Module TrainModel.

Section Program.

Context (w : World).

(** [TMDB_API_KEY], read once from the environment with a built-in
    default. *)
Definition TMDB_API_KEY : string :=
  default "3075ab4eebb27e51a67f7869d6b7984a" (environ_TMDB_API_KEY w).

(** The three model globals: all loaded, or all [None] when loading
    raised. *)
Definition knn_model : option NearestNeighbors :=
  match artifacts w with inr (knn, _, _) => Some knn | inl _ => None end.

Definition vectorizer : option TfidfVectorizer :=
  match artifacts w with inr (_, vec, _) => Some vec | inl _ => None end.

Definition movies_df : option DataFrame :=
  match artifacts w with inr (_, _, df) => Some df | inl _ => None end.

(** A value interpolated in an f-string: [str(v)]. *)
Definition fmt (v : json) : string :=
  match v with
  | JStr s => s
  | JInt z => if (z <? 0)%Z then "-" +:+ decimal (Z.abs_nat z) else decimal (Z.abs_nat z)
  | JNull => "None"
  | JBool true => "True"
  | JBool false => "False"
  | _ => repr w v
  end.

(** A GET request, by [requests.get] or by [session.get]: it is recorded
    and answered by the remote catalogue. *)
Definition http_get (url : string) : M string response :=
  (_ ← emit url; lift (remote w url)).

Definition error_dict (msg : string) : json := JObj [("error", JStr msg)].

Definition BASE_URL : string := "https://api.themoviedb.org/3".

Definition search_url (query : string) : string :=
  BASE_URL +:+ "/search/movie?api_key=" +:+ TMDB_API_KEY +:+ "&query=" +:+ query.

Definition similar_url (movie_id : json) : string :=
  BASE_URL +:+ "/movie/" +:+ fmt movie_id +:+ "/similar?api_key=" +:+ TMDB_API_KEY
  +:+ "&language=en-US&page=1".

Definition details_url (movie_id : json) : string :=
  BASE_URL +:+ "/movie/" +:+ fmt movie_id +:+ "?api_key=" +:+ TMDB_API_KEY.

Definition credits_url (movie_id : json) : string :=
  BASE_URL +:+ "/movie/" +:+ fmt movie_id +:+ "/credits?api_key=" +:+ TMDB_API_KEY.

Definition provider_url (movie_id : json) : string :=
  BASE_URL +:+ "/movie/" +:+ fmt movie_id +:+ "/watch/providers?api_key=" +:+ TMDB_API_KEY.

(** [[movie["title"] for movie in results]]. *)
Definition titles_of (results : json) : res (list json) :=
  movies ← iter results; mapM (fun movie => getitem movie "title") movies.

(** The body of the [try] block of [recommend_tmdb]. *)
Definition recommend_tmdb_body (movie_name_proc : string) (k : Z) : M string json :=
  response ← http_get (search_url movie_name_proc);
  if negb (status response =? 200)%Z then
    mret (error_dict "TMDB API search failed.")
  else
    data ← lift (body response);
    results ← lift (get_or data "results" JNull);
    if negb (truthy results) then
      mret (error_dict "Movie not found in TMDB.")
    else
      movie_id ← lift (r ← getitem data "results"; m ← getitem0 r; getitem m "id");
      similar_resp ← http_get (similar_url movie_id);
      if negb (status similar_resp =? 200)%Z then
        mret (error_dict "TMDB API similar movies fetch failed.")
      else
        similar_data ← lift (body similar_resp);
        similar_results ← lift (get_or similar_data "results" JNull);
        if negb (truthy similar_results) then
          mret (error_dict "No similar movies found on TMDB.")
        else
          titles ← lift (r ← getitem similar_data "results"; titles_of r);
          let recommended := slice_to k titles in
          mret (JObj [("recommended_movies", JArr recommended);
                      ("source", JStr "TMDB fallback")]).

(** Return recommended movies using TMDB API fallback. *)
Definition recommend_tmdb (movie_name : string) (k : Z) : T string json :=
  let movie_name_proc := str_strip w (str_lower w movie_name) in
  if String.eqb TMDB_API_KEY "" then
    ([], error_dict "TMDB API key is missing.")
  else
    try_except (recommend_tmdb_body movie_name_proc k)
      (fun e => error_dict ("Error during TMDB fallback: " +:+ str_of_exn e)).

(** The body of the [try] block of [recommend_ml]. *)
Definition recommend_ml_body (knn : NearestNeighbors) (df : DataFrame)
    (input_vector : matrix) (k : Z) : res json :=
  indices ← kneighbors knn input_vector (k + 1);
  rec_indices ← from_1 (squeeze_tolist indices);
  selected ← iloc df rec_indices;
  recommended_titles ← column_tolist selected "title";
  mret (JObj [("recommended_movies", JArr recommended_titles);
              ("source", JStr "ML model")]).

(** Return recommended movies using the pre-trained ML model.  The
    query is vectorized before the [try] block: an exception of
    [transform] leaves the function. *)
Definition recommend_ml (movie_name : string) (k : Z) : res json :=
  match knn_model, vectorizer, movies_df with
  | Some knn, Some vec, Some df =>
      let movie_name_proc := str_strip w (str_lower w movie_name) in
      input_vector ← transform vec [movie_name_proc];
      mret (match recommend_ml_body knn df input_vector k with
            | inr result => result
            | inl e => error_dict ("ML recommendation failed: " +:+ str_of_exn e)
            end)
  | _, _, _ =>
      mret (error_dict "Pre-trained ML model or movies mapping is not available.")
  end.

(** The two handlers that close both enrichers. *)
Definition enricher_handler (e : exn) : json :=
  if is_client_error e then error_dict ("Network error: " +:+ str_of_exn e)
  else error_dict ("Unexpected error: " +:+ str_of_exn e).

(** [[member["name"] for member in credits.get("cast", [])[:3]]]. *)
Definition cast_of (credits : json) : res (list json) :=
  all ← get_or credits "cast" (JArr []);
  first ← slice_upto 3 all;
  members ← iter first;
  mapM (fun member => getitem member "name") members.

(** The comprehension with its filter: [member.get("job")] is evaluated
    for every member, [member["name"]] for the directors. *)
Fixpoint directors (members : list json) : res (list json) :=
  match members with
  | [] => inr []
  | member :: rest =>
      job ← get_or member "job" JNull;
      if eq_str job "Director" then
        name ← getitem member "name";
        names ← directors rest;
        mret (name :: names)
      else directors rest
  end.

Definition crew_of (credits : json) : res (list json) :=
  all ← get_or credits "crew" (JArr []);
  members ← iter all;
  directors members.

(** The body of the [try] block of [get_movie_full_details]. *)
Definition get_movie_full_details_body (movie_name : json) : M string json :=
  resp ← http_get (search_url (fmt movie_name));
  if negb (status resp =? 200)%Z then
    mret (error_dict "Failed to fetch movie info from TMDB.")
  else
    data ← lift (body resp);
    results ← lift (get_or data "results" JNull);
    if negb (truthy results) then
      mret (error_dict "Movie not found.")
    else
      movie_data ← lift (r ← getitem data "results"; getitem0 r);
      movie_id ← lift (getitem movie_data "id");
      poster_path ← lift (get_or movie_data "poster_path" JNull);
      poster_url ← lift (if truthy poster_path then
                           p ← getitem movie_data "poster_path";
                           mret (JStr ("https://image.tmdb.org/t/p/w500" +:+ fmt p))
                         else mret JNull);
      resp ← http_get (details_url movie_id);
      if negb (status resp =? 200)%Z then
        mret (error_dict "Failed to fetch additional movie details.")
      else
        movie_details ← lift (body resp);
        resp ← http_get (credits_url movie_id);
        '(cast, crew) ← lift (if negb (status resp =? 200)%Z then mret ([], [])
                              else
                                credits ← body resp;
                                cast ← cast_of credits;
                                crew ← crew_of credits;
                                mret (cast, crew));
        title ← lift (get_or movie_details "title" JNull);
        overview ← lift (get_or movie_details "overview" JNull);
        rating ← lift (get_or movie_details "vote_average" JNull);
        release_date ← lift (get_or movie_details "release_date" JNull);
        cast_text ← lift (join ", " cast);
        crew_text ← lift (join ", " crew);
        mret (JObj [("title", title);
                    ("overview", overview);
                    ("rating", rating);
                    ("release_date", release_date);
                    ("cast", JStr cast_text);
                    ("crew", JStr crew_text);
                    ("poster_url", poster_url)]).

Definition get_movie_full_details (movie_name : json) : T string json :=
  try_except (get_movie_full_details_body movie_name) enricher_handler.

(** [[p.get("provider_name") for p in providers]]. *)
Definition provider_names (providers : json) : res (list json) :=
  ps ← iter providers; mapM (fun p => get_or p "provider_name" JNull) ps.

(** The body of the [try] block of [get_ott_links]. *)
Definition get_ott_links_body (movie_name : json) : M string json :=
  resp ← http_get (search_url (fmt movie_name));
  if negb (status resp =? 200)%Z then
    mret (error_dict "Failed to fetch movie info from TMDB.")
  else
    data ← lift (body resp);
    results ← lift (get_or data "results" JNull);
    if negb (truthy results) then
      mret (error_dict "No streaming info available.")
    else
      movie_id ← lift (r ← getitem data "results"; m ← getitem0 r; getitem m "id");
      resp ← http_get (provider_url movie_id);
      if negb (status resp =? 200)%Z then
        mret (error_dict "Failed to fetch streaming info from TMDB.")
      else
        providers_data ← lift (body resp);
        results ← lift (get_or providers_data "results" (JObj []));
        in_country ← lift (get_or results "IN" (JObj []));
        providers ← lift (get_or in_country "flatrate" (JArr []));
        free_providers ← lift (get_or in_country "free" (JArr []));
        free ← lift (provider_names free_providers);
        paid ← lift (provider_names providers);
        mret (JObj [("Free", JArr free); ("Paid", JArr paid)]).

Definition get_ott_links (movie_name : json) : T string json :=
  try_except (get_ott_links_body movie_name) enricher_handler.

(** What the aggregator calls, with the requests each call made. *)
Inductive invocation : Type :=
| Recommend_ml (movie_name : string) (k : Z)
| Recommend_tmdb (movie_name : string) (k : Z) (requests : list string)
| Get_movie_full_details (movie_name : json) (requests : list string)
| Get_ott_links (movie_name : json) (requests : list string).

Definition call_recommend_ml (movie_name : string) (k : Z) : M invocation json :=
  (_ ← emit (Recommend_ml movie_name k); lift (recommend_ml movie_name k)).

Definition call_recommend_tmdb (movie_name : string) (k : Z) : M invocation json :=
  let r := recommend_tmdb movie_name k in
  (_ ← emit (Recommend_tmdb movie_name k (log r)); mret (outcome r)).

Definition call_get_movie_full_details (title : json) : M invocation json :=
  let r := get_movie_full_details title in
  (_ ← emit (Get_movie_full_details title (log r)); mret (outcome r)).

Definition call_get_ott_links (title : json) : M invocation json :=
  let r := get_ott_links title in
  (_ ← emit (Get_ott_links title (log r)); mret (outcome r)).

(** The loop body that builds one entry from [(details, ott)]. *)
Definition movie_info (result : list json) : res json :=
  match result with
  | [details; ott] =>
      title ← get_or details "title" (JStr "N/A");
      overview ← get_or details "overview" (JStr "N/A");
      rating ← get_or details "rating" (JStr "N/A");
      release_date ← get_or details "release_date" (JStr "N/A");
      cast ← get_or details "cast" (JStr "N/A");
      crew ← get_or details "crew" (JStr "N/A");
      poster_url ← get_or details "poster_url" JNull;
      failed ← contains "error" ott;
      mret (JObj [("title", title);
                  ("overview", overview);
                  ("rating", rating);
                  ("release_date", release_date);
                  ("cast", cast);
                  ("crew", crew);
                  ("poster_url", poster_url);
                  ("ott_availability", if negb failed then ott else JStr "Not Available")])
  | [] | [_] => inl (ValueError "not enough values to unpack")
  | _ => inl (ValueError "too many values to unpack (expected 2)")
  end.

(** The candidate titles: the first tier's, or the fallback's when the
    first tier answered with an error. *)
Definition resolve_candidates (movie_name : string) (k : Z) : M invocation json :=
  rec_result ← call_recommend_ml movie_name k;
  failed ← lift (contains "error" rec_result);
  rec_result ← (if (failed : bool) then call_recommend_tmdb movie_name k
                else mret rec_result);
  lift (get_or rec_result "recommended_movies" (JArr [])).

(** One task per title, each awaiting the two enrichers of its title. *)
Definition enrichment_tasks (s : schedule) (titles : list json)
  : list (M invocation (list json)) :=
  imap (fun i title =>
          gather (calls_order s i)
                 [call_get_movie_full_details title; call_get_ott_links title])
       titles.

Definition get_full_recommendations (s : schedule) (movie_name : string) (k : Z)
  : M invocation json :=
  recommended_titles ← resolve_candidates movie_name k;
  titles ← lift (iter recommended_titles);
  results ← gather (tasks_order s) (enrichment_tasks s titles);
  full_recommendations ← lift (mapM movie_info results);
  mret (JObj [("recommended_movies", JArr full_recommendations)]).

End Program.

End TrainModel.

Import TrainModel.

(** ** app.py *)

Module App.

Section Program.

Context (w : World).

(** What a view helper returns: a value, or a value with a status code. *)
Inductive result : Type :=
| Plain (v : json)
| WithStatus (v : json) (code : Z).

(** What [recommend] does: calls made by the aggregator, and requests of
    its own. *)
Inductive event : Type :=
| Aggregator (i : invocation)
| Request (url : string).

(** [os.getenv("TMDB_API_KEY")]. *)
Definition API_KEY : option string := environ_TMDB_API_KEY w.

Definition requests_get (url : string) : M event response :=
  (_ ← emit (Request url); lift (remote w url)).

Definition search_url (key movie_name : string) : string :=
  BASE_URL +:+ "/search/movie?api_key=" +:+ key +:+ "&query=" +:+ movie_name.

Definition rec_url (key : string) (movie_id : json) : string :=
  BASE_URL +:+ "/movie/" +:+ fmt w movie_id +:+ "/recommendations?api_key=" +:+ key.

(** The direct path of [recommend], taken when [train_model] could not
    be imported.  Nothing here is inside a [try]. *)
Definition recommend_direct (movie_name : string) (k : Z) : M event result :=
  match API_KEY with
  | None | Some "" => mret (WithStatus (error_dict "TMDB API key is missing.") 500)
  | Some key =>
      search_response ← requests_get (search_url key movie_name);
      if negb (status search_response =? 200)%Z then
        mret (WithStatus (error_dict "Failed to fetch movie info.") 500)
      else
        search_data ← lift (body search_response);
        results ← lift (get_or search_data "results" JNull);
        if negb (truthy results) then
          mret (WithStatus (error_dict "Movie not found.") 404)
        else
          movie_id ← lift (r ← getitem search_data "results"; m ← getitem0 r;
                           getitem m "id");
          rec_response ← requests_get (rec_url key movie_id);
          if negb (status rec_response =? 200)%Z then
            mret (WithStatus (error_dict "Failed to fetch recommendations.") 500)
          else
            rec_data ← lift (body rec_response);
            recommendations ← lift (r ← get_or rec_data "results" (JArr []);
                                    slice_upto k r);
            mret (Plain recommendations)
  end.

(** Recommend movies based on the movie name: the aggregator when it is
    available, any exception of it answered with status 500. *)
Definition recommend (s : schedule) (movie_name : string) (k : Z) : M event result :=
  if train_model_imported w then
    let run := get_full_recommendations w s movie_name k in
    (Aggregator <$> log run,
     inr (match outcome run with
          | inr rec => Plain rec
          | inl _ => WithStatus (error_dict "Failed to fetch recommendations.") 500
          end))
  else recommend_direct movie_name k.

(** [await get_ott_links(movie_name)] of [app.py]: it checks the key
    before anything else. *)
Definition get_ott_links_body (key movie_name : string) : M string json :=
  resp ← http_get w (search_url key movie_name);
  if negb (status resp =? 200)%Z then
    mret (error_dict "Failed to fetch movie info from TMDB.")
  else
    data ← lift (body resp);
    results ← lift (get_or data "results" JNull);
    if negb (truthy results) then
      mret (error_dict "Movie not found or no streaming info available.")
    else
      movie_id ← lift (r ← getitem data "results"; m ← getitem0 r; getitem m "id");
      resp ← http_get w (BASE_URL +:+ "/movie/" +:+ fmt w movie_id
                         +:+ "/watch/providers?api_key=" +:+ key);
      if negb (status resp =? 200)%Z then
        mret (error_dict "Failed to fetch streaming info from TMDB.")
      else
        providers_data ← lift (body resp);
        has_results ← lift (contains "results" providers_data);
        empty ← lift (if negb has_results then mret true
                      else r ← getitem providers_data "results"; mret (negb (truthy r)));
        if (empty : bool) then
          mret (error_dict "No streaming info available.")
        else
          providers ← lift (r ← getitem providers_data "results";
                            c ← get_or r "IN" (JObj []);
                            get_or c "flatrate" (JArr []));
          free_providers ← lift (r ← getitem providers_data "results";
                                 c ← get_or r "IN" (JObj []);
                                 get_or c "free" (JArr []));
          free ← lift (ps ← iter free_providers;
                       mapM (fun p => getitem p "provider_name") ps);
          paid ← lift (ps ← iter providers;
                       mapM (fun p => getitem p "provider_name") ps);
          mret (JObj [("Free", JArr free); ("Paid", JArr paid)]).

Definition get_ott_links (movie_name : string) : T string json :=
  match API_KEY with
  | None | Some "" => ([], error_dict "TMDB API key is missing")
  | Some key => try_except (get_ott_links_body key movie_name) enricher_handler
  end.

(** What a view returns: the JSON body and the status code. *)
Definition view : Type := json * Z.

(** [jsonify(v)], with the default status. *)
Definition jsonify (v : json) : view := (v, 200%Z).

(** [request.args.get(name, "").strip()]. *)
Definition stripped_arg (arg : option string) : string :=
  str_strip w (default "" arg).

(** The view of [/recommend]. *)
Definition recommend_movie (s : schedule) (movie_name_arg : option string)
  : M event view :=
  let movie_name := stripped_arg movie_name_arg in
  if String.eqb movie_name "" then
    mret (error_dict "Movie name is required!", 400%Z)
  else
    recs ← recommend s movie_name 9;
    match recs with
    | WithStatus v code => mret (v, code)
    | Plain v => mret (jsonify v)
    end.

(** The view of [/ott]. *)
Definition ott_route (movie_name_arg : option string) : M event view :=
  let movie_name := stripped_arg movie_name_arg in
  if String.eqb movie_name "" then
    mret (error_dict "Movie name is required!", 400%Z)
  else
    let run := get_ott_links movie_name in
    (Request <$> log run, inr (jsonify (outcome run))).

(** The view of [/movie_details]. *)
Definition movie_details (movie_name_arg : option string) : M event view :=
  if negb (train_model_imported w) then
    mret (error_dict "get_movie_full_details function not available.", 500%Z)
  else
    let movie_name := stripped_arg movie_name_arg in
    if String.eqb movie_name "" then
      mret (error_dict "Movie name is required!", 400%Z)
    else
      let run := get_movie_full_details w (JStr movie_name) in
      ([Aggregator (Get_movie_full_details (JStr movie_name) (log run))],
       inr (jsonify (outcome run))).

(** The view of [/full_recommendations]; [k_arg] is the argument "k"
    converted to an integer, [None] when it is absent or is no integer. *)
Definition full_recommendations (s : schedule) (movie_name_arg : option string)
    (k_arg : option Z) : M event view :=
  if negb (train_model_imported w) then
    mret (error_dict "get_full_recommendations function not available.", 500%Z)
  else
    let movie_name := stripped_arg movie_name_arg in
    let k := default 19%Z k_arg in
    if String.eqb movie_name "" then
      mret (error_dict "Movie name is required!", 400%Z)
    else
      let run := get_full_recommendations w s movie_name k in
      (Aggregator <$> log run,
       match outcome run with
       | inr rec => inr (jsonify rec)
       | inl e => inl e
       end).

(** [except requests.RequestException]: what the [requests] library
    raises is caught, an exception of a Python operation is not. *)
Definition except_RequestException {A} (body : M event A) (handler : exn -> A)
  : M event A :=
  match body with
  | (l, inl (OtherError msg)) => (l, inr (handler (OtherError msg)))
  | _ => body
  end.

(** Utility function to fetch movies from a given API URL. *)
Definition fetch_movies (api_url : string) : M event view :=
  except_RequestException
    (response ← requests_get api_url;
     if (status response =? 200)%Z then
       data ← lift (body response);
       results ← lift (get_or data "results" (JArr []));
       mret (jsonify results)
     else mret (jsonify (error_dict "Failed to fetch movies.")))
    (fun e => jsonify (error_dict ("Request failed: " +:+ str_of_exn e))).

(** [f"{os.getenv('TMDB_API_KEY')}"]. *)
Definition key_text : string := default "None" API_KEY.

Definition actor_api_url (actor_name : string) : string :=
  "https://api.themoviedb.org/3/search/person?api_key=" +:+ key_text
  +:+ "&query=" +:+ actor_name.

Definition actor_movies_url (actor_id : json) : string :=
  "https://api.themoviedb.org/3/discover/movie?api_key=" +:+ key_text
  +:+ "&with_cast=" +:+ fmt w actor_id.

(** Searches for an actor and then fetches movies featuring that
    actor. *)
Definition search_actor (actor_name : string) : M event view :=
  except_RequestException
    (response ← requests_get (actor_api_url actor_name);
     if (status response =? 200)%Z then
       data ← lift (body response);
       results ← lift (get_or data "results" JNull);
       if truthy results then
         actor_id ← lift (r ← getitem data "results"; m ← getitem0 r; getitem m "id");
         fetch_movies (actor_movies_url actor_id)
       else mret (jsonify (error_dict "No actor found with this name."))
     else mret (jsonify (error_dict "Failed to fetch actor details.")))
    (fun e => jsonify (error_dict ("Request failed: " +:+ str_of_exn e))).

(** Genre mapping for movie search (TMDB genre IDs). *)
Definition genre_keywords : list (string * Z) :=
  [("action", 28); ("adventure", 12); ("animation", 16); ("comedy", 35);
   ("crime", 80); ("documentary", 99); ("drama", 18); ("family", 10751);
   ("fantasy", 14); ("history", 36); ("horror", 27); ("music", 10402);
   ("mystery", 9648); ("romance", 10749); ("science fiction", 878);
   ("tv movie", 10770); ("thriller", 53); ("war", 10752); ("western", 37)]%Z.

Fixpoint genre_id (name : string) (table : list (string * Z)) : option Z :=
  match table with
  | [] => None
  | (g, id) :: table' => if String.eqb g name then Some id else genre_id name table'
  end.

Definition genre_url (id : Z) : string :=
  "https://api.themoviedb.org/3/discover/movie?api_key=" +:+ key_text
  +:+ "&with_genres=" +:+ fmt w (JInt id) +:+ "&sort_by=popularity.desc".

Definition title_search_url (search_query : string) : string :=
  "https://api.themoviedb.org/3/search/movie?api_key=" +:+ key_text
  +:+ "&query=" +:+ search_query.

(** The view of [/search]. *)
Definition search_movies (query_arg type_arg : option string) : M event view :=
  let search_query := stripped_arg query_arg in
  let search_type := str_lower w (stripped_arg type_arg) in
  if String.eqb search_query "" then
    mret (error_dict "Query is required!", 400%Z)
  else if String.eqb search_type "actor" then
    search_actor search_query
  else
    match genre_id (str_lower w search_query) genre_keywords with
    | Some id => fetch_movies (genre_url id)
    | None =>
        if (1 <? length (str_split w search_query))%nat then
          actor_result ← search_actor search_query;
          error ← lift (get_or actor_result.1 "error" JNull);
          if truthy error then fetch_movies (title_search_url search_query)
          else mret actor_result
        else fetch_movies (title_search_url search_query)
    end.

End Program.

End App.

(** ** Sample worlds *)

Module Sample.

Definition key : string := "3075ab4eebb27e51a67f7869d6b7984a".

Definition api : string := "https://api.themoviedb.org/3".

Definition movie (id : Z) (title : string) : json :=
  JObj [("id", JInt id); ("title", JStr title);
        ("poster_path", JStr ("/" +:+ title +:+ ".jpg"))].

Definition person (name job : string) : json :=
  JObj [("name", JStr name); ("job", JStr job)].

Definition ok (v : json) : res response := inr (Response 200 (inr v)).

(** A small catalogue answering with the built-in key: "avatar" is
    found and has three similar titles, "Alien" has details, credits and
    streaming providers, "Dune" has details but its providers request
    fails, "Tron" is found and has no similar titles, and nothing else
    is found. *)
Definition catalogue : list (string * res response) :=
  [(api +:+ "/search/movie?api_key=" +:+ key +:+ "&query=avatar",
    ok (JObj [("results", JArr [movie 1 "Avatar"])]));
   (api +:+ "/movie/1/similar?api_key=" +:+ key +:+ "&language=en-US&page=1",
    ok (JObj [("results", JArr [movie 2 "Alien"; movie 3 "Dune"; movie 4 "Tron"])]));
   (api +:+ "/search/movie?api_key=" +:+ key +:+ "&query=Alien",
    ok (JObj [("results", JArr [movie 2 "Alien"])]));
   (api +:+ "/movie/2?api_key=" +:+ key,
    ok (JObj [("title", JStr "Alien"); ("overview", JStr "In space");
              ("vote_average", JFloat 8.5); ("release_date", JStr "1979-05-25")]));
   (api +:+ "/movie/2/credits?api_key=" +:+ key,
    ok (JObj [("cast", JArr [person "Sigourney Weaver" "Acting";
                             person "Tom Skerritt" "Acting";
                             person "John Hurt" "Acting";
                             person "Ian Holm" "Acting"]);
              ("crew", JArr [person "Terry Rawlings" "Editor";
                             person "Ridley Scott" "Director"])]));
   (api +:+ "/movie/2/watch/providers?api_key=" +:+ key,
    ok (JObj [("results",
               JObj [("IN", JObj [("flatrate",
                                   JArr [JObj [("provider_name", JStr "Netflix")]])])])]));
   (api +:+ "/search/movie?api_key=" +:+ key +:+ "&query=Dune",
    ok (JObj [("results", JArr [movie 3 "Dune"])]));
   (api +:+ "/movie/3?api_key=" +:+ key,
    ok (JObj [("title", JStr "Dune"); ("overview", JStr "On Arrakis");
              ("vote_average", JFloat 7.5); ("release_date", JStr "2021-09-15")]));
   (api +:+ "/movie/3/credits?api_key=" +:+ key,
    inr (Response 500 (inl (OtherError "Expecting value"))));
   (api +:+ "/movie/3/watch/providers?api_key=" +:+ key,
    inr (Response 503 (inl (OtherError "Expecting value"))));
   (api +:+ "/search/movie?api_key=" +:+ key +:+ "&query=tron",
    ok (JObj [("results", JArr [movie 4 "Tron"])]));
   (api +:+ "/movie/4/similar?api_key=" +:+ key +:+ "&language=en-US&page=1",
    ok (JObj [("results", JArr [])]))].

Fixpoint answer (pages : list (string * res response)) (url : string) : res response :=
  match pages with
  | [] => ok (JObj [("results", JArr [])])
  | (u, r) :: pages' => if String.eqb u url then r else answer pages' url
  end.

(** The model files are missing and the key is not set. *)
Definition offline : World := {|
  environ_TMDB_API_KEY := None;
  remote := answer catalogue;
  artifacts := inl (OtherError "[Errno 2] No such file or directory");
  repr := fun _ => "";
  str_lower := AsciiText.lower;
  str_strip := AsciiText.strip;
  str_split := AsciiText.split;
  train_model_imported := true
|}.

Definition titles : list string :=
  ["Avatar"; "Alien"; "Dune"; "Tron"; "Solaris"; "Gravity"].

Definition index : NearestNeighbors :=
  {| ranking := fun _ => inr [0; 1; 2; 3; 4; 5]%nat |}.

Definition frame : DataFrame :=
  {| index_len := 6;
     columns := [("title", fun i => JStr (nth i titles ""))] |}.

(** The model files are loaded. *)
Definition online : World := {|
  environ_TMDB_API_KEY := None;
  remote := answer catalogue;
  artifacts := inr (index, {| transform := fun texts => inr (map (fun _ => []) texts) |},
                    frame);
  repr := fun _ => "";
  str_lower := AsciiText.lower;
  str_strip := AsciiText.strip;
  str_split := AsciiText.split;
  train_model_imported := true
|}.

(** The key is set to the empty string. *)
Definition keyless : World := {|
  environ_TMDB_API_KEY := Some "";
  remote := answer catalogue;
  artifacts := inl (OtherError "[Errno 2] No such file or directory");
  repr := fun _ => "";
  str_lower := AsciiText.lower;
  str_strip := AsciiText.strip;
  str_split := AsciiText.split;
  train_model_imported := false
|}.

(** The last task completes first, and the streaming call before the
    details call. *)
Definition backwards : schedule :=
  {| tasks_order := [2; 1; 0]%nat; calls_order := fun _ => [1; 0]%nat |}.

Definition in_order : schedule :=
  {| tasks_order := []; calls_order := fun _ => [] |}.

End Sample.

(** ** More sample worlds *)

Module Cases.

(** The world with this key in the environment and these pages in the
    catalogue, the model files missing. *)
Definition world (key : option string) (pages : list (string * res response))
    (imported : bool) : World := {|
  environ_TMDB_API_KEY := key;
  remote := Sample.answer pages;
  artifacts := inl (OtherError "[Errno 2] No such file or directory");
  repr := fun _ => "";
  str_lower := AsciiText.lower;
  str_strip := AsciiText.strip;
  str_split := AsciiText.split;
  train_model_imported := imported
|}.

(** A catalogue that knows one actor and her movies. *)
Definition actor_found : World :=
  world (Some "k")
    [("https://api.themoviedb.org/3/search/person?api_key=k&query=Sigourney Weaver",
      Sample.ok (JObj [("results", JArr [JObj [("id", JInt 10205)]])]));
     ("https://api.themoviedb.org/3/discover/movie?api_key=k&with_cast=10205",
      Sample.ok (JObj [("results", JArr [Sample.movie 2 "Alien"])]))] true.

(** The artifacts are loaded, but the object loaded as the vectorizer
    cannot transform a text. *)
Definition unfitted : World := {|
  environ_TMDB_API_KEY := None;
  remote := Sample.answer Sample.catalogue;
  artifacts :=
    inr (Sample.index,
         {| transform := fun _ => inl (OtherError "The TF-IDF vectorizer is not fitted") |},
         Sample.frame);
  repr := fun _ => "";
  str_lower := AsciiText.lower;
  str_strip := AsciiText.strip;
  str_split := AsciiText.split;
  train_model_imported := true
|}.

(** The credits of "Alien" name a director without a name. *)
Definition unnamed_director : World :=
  world None
    ((Sample.api +:+ "/movie/2/credits?api_key=" +:+ Sample.key,
      Sample.ok (JObj [("cast", JArr [Sample.person "Sigourney Weaver" "Acting"]);
                       ("crew", JArr [Sample.person "Terry Rawlings" "Editor";
                                      JObj [("job", JStr "Director")]])]))
     :: Sample.catalogue) true.

(** The credits of "Alien" list a cast member without a name. *)
Definition unnamed_actor : World :=
  world None
    ((Sample.api +:+ "/movie/2/credits?api_key=" +:+ Sample.key,
      Sample.ok (JObj [("cast", JArr [JObj [("character", JStr "Ash")]])]))
     :: Sample.catalogue) true.

(** The credits of "Alien" list people without a name after the third
    cast member and among the crew who did not direct. *)
Definition unnamed_extras : World :=
  world None
    ((Sample.api +:+ "/movie/2/credits?api_key=" +:+ Sample.key,
      Sample.ok (JObj [("cast", JArr [Sample.person "Sigourney Weaver" "Acting";
                                      Sample.person "Tom Skerritt" "Acting";
                                      Sample.person "John Hurt" "Acting";
                                      JObj [("character", JStr "Ash")]]);
                       ("crew", JArr [JObj [("job", JStr "Editor")];
                                      Sample.person "Ridley Scott" "Director"])]))
     :: Sample.catalogue) true.

End Cases.

(** ** Vocabulary of the properties *)

(** A task that returns the value [v]. *)
Definition returns {E A} (t : M E A) (v : A) : Prop := outcome t = inr v.

(** Every value the computation can return satisfies [P]. *)
Definition yields {E A} (P : A -> Prop) (m : M E A) : Prop :=
  forall a, outcome m = inr a -> P a.

(** A dictionary that carries an error message. *)
Definition is_error (v : json) : Prop := exists msg, v = error_dict msg.

(** The dictionary of a successful resolution. *)
Definition is_candidates (source : string) (v : json) : Prop :=
  exists titles,
    v = JObj [("recommended_movies", JArr titles); ("source", JStr source)].

(** The dictionary of a successful [get_movie_full_details]. *)
Definition is_details (v : json) : Prop :=
  exists title overview rating release_date cast crew poster_url,
    v = JObj [("title", title); ("overview", overview); ("rating", rating);
              ("release_date", release_date); ("cast", JStr cast);
              ("crew", JStr crew); ("poster_url", poster_url)].

(** The dictionary of a successful [get_ott_links]. *)
Definition is_providers (v : json) : Prop :=
  exists free paid, v = JObj [("Free", JArr free); ("Paid", JArr paid)].

Definition is_dict (v : json) : Prop := exists fields, v = JObj fields.

(** The response to a search has a top match, with this identifier. *)
Definition top_match (data movie_id : json) : Prop :=
  exists results,
    get_or data "results" JNull = inr results /\ truthy results = true /\
    (r ← getitem data "results"; m ← getitem0 r; getitem m "id") = inr movie_id.

(** The response carries zero results: [not data.get("results")]. *)
Definition no_results (data : json) : Prop :=
  exists results, get_or data "results" JNull = inr results /\ truthy results = false.

(** The enrichers' first step finds this identifier for the title. *)
Definition search_resolves (w : World) (title movie_id : json) : Prop :=
  exists data,
    remote w (search_url w (fmt w title)) = inr (Response 200 (inr data)) /\
    top_match data movie_id.

(** A credited person: a dictionary whose name is a string. *)
Definition credited (member : json) : Prop :=
  exists fields name, member = JObj fields /\ lookup_key "name" fields = Some (JStr name).

(** A member whose name cannot be read: [member["name"]] raises. *)
Definition unnamed (member : json) : Prop :=
  exists e, getitem member "name" = inl e.

Definition name_of (member : json) : string :=
  match getitem member "name" with
  | inr (JStr name) => name
  | _ => ""
  end.

(** The role tag of the member equals "Director". *)
Definition is_director (member : json) : bool :=
  match get_or member "job" JNull with
  | inr job => eq_str job "Director"
  | inl _ => false
  end.

(** The fields of a [MovieDetail]. *)
Definition detail_fields : list string :=
  ["title"; "overview"; "rating"; "release_date"; "cast"; "crew"; "poster_url"].

(** A result that reports a failure: ["error" in v]. *)
Definition failed (v : json) : Prop := contains "error" v = inr true.

(** A result that does not. *)
Definition succeeded (v : json) : Prop := contains "error" v = inr false.

Definition fields_of (v : json) : list (string * json) :=
  match v with
  | JObj fields => fields
  | _ => []
  end.

(** The candidate titles a resolution result carries. *)
Definition titles_in (v : json) : list json :=
  match lookup_key "recommended_movies" (fields_of v) with
  | Some (JArr titles) => titles
  | _ => []
  end.

(** What the two enrichers return for a title. *)
Definition enriched (w : World) (title : json) : list json :=
  [outcome (get_movie_full_details w title); outcome (get_ott_links w title)].

(** The entry of the final list built from a details dictionary and a
    streaming dictionary. *)
Definition entry (details ott : list (string * json)) : json :=
  JObj [("title", default (JStr "N/A") (lookup_key "title" details));
        ("overview", default (JStr "N/A") (lookup_key "overview" details));
        ("rating", default (JStr "N/A") (lookup_key "rating" details));
        ("release_date", default (JStr "N/A") (lookup_key "release_date" details));
        ("cast", default (JStr "N/A") (lookup_key "cast" details));
        ("crew", default (JStr "N/A") (lookup_key "crew" details));
        ("poster_url", default JNull (lookup_key "poster_url" details));
        ("ott_availability",
         if bool_decide (is_Some (lookup_key "error" ott))
         then JStr "Not Available" else JObj ott)].

Definition entry_for (w : World) (title : json) : json :=
  entry (fields_of (outcome (get_movie_full_details w title)))
        (fields_of (outcome (get_ott_links w title))).

(** The calls of the fallback resolver in a trace, with their arguments. *)
Definition fallback_calls (trace : list invocation) : list (string * Z) :=
  omap (fun i => match i with
                 | Recommend_tmdb movie_name k _ => Some (movie_name, k)
                 | _ => None
                 end) trace.

(** A call of one of the two enrichers. *)
Definition is_enrichment (i : invocation) : Prop :=
  match i with
  | Get_movie_full_details _ _ | Get_ott_links _ _ => True
  | _ => False
  end.

(** The titles for which an enricher was called in a trace. *)
Definition enrichment_calls (trace : list invocation) : list json :=
  omap (fun i => match i with
                 | Get_movie_full_details title _ | Get_ott_links title _ => Some title
                 | _ => None
                 end) trace.

(** A movie of a similar-titles response: a dictionary with a title. *)
Definition titled (movie : json) : Prop :=
  exists fields title, movie = JObj fields /\ lookup_key "title" fields = Some title.

Definition title_of (movie : json) : json :=
  default JNull (lookup_key "title" (fields_of movie)).

(** The name of a streaming provider, [p.get("provider_name")]. *)
Definition provider_name (provider : json) : json :=
  default JNull (lookup_key "provider_name" (fields_of provider)).

(** The titles passed to the details enricher in a trace. *)
Definition details_calls (trace : list invocation) : list json :=
  omap (fun i => match i with
                 | Get_movie_full_details title _ => Some title
                 | _ => None
                 end) trace.

(** The titles passed to the streaming enricher in a trace. *)
Definition streaming_calls (trace : list invocation) : list json :=
  omap (fun i => match i with
                 | Get_ott_links title _ => Some title
                 | _ => None
                 end) trace.

(** The requests an invocation made. *)
Definition requests_of (i : invocation) : list string :=
  match i with
  | Recommend_ml _ _ => []
  | Recommend_tmdb _ _ requests
  | Get_movie_full_details _ requests
  | Get_ott_links _ requests => requests
  end.

(** All the requests of a trace of the aggregator. *)
Definition all_requests (trace : list invocation) : list string :=
  trace ≫= requests_of.

(** The texts of the URLs and of the key play no part in the proofs:
    simplification leaves them folded. *)
Arguments TMDB_API_KEY : simpl never.
Arguments fmt : simpl never.
Arguments search_url : simpl never.
Arguments similar_url : simpl never.
Arguments details_url : simpl never.
Arguments credits_url : simpl never.
Arguments provider_url : simpl never.
Arguments App.search_url : simpl never.
Arguments App.rec_url : simpl never.
Arguments error_dict : simpl never.

(** ** Facts about traces and concurrent tasks *)

Section TraceFacts.

Context {E : Type}.

Lemma bind_returns {A B} (m : M E A) (f : A -> M E B) (a : A) :
  outcome m = inr a ->
  log (m ≫= f) = (log m ++ log (f a))%list /\ outcome (m ≫= f) = outcome (f a).
Proof.
  destruct m as [l [e | a']]; simpl; intros H; [discriminate |].
  injection H as ->. by destruct (f a).
Qed.

Lemma bind_raises {A B} (m : M E A) (f : A -> M E B) (e : exn) :
  outcome m = inl e ->
  log (m ≫= f) = log m /\ outcome (m ≫= f) = inl e.
Proof.
  destruct m as [l [e' | a]]; simpl; intros H; [| discriminate].
  injection H as ->. done.
Qed.

End TraceFacts.

Section GatherFacts.

Context {E A : Type}.

Implicit Types (tasks : list (M E A)) (vals : list A) (finished : gmap nat A).

Lemma complete_returns tasks vals order finished :
  Forall2 returns tasks vals ->
  (forall i x, finished !! i = Some x -> vals !! i = Some x) ->
  exists finished',
    outcome (complete tasks order finished) = inr finished' /\
    (forall i x, finished' !! i = Some x -> vals !! i = Some x) /\
    (forall i, is_Some (finished !! i) -> is_Some (finished' !! i)) /\
    (forall i, i ∈ order -> (i < length tasks)%nat -> is_Some (finished' !! i)).
Proof.
  intros Hret. revert finished.
  induction order as [| i rest IH]; intros finished Hdone; simpl.
  - exists finished. repeat split; auto. intros i Hi. by apply elem_of_nil in Hi.
  - destruct (finished !! i) as [x |] eqn:Hi.
    + destruct (IH finished Hdone) as (finished' & Hout & Hsound & Hmono & Hcover).
      exists finished'. repeat split; auto.
      intros j [-> | Hj]%elem_of_cons Hlt; [| by auto].
      apply Hmono. by rewrite Hi.
    + destruct (tasks !! i) as [task |] eqn:Ht.
      * destruct (Forall2_lookup_l _ _ _ _ _ Hret Ht) as (v & Hv & Hrun).
        destruct (IH (<[i := v]> finished)) as (finished' & Hout & Hsound & Hmono & Hcover).
        { intros j x. rewrite lookup_insert.
          case_decide; [intros [= <-]; by subst | by auto]. }
        exists finished'. split; [| repeat split]; auto.
        -- destruct (bind_returns task
                       (fun x => complete tasks rest (<[i := x]> finished)) v Hrun)
             as [_ ->]. done.
        -- intros j Hj. apply Hmono. rewrite lookup_insert.
           case_decide; [by eexists | done].
        -- intros j [-> | Hj]%elem_of_cons Hlt; [| by auto].
           apply Hmono. rewrite lookup_insert_eq. by eexists.
      * destruct (IH finished Hdone) as (finished' & Hout & Hsound & Hmono & Hcover).
        exists finished'. repeat split; auto.
        intros j [-> | Hj]%elem_of_cons Hlt; [| by auto].
        apply lookup_ge_None in Ht. lia.
Qed.

Lemma omap_seq_lookup (f : nat -> option A) vals (a : nat) :
  (forall i x, vals !! i = Some x -> f (a + i)%nat = Some x) ->
  omap f (seq a (length vals)) = vals.
Proof.
  revert a. induction vals as [| v vals IH]; intros a Hf; simpl; [done |].
  assert (f a = Some v) as Ha.
  { rewrite <- (Nat.add_0_r a). by apply Hf. }
  rewrite Ha. f_equal. apply IH. intros i x Hi.
  replace (S a + i)%nat with (a + S i)%nat by lia. by apply Hf.
Qed.

(** Whatever the completion order, [gather] returns the results of the
    tasks by task position. *)
Lemma gather_returns order tasks vals :
  Forall2 returns tasks vals ->
  outcome (gather order tasks) = inr vals.
Proof.
  intros Hret. unfold gather.
  destruct (complete_returns tasks vals (order ++ seq 0 (length tasks)) ∅ Hret)
    as (finished' & Hout & Hsound & _ & Hcover).
  { intros i x. by rewrite lookup_empty. }
  destruct (bind_returns _
    (fun finished => mret (omap (fun i => finished !! i) (seq 0 (length tasks)))) _ Hout)
    as [_ ->].
  simpl. f_equal.
  rewrite (Forall2_length _ _ _ Hret). apply omap_seq_lookup.
  intros i x Hi. simpl.
  destruct (Hcover i) as [y Hy].
  - apply elem_of_app. right. apply elem_of_seq.
    apply lookup_lt_Some in Hi. rewrite (Forall2_length _ _ _ Hret). lia.
  - apply lookup_lt_Some in Hi. by rewrite (Forall2_length _ _ _ Hret).
  - rewrite Hy. apply Hsound in Hy. congruence.
Qed.

Lemma complete_log (P : E -> Prop) tasks order finished :
  Forall (fun t => Forall P (log t)) tasks ->
  Forall P (log (complete tasks order finished)).
Proof.
  intros Htasks. revert finished.
  induction order as [| i rest IH]; intros finished; simpl; [by constructor |].
  destruct (finished !! i); [by apply IH |].
  destruct (tasks !! i) as [task |] eqn:Ht; [| by apply IH].
  pose proof (Forall_lookup_1 _ _ _ _ Htasks Ht) as Hlog.
  destruct task as [l [e | x]]; simpl in *; [done |].
  specialize (IH (<[i := x]> finished)).
  destruct (complete tasks rest (<[i := x]> finished)) as [l' r].
  apply Forall_app. by split.
Qed.

(** Every event of [gather] is an event of one of its tasks. *)
Lemma gather_log (P : E -> Prop) order tasks :
  Forall (fun t => Forall P (log t)) tasks ->
  Forall P (log (gather order tasks)).
Proof.
  intros Htasks. unfold gather.
  pose proof (complete_log P tasks (order ++ seq 0 (length tasks)) ∅ Htasks) as H.
  destruct (complete tasks (order ++ seq 0 (length tasks)) ∅) as [l [e | finished']];
    simpl in *; [done |].
  by rewrite app_nil_r.
Qed.

End GatherFacts.

(** ** The shape of what the functions return *)

Section Yields.

Context {E A : Type}.

Lemma yields_ret (P : A -> Prop) (a : A) : P a -> yields (E:=E) P (mret a).
Proof. intros H b [= <-]. exact H. Qed.

Lemma yields_bind {B} (P : A -> Prop) (m : M E B) (f : B -> M E A) :
  (forall b, yields P (f b)) -> yields P (m ≫= f).
Proof.
  intros H. destruct m as [l [e | b]]; simpl.
  - intros a [=].
  - intros a Ha. apply (H b). by destruct (f b).
Qed.

Lemma try_except_yields (P : A -> Prop) (body : M E A) (handler : exn -> A) :
  yields P body -> (forall e, P (handler e)) ->
  P (outcome (try_except body handler)).
Proof.
  intros Hbody Hh. destruct body as [l [e | a]]; simpl; [apply Hh |].
  by apply Hbody.
Qed.

End Yields.

Ltac yields_step :=
  lazymatch goal with
  | |- yields _ (mbind _ _) => apply yields_bind; intros ?
  | |- yields _ (mret _) => apply yields_ret
  | |- yields _ (if ?b then _ else _) => destruct b
  | |- yields _ (match ?x with (_, _) => _ end) => destruct x
  end.


Section Shapes.

Context (w : World).

Lemma is_error_dict msg : is_error (error_dict msg).
Proof. by exists msg. Qed.

Lemma enricher_handler_error e : is_error (enricher_handler e).
Proof. unfold enricher_handler. destruct (is_client_error e); apply is_error_dict. Qed.

Lemma recommend_ml_shape movie_name k rec_result :
  recommend_ml w movie_name k = inr rec_result ->
  is_error rec_result \/ is_candidates "ML model" rec_result.
Proof.
  unfold recommend_ml.
  destruct (knn_model w) as [knn |], (vectorizer w) as [vec |],
    (movies_df w) as [df |];
    try (intros [= <-]; left; apply is_error_dict).
  destruct (transform vec _) as [e | input_vector]; simpl; [done |].
  intros [= <-]. unfold recommend_ml_body.
  destruct (kneighbors _ _ _) as [e | indices]; simpl; [left; apply is_error_dict |].
  destruct (from_1 _) as [e | rec_indices]; simpl; [left; apply is_error_dict |].
  destruct (iloc _ _) as [e | selected]; simpl; [left; apply is_error_dict |].
  destruct (column_tolist _ _) as [e | titles]; simpl; [left; apply is_error_dict |].
  right. by exists titles.
Qed.

Lemma recommend_tmdb_shape movie_name k :
  is_error (outcome (recommend_tmdb w movie_name k)) \/
  is_candidates "TMDB fallback" (outcome (recommend_tmdb w movie_name k)).
Proof.
  unfold recommend_tmdb.
  destruct (String.eqb _ _); [left; apply is_error_dict |].
  apply (try_except_yields
           (fun v => is_error v \/ is_candidates "TMDB fallback" v));
    [| intros e; left; apply is_error_dict].
  unfold recommend_tmdb_body.
  repeat yields_step; try (left; apply is_error_dict).
  right. by eexists.
Qed.

Lemma get_movie_full_details_shape title :
  is_error (outcome (get_movie_full_details w title)) \/
  is_details (outcome (get_movie_full_details w title)).
Proof.
  unfold get_movie_full_details.
  apply (try_except_yields (fun v => is_error v \/ is_details v));
    [| intros e; left; apply enricher_handler_error].
  unfold get_movie_full_details_body.
  repeat yields_step; try (left; apply is_error_dict).
  right. unfold is_details. by repeat eexists.
Qed.

Lemma get_ott_links_shape title :
  is_error (outcome (get_ott_links w title)) \/
  is_providers (outcome (get_ott_links w title)).
Proof.
  unfold get_ott_links.
  apply (try_except_yields (fun v => is_error v \/ is_providers v));
    [| intros e; left; apply enricher_handler_error].
  unfold get_ott_links_body.
  repeat yields_step; try (left; apply is_error_dict).
  right. unfold is_providers. by repeat eexists.
Qed.

End Shapes.

(** ** The aggregator, step by step *)

Section Aggregator.

Context (w : World).

Lemma failed_error v : is_error v -> failed v.
Proof. by intros [msg ->]. Qed.

Lemma succeeded_candidates source v : is_candidates source v -> succeeded v.
Proof. by intros [titles ->]. Qed.

Lemma titles_in_error v : is_error v -> titles_in v = [].
Proof. by intros [msg ->]. Qed.

Lemma is_error_is_dict v : is_error v -> is_dict v.
Proof. intros [msg ->]. by eexists. Qed.

Lemma get_movie_full_details_dict title :
  is_dict (outcome (get_movie_full_details w title)).
Proof.
  destruct (get_movie_full_details_shape w title) as [H | H];
    [by apply is_error_is_dict |].
  destruct H as (? & ? & ? & ? & ? & ? & ? & ->). by eexists.
Qed.

Lemma get_ott_links_dict title : is_dict (outcome (get_ott_links w title)).
Proof.
  destruct (get_ott_links_shape w title) as [H | H];
    [by apply is_error_is_dict |].
  destruct H as (? & ? & ->). by eexists.
Qed.

Lemma movie_info_dicts d o : movie_info [JObj d; JObj o] = inr (entry d o).
Proof.
  unfold movie_info, entry; simpl.
  by destruct (bool_decide (is_Some (lookup_key "error" o))).
Qed.

Lemma movie_info_enriched title :
  movie_info (enriched w title) = inr (entry_for w title).
Proof.
  unfold enriched, entry_for.
  destruct (get_movie_full_details_dict title) as [d ->].
  destruct (get_ott_links_dict title) as [o ->].
  apply movie_info_dicts.
Qed.

Lemma mapM_res_cons {A B} (f : A -> res B) (x : A) (l : list A) :
  mapM f (x :: l) = (y ← f x; k ← mapM f l; mret (y :: k)).
Proof. reflexivity. Qed.

Lemma mapM_movie_info titles :
  mapM movie_info (map (enriched w) titles) = inr (map (entry_for w) titles).
Proof.
  induction titles as [| t titles IH]; [done |].
  rewrite !map_cons, mapM_res_cons, movie_info_enriched, IH. reflexivity.
Qed.

Lemma enrichment_task_returns order title :
  returns (gather order [call_get_movie_full_details w title;
                         call_get_ott_links w title])
          (enriched w title).
Proof. apply gather_returns. by repeat constructor. Qed.

Lemma Forall2_imap_map {A B C} (R : B -> C -> Prop) (f : nat -> A -> B)
    (g : A -> C) (l : list A) :
  (forall i x, R (f i x) (g x)) -> Forall2 R (imap f l) (map g l).
Proof.
  revert f. induction l as [| x l IH]; intros f H; simpl; constructor; [done |].
  apply IH. intros i y. apply H.
Qed.

Lemma enrichment_tasks_return s titles :
  Forall2 returns (enrichment_tasks w s titles) (map (enriched w) titles).
Proof.
  apply Forall2_imap_map. intros i title. apply enrichment_task_returns.
Qed.

(** The resolution stage: what it calls and what it returns. *)
Lemma resolve_candidates_failed movie_name k rec_result :
  recommend_ml w movie_name k = inr rec_result ->
  failed rec_result ->
  resolve_candidates w movie_name k =
    ([Recommend_ml movie_name k;
      Recommend_tmdb movie_name k (log (recommend_tmdb w movie_name k))],
     inr (JArr (titles_in (outcome (recommend_tmdb w movie_name k))))).
Proof.
  unfold failed, resolve_candidates, call_recommend_ml, call_recommend_tmdb.
  intros -> Hml. simpl. rewrite Hml. simpl.
  destruct (recommend_tmdb_shape w movie_name k) as [[msg ->] | [titles ->]]; done.
Qed.

Lemma resolve_candidates_succeeded movie_name k rec_result :
  recommend_ml w movie_name k = inr rec_result ->
  succeeded rec_result ->
  resolve_candidates w movie_name k =
    ([Recommend_ml movie_name k], inr (JArr (titles_in rec_result))).
Proof.
  unfold succeeded, resolve_candidates, call_recommend_ml.
  intros Hrec Hml. rewrite Hrec. simpl. rewrite Hml. simpl.
  destruct (recommend_ml_shape w movie_name k _ Hrec) as [[msg Hm] | [titles Hm]];
    rewrite Hm in Hml |- *; [discriminate | done].
Qed.

(** An exception of the lookup leaves the resolution stage, and the
    aggregator, before anything else is called. *)
Lemma resolve_candidates_raised movie_name k e :
  recommend_ml w movie_name k = inl e ->
  resolve_candidates w movie_name k = ([Recommend_ml movie_name k], inl e).
Proof.
  unfold resolve_candidates, call_recommend_ml. by intros ->.
Qed.

Lemma get_full_recommendations_raised s movie_name k e :
  recommend_ml w movie_name k = inl e ->
  get_full_recommendations w s movie_name k = ([Recommend_ml movie_name k], inl e).
Proof.
  intros H. unfold get_full_recommendations.
  by rewrite (resolve_candidates_raised _ _ _ H).
Qed.

Lemma recommend_ml_failed_or_succeeded movie_name k rec_result :
  recommend_ml w movie_name k = inr rec_result ->
  failed rec_result \/ succeeded rec_result.
Proof.
  intros Hrec.
  destruct (recommend_ml_shape w movie_name k _ Hrec) as [H | H];
    [left; by apply failed_error | right; by eapply succeeded_candidates].
Qed.

Lemma resolve_candidates_returns movie_name k rec_result :
  recommend_ml w movie_name k = inr rec_result ->
  exists titles,
    outcome (resolve_candidates w movie_name k) = inr (JArr titles).
Proof.
  intros Hrec.
  destruct (recommend_ml_failed_or_succeeded movie_name k _ Hrec) as [H | H].
  - rewrite (resolve_candidates_failed _ _ _ Hrec H). by eexists.
  - rewrite (resolve_candidates_succeeded _ _ _ Hrec H). by eexists.
Qed.

(** The whole run after the resolution stage has returned: the
    aggregator returns too, its trace is the resolution stage followed by
    the enrichment tasks, and its result has one entry per candidate
    title. *)
Lemma get_full_recommendations_run s movie_name k titles :
  outcome (resolve_candidates w movie_name k) = inr (JArr titles) ->
  log (get_full_recommendations w s movie_name k) =
    (log (resolve_candidates w movie_name k)
     ++ log (gather (tasks_order s) (enrichment_tasks w s titles)))%list /\
  outcome (get_full_recommendations w s movie_name k) =
    inr (JObj [("recommended_movies", JArr (map (entry_for w) titles))]).
Proof.
  intros Hres. unfold get_full_recommendations.
  destruct (bind_returns (resolve_candidates w movie_name k)
    (fun recommended_titles =>
       titles ← lift (iter recommended_titles);
       results ← gather (tasks_order s) (enrichment_tasks w s titles);
       full_recommendations ← lift (mapM movie_info results);
       mret (JObj [("recommended_movies", JArr full_recommendations)]))
    _ Hres) as [-> ->].
  simpl.
  pose proof (gather_returns (tasks_order s) _ _ (enrichment_tasks_return s titles))
    as Hg.
  destruct (gather (tasks_order s) (enrichment_tasks w s titles)) as [lg [e | rs]];
    simpl in *; [discriminate |].
  injection Hg as ->. rewrite mapM_movie_info. simpl.
  by rewrite !app_nil_r.
Qed.

End Aggregator.

(** ** The properties of the specification *)

Section Properties.

Context (w : World).

Lemma Forall_imap {A B} (P : B -> Prop) (f : nat -> A -> B) (l : list A) :
  (forall i x, P (f i x)) -> Forall P (imap f l).
Proof.
  revert f. induction l as [| x l IH]; intros f H; simpl; constructor; [done |].
  apply IH. intros i y. apply H.
Qed.

Lemma enrichment_log s titles :
  Forall is_enrichment
    (log (gather (tasks_order s) (enrichment_tasks w s titles))).
Proof.
  apply gather_log, Forall_imap. intros i title.
  apply gather_log. by repeat constructor.
Qed.

Lemma fallback_calls_enrichment trace :
  Forall is_enrichment trace -> fallback_calls trace = [].
Proof.
  induction 1 as [| i trace Hi _ IH]; [done |].
  destruct i; simpl in *; done.
Qed.

Lemma gather_nil {E A} order : gather (E:=E) (A:=A) order [] = ([], inr []).
Proof.
  unfold gather. simpl. rewrite app_nil_r.
  assert (forall finished,
            complete (E:=E) (A:=A) [] order finished = ([], inr finished)) as ->.
  { induction order as [| i rest IH]; intros finished; [done |].
    simpl. by destruct (finished !! i). }
  done.
Qed.

(** When both tiers answer with an error the aggregator makes no
    enrichment call and returns an empty list of recommendations. *)
Lemma both_tiers_failed s movie_name k rec_result :
  recommend_ml w movie_name k = inr rec_result ->
  failed rec_result ->
  failed (outcome (recommend_tmdb w movie_name k)) ->
  get_full_recommendations w s movie_name k =
    ([Recommend_ml movie_name k;
      Recommend_tmdb movie_name k (log (recommend_tmdb w movie_name k))],
     inr (JObj [("recommended_movies", JArr [])])).
Proof.
  intros Hrec Hml Htmdb.
  pose proof (resolve_candidates_failed w movie_name k _ Hrec Hml) as Hres.
  assert (titles_in (outcome (recommend_tmdb w movie_name k)) = []) as Hnone.
  { destruct (recommend_tmdb_shape w movie_name k) as [H | [titles H]];
      [by apply titles_in_error |].
    rewrite H in Htmdb. discriminate. }
  rewrite Hnone in Hres.
  unfold get_full_recommendations. rewrite Hres. simpl.
  unfold enrichment_tasks. simpl. by rewrite gather_nil.
Qed.

End Properties.

(** C3. When the similarity index returns an error dictionary (the
    model is not loaded, or the neighbour search or the title lookup
    raised inside the [try]) the aggregator calls the fallback resolver
    exactly once, with the same movie name and [k]; when the index
    succeeds the fallback is not called.  But a lookup that fails by
    raising, which it does when the artifacts are loaded and [transform]
    raises, leaves the aggregator at once: the fallback is not called. *)
Theorem C3_fallback_activation (w : World) (s : schedule) (movie_name : string) (k : Z) :
  (forall rec_result,
     recommend_ml w movie_name k = inr rec_result ->
     failed rec_result ->
     fallback_calls (log (get_full_recommendations w s movie_name k)) =
       [(movie_name, k)]) /\
  (forall rec_result,
     recommend_ml w movie_name k = inr rec_result ->
     succeeded rec_result ->
     fallback_calls (log (get_full_recommendations w s movie_name k)) = []) /\
  (forall knn vec df e,
     artifacts w = inr (knn, vec, df) ->
     transform vec [str_strip w (str_lower w movie_name)] = inl e ->
     recommend_ml w movie_name k = inl e /\
     get_full_recommendations w s movie_name k =
       ([Recommend_ml movie_name k], inl e) /\
     fallback_calls (log (get_full_recommendations w s movie_name k)) = []).
Proof.
  assert (forall rec_result titles,
            recommend_ml w movie_name k = inr rec_result ->
            outcome (resolve_candidates w movie_name k) = inr (JArr titles) ->
            fallback_calls (log (get_full_recommendations w s movie_name k)) =
            fallback_calls (log (resolve_candidates w movie_name k))) as Hlog.
  { intros rec_result titles Hrec Hres.
    destruct (get_full_recommendations_run w s movie_name k titles Hres) as [-> _].
    unfold fallback_calls at 1. rewrite omap_app.
    fold (fallback_calls (log (gather (tasks_order s) (enrichment_tasks w s titles)))).
    by rewrite (fallback_calls_enrichment _ (enrichment_log w s titles)), app_nil_r. }
  split; [| split].
  - intros rec_result Hrec Hf.
    pose proof (resolve_candidates_failed w _ _ _ Hrec Hf) as Hres.
    rewrite (Hlog _ _ Hrec (f_equal outcome Hres)). by rewrite Hres.
  - intros rec_result Hrec Hok.
    pose proof (resolve_candidates_succeeded w _ _ _ Hrec Hok) as Hres.
    rewrite (Hlog _ _ Hrec (f_equal outcome Hres)). by rewrite Hres.
  - intros knn vec df e Hart Htransform.
    assert (recommend_ml w movie_name k = inl e) as Hraise.
    { unfold recommend_ml, knn_model, vectorizer, movies_df.
      by rewrite Hart, Htransform. }
    split; [exact Hraise |].
    by rewrite (get_full_recommendations_raised w s _ _ _ Hraise).
Qed.

Lemma C3_fallback_activation_witness :
  fallback_calls
    (log (get_full_recommendations Sample.offline Sample.backwards "Avatar" 2)) =
    [("Avatar", 2%Z)] /\
  fallback_calls
    (log (get_full_recommendations Sample.online Sample.backwards "Avatar" 2)) = [] /\
  get_full_recommendations Cases.unfitted Sample.backwards "Avatar" 2 =
    ([Recommend_ml "Avatar" 2],
     inl (OtherError "The TF-IDF vectorizer is not fitted")).
Proof.
  destruct (C3_fallback_activation Sample.offline Sample.backwards "Avatar" 2)
    as (Hfailed & _ & _).
  destruct (C3_fallback_activation Sample.online Sample.backwards "Avatar" 2)
    as (_ & Hok & _).
  destruct (C3_fallback_activation Cases.unfitted Sample.backwards "Avatar" 2)
    as (_ & _ & Hraise).
  split; [| split].
  - eapply Hfailed; reflexivity.
  - eapply Hok; reflexivity.
  - eapply Hraise; reflexivity.
Defined.

Section Fallback.

Context (w : World).

(** The fallback when the search finds nothing. *)
Lemma recommend_tmdb_not_found movie_name k data :
  TMDB_API_KEY w <> "" ->
  remote w (search_url w (str_strip w (str_lower w movie_name))) = inr (Response 200 (inr data)) ->
  no_results data ->
  recommend_tmdb w movie_name k =
    ([search_url w (str_strip w (str_lower w movie_name))],
     error_dict "Movie not found in TMDB.").
Proof.
  intros Hkey Hsearch (results & Hget & Hfalsy).
  unfold recommend_tmdb. apply String.eqb_neq in Hkey. rewrite Hkey.
  unfold recommend_tmdb_body, http_get. simpl. rewrite Hsearch. simpl.
  rewrite Hget. simpl. by rewrite Hfalsy.
Qed.

(** The fallback when the top match has no similar titles. *)
Lemma recommend_tmdb_no_similar movie_name k data movie_id similar_data :
  TMDB_API_KEY w <> "" ->
  remote w (search_url w (str_strip w (str_lower w movie_name))) = inr (Response 200 (inr data)) ->
  top_match data movie_id ->
  remote w (similar_url w movie_id) = inr (Response 200 (inr similar_data)) ->
  no_results similar_data ->
  recommend_tmdb w movie_name k =
    ([search_url w (str_strip w (str_lower w movie_name)); similar_url w movie_id],
     error_dict "No similar movies found on TMDB.").
Proof.
  intros Hkey Hsearch (results & Hget & Htruthy & Hid) Hsimilar (sr & Hsr & Hfalsy).
  unfold recommend_tmdb. apply String.eqb_neq in Hkey. rewrite Hkey.
  unfold recommend_tmdb_body, http_get. simpl. rewrite Hsearch. simpl.
  rewrite Hget. simpl. rewrite Htruthy. simpl. rewrite Hid. simpl.
  rewrite Hsimilar. simpl. rewrite Hsr. simpl. by rewrite Hfalsy.
Qed.

End Fallback.

(** C1. With the similarity index failing and the fallback's search
    answering with zero results, the fallback returns the not-found
    error, and the aggregator calls no enricher; what it returns is an
    empty list of recommendations, which carries no error. *)
Theorem C1_not_found_returns_empty_list (w : World) (s : schedule)
    (movie_name : string) (k : Z) (rec_result data : json) :
  recommend_ml w movie_name k = inr rec_result ->
  failed rec_result ->
  TMDB_API_KEY w <> "" ->
  remote w (search_url w (str_strip w (str_lower w movie_name))) = inr (Response 200 (inr data)) ->
  no_results data ->
  outcome (recommend_tmdb w movie_name k) = error_dict "Movie not found in TMDB." /\
  outcome (get_full_recommendations w s movie_name k) =
    inr (JObj [("recommended_movies", JArr [])]) /\
  enrichment_calls (log (get_full_recommendations w s movie_name k)) = [].
Proof.
  intros Hrec Hml Hkey Hsearch Hnone.
  pose proof (recommend_tmdb_not_found w movie_name k data Hkey Hsearch Hnone) as Htmdb.
  assert (failed (outcome (recommend_tmdb w movie_name k))) as Hfailed
    by (by rewrite Htmdb).
  rewrite (both_tiers_failed w s movie_name k _ Hrec Hml Hfailed).
  by rewrite Htmdb.
Qed.

Lemma C1_not_found_returns_empty_list_witness :
  outcome (recommend_tmdb Sample.offline "Zzzznotamovie123" 5) =
    error_dict "Movie not found in TMDB." /\
  outcome (get_full_recommendations Sample.offline Sample.in_order
             "Zzzznotamovie123" 5) =
    inr (JObj [("recommended_movies", JArr [])]) /\
  enrichment_calls
    (log (get_full_recommendations Sample.offline Sample.in_order
            "Zzzznotamovie123" 5)) = [].
Proof.
  apply (C1_not_found_returns_empty_list Sample.offline Sample.in_order
           "Zzzznotamovie123" 5
           (error_dict "Pre-trained ML model or movies mapping is not available.")
           (JObj [("results", JArr [])])).
  - reflexivity.
  - reflexivity.
  - discriminate.
  - reflexivity.
  - exists (JArr []). split; reflexivity.
Defined.

(** C10. When the fallback's search finds a top match and the
    similar-titles response carries zero results, the fallback returns
    an error dictionary, not an empty list of candidates; if the
    similarity index failed too, the aggregator returns what it returns
    for every other failure of both tiers. *)
Theorem C10_no_similar_titles_is_an_error (w : World) (s : schedule)
    (movie_name : string) (k : Z) (data movie_id similar_data : json) :
  TMDB_API_KEY w <> "" ->
  remote w (search_url w (str_strip w (str_lower w movie_name))) = inr (Response 200 (inr data)) ->
  top_match data movie_id ->
  remote w (similar_url w movie_id) = inr (Response 200 (inr similar_data)) ->
  no_results similar_data ->
  outcome (recommend_tmdb w movie_name k) =
    error_dict "No similar movies found on TMDB." /\
  failed (outcome (recommend_tmdb w movie_name k)) /\
  (forall rec_result,
     recommend_ml w movie_name k = inr rec_result ->
     failed rec_result ->
     forall w' s' movie_name' k' rec_result',
       recommend_ml w' movie_name' k' = inr rec_result' ->
       failed rec_result' ->
       failed (outcome (recommend_tmdb w' movie_name' k')) ->
     outcome (get_full_recommendations w s movie_name k) =
     outcome (get_full_recommendations w' s' movie_name' k')).
Proof.
  intros Hkey Hsearch Htop Hsimilar Hnone.
  pose proof (recommend_tmdb_no_similar w movie_name k _ _ _
                Hkey Hsearch Htop Hsimilar Hnone) as Htmdb.
  assert (failed (outcome (recommend_tmdb w movie_name k))) as Hfailed
    by (by rewrite Htmdb).
  split; [by rewrite Htmdb |]. split; [exact Hfailed |].
  intros rec_result Hrec Hml w' s' movie_name' k' rec_result' Hrec' Hml' Hfailed'.
  by rewrite (both_tiers_failed w s movie_name k _ Hrec Hml Hfailed),
             (both_tiers_failed w' s' movie_name' k' _ Hrec' Hml' Hfailed').
Qed.

Lemma C10_no_similar_titles_is_an_error_witness :
  outcome (recommend_tmdb Sample.offline "Tron" 5) =
    error_dict "No similar movies found on TMDB." /\
  outcome (get_full_recommendations Sample.offline Sample.in_order "Tron" 5) =
  outcome (get_full_recommendations Sample.offline Sample.backwards
             "Zzzznotamovie123" 3).
Proof.
  destruct (C10_no_similar_titles_is_an_error Sample.offline Sample.in_order "Tron" 5
              (JObj [("results", JArr [Sample.movie 4 "Tron"])]) (JInt 4)
              (JObj [("results", JArr [])]))
    as (Herr & _ & Hsame).
  - discriminate.
  - reflexivity.
  - exists (JArr [Sample.movie 4 "Tron"]). repeat split; reflexivity.
  - reflexivity.
  - exists (JArr []). split; reflexivity.
  - split; [exact Herr |].
    eapply Hsame; reflexivity.
Defined.

Section SimilarityIndex.

Context (w : World).

Lemma find_column_map name (g : (nat -> json) -> nat -> json) cols :
  find_column name (map (fun cf => (cf.1, g cf.2)) cols) =
  g <$> find_column name cols.
Proof.
  induction cols as [| [c f] cols IH]; simpl; [done |].
  by destruct (String.eqb c name).
Qed.

Lemma map_nth_seq {A B} (f : A -> B) (d : A) (l : list A) :
  map (fun i => f (nth i l d)) (seq 0 (length l)) = map f l.
Proof.
  induction l as [| x l IH]; simpl; [done |].
  f_equal. rewrite <- seq_shift, map_map. exact IH.
Qed.

Lemma squeeze_tolist_vector row :
  (2 <= length row)%nat -> squeeze_tolist row = Vector row.
Proof. destruct row as [| i [| j row]]; simpl; [lia | lia | done]. Qed.

Lemma kneighbors_length knn X n row :
  kneighbors knn X n = inr row -> Z.of_nat (length row) = n.
Proof.
  unfold kneighbors. destruct (n <=? 0)%Z eqn:Hn; [done |].
  destruct (ranking knn X) as [e | ranked]; simpl; [done |].
  destruct (Z.of_nat (length ranked) <? n)%Z eqn:Hlen; [done |].
  intros [= <-]. rewrite length_take. lia.
Qed.

(** What a successful lookup has done. *)
Lemma recommend_ml_success movie_name k rec_result :
  (1 <= k)%Z ->
  recommend_ml w movie_name k = inr rec_result ->
  succeeded rec_result ->
  exists knn vec df input_vector indices col,
    artifacts w = inr (knn, vec, df) /\
    transform vec [str_strip w (str_lower w movie_name)] = inr input_vector /\
    kneighbors knn input_vector (k + 1) = inr indices /\
    find_column "title" (columns df) = Some col /\
    rec_result =
      JObj [("recommended_movies", JArr (map col (drop 1 indices)));
            ("source", JStr "ML model")].
Proof.
  intros Hk. unfold succeeded, recommend_ml, knn_model, vectorizer, movies_df.
  destruct (artifacts w) as [e | [[knn vec] df]]; [by intros [= <-] |].
  destruct (transform vec _) as [e | input_vector] eqn:Hvec; [done |].
  simpl. intros [= <-].
  unfold recommend_ml_body.
  destruct (kneighbors knn _ (k + 1)) as [e | indices] eqn:Hknn; simpl; [done |].
  pose proof (kneighbors_length _ _ _ _ Hknn) as Hlen.
  rewrite squeeze_tolist_vector by lia. simpl.
  unfold iloc.
  destruct (forallb _ (drop 1 indices)); simpl; [| done].
  unfold column_tolist. simpl.
  rewrite (find_column_map "title"
             (fun f i => f (nth i (drop 1 indices) O)) (columns df)).
  destruct (find_column "title" (columns df)) as [col |] eqn:Hcol; simpl; [| done].
  intros _. exists knn, vec, df, input_vector, indices, col.
  repeat split; try done.
  by rewrite (map_nth_seq col O (drop 1 indices)).
Qed.

End SimilarityIndex.

(** C7. For [k >= 1], a lookup that succeeds has loaded the index, asked
    it for the [k + 1] nearest neighbours of the vectorized query (the
    first [k + 1] fitted samples by increasing distance), left the first
    of them out, and returns the titles of the [k] others in neighbour
    order. *)
Theorem C7_index_lookup (w : World) (movie_name : string) (k : Z)
    (rec_result : json) :
  (1 <= k)%Z ->
  recommend_ml w movie_name k = inr rec_result ->
  succeeded rec_result ->
  exists knn vec df input_vector ranked nearest others col,
    artifacts w = inr (knn, vec, df) /\
    transform vec [str_strip w (str_lower w movie_name)] = inr input_vector /\
    ranking knn input_vector = inr ranked /\
    kneighbors knn input_vector (k + 1) = inr (nearest :: others) /\
    nearest :: others = take (Z.to_nat (k + 1)) ranked /\
    Z.of_nat (length others) = k /\
    find_column "title" (columns df) = Some col /\
    titles_in rec_result = map col others.
Proof.
  intros Hk Hrec Hok.
  destruct (recommend_ml_success w movie_name k rec_result Hk Hrec Hok)
    as (knn & vec & df & input_vector & indices & col
        & Hart & Hvec & Hknn & Hcol & Hres).
  pose proof (kneighbors_length _ _ _ _ Hknn) as Hlen.
  destruct indices as [| nearest others]; simpl in Hlen; [lia |].
  pose proof Hknn as Hrank. unfold kneighbors in Hrank.
  destruct (k + 1 <=? 0)%Z; [done |].
  destruct (ranking knn _) as [e | ranked] eqn:Hranked; simpl in Hrank; [done |].
  destruct (Z.of_nat (length ranked) <? k + 1)%Z; [done |].
  injection Hrank as Htake.
  exists knn, vec, df, input_vector, ranked, nearest, others, col.
  repeat split; try done; [lia |].
  by rewrite Hres.
Qed.

Lemma C7_index_lookup_witness :
  exists knn vec df input_vector ranked nearest others col,
    artifacts Sample.online = inr (knn, vec, df) /\
    transform vec [str_strip Sample.online (str_lower Sample.online "Avatar")] =
      inr input_vector /\
    ranking knn input_vector = inr ranked /\
    kneighbors knn input_vector (3 + 1) = inr (nearest :: others) /\
    nearest :: others = take (Z.to_nat (3 + 1)) ranked /\
    Z.of_nat (length others) = 3%Z /\
    find_column "title" (columns df) = Some col /\
    titles_in
      (JObj [("recommended_movies", JArr [JStr "Alien"; JStr "Dune"; JStr "Tron"]);
             ("source", JStr "ML model")]) = map col others.
Proof.
  apply (C7_index_lookup Sample.online "Avatar" 3); [lia | reflexivity | reflexivity].
Defined.

Example recommend_ml_avatar :
  recommend_ml Sample.online " AVATAR " 3 =
  inr (JObj [("recommended_movies", JArr [JStr "Alien"; JStr "Dune"; JStr "Tron"]);
             ("source", JStr "ML model")]).
Proof. reflexivity. Qed.

Example recommend_ml_too_many :
  recommend_ml Sample.online "Avatar" 6 =
  inr (error_dict "ML recommendation failed: Expected n_neighbors <= n_samples_fit").
Proof. reflexivity. Qed.

Example recommend_ml_zero :
  recommend_ml Sample.online "Avatar" 0 =
  inr (error_dict "ML recommendation failed: 'int' object is not subscriptable").
Proof. reflexivity. Qed.

Example recommend_ml_unfitted :
  recommend_ml Cases.unfitted "Avatar" 3 =
  inl (OtherError "The TF-IDF vectorizer is not fitted").
Proof. reflexivity. Qed.

Section Candidates.

Context (w : World).

Lemma recommend_tmdb_truncated movie_name k :
  is_error (outcome (recommend_tmdb w movie_name k)) \/
  exists titles,
    outcome (recommend_tmdb w movie_name k) =
      JObj [("recommended_movies", JArr (slice_to k titles));
            ("source", JStr "TMDB fallback")].
Proof.
  unfold recommend_tmdb.
  destruct (String.eqb _ _); [left; apply is_error_dict |].
  apply (try_except_yields
           (fun v => is_error v \/
                     exists titles,
                       v = JObj [("recommended_movies", JArr (slice_to k titles));
                                 ("source", JStr "TMDB fallback")]));
    [| intros e; left; apply is_error_dict].
  unfold recommend_tmdb_body.
  repeat yields_step; try (left; apply is_error_dict).
  right. by eexists.
Qed.

Lemma slice_to_length {A} (k : Z) (l : list A) :
  (0 <= k)%Z -> (Z.of_nat (length (slice_to k l)) <= k)%Z.
Proof.
  intros Hk. unfold slice_to.
  destruct (0 <=? k)%Z eqn:H; [| lia].
  rewrite length_take. lia.
Qed.

(** The fallback resolver gives at most [k] titles. *)
Lemma recommend_tmdb_bound movie_name k :
  (1 <= k)%Z ->
  (Z.of_nat (length (titles_in (outcome (recommend_tmdb w movie_name k)))) <= k)%Z.
Proof.
  intros Hk.
  destruct (recommend_tmdb_truncated movie_name k) as [H | [ts H]].
  - rewrite (titles_in_error _ H). simpl. lia.
  - rewrite H. simpl. apply slice_to_length. lia.
Qed.

(** A lookup of the index that succeeds gives exactly [k] titles. *)
Lemma recommend_ml_exact movie_name k rec_result :
  (1 <= k)%Z ->
  recommend_ml w movie_name k = inr rec_result ->
  succeeded rec_result ->
  Z.of_nat (length (titles_in rec_result)) = k.
Proof.
  intros Hk Hrec Hml.
  destruct (recommend_ml_success w movie_name k _ Hk Hrec Hml)
    as (knn & vec & df & input_vector & indices & col & _ & _ & Hknn & _ & Hres).
  apply kneighbors_length in Hknn.
  rewrite Hres.
  change (titles_in _) with (map col (drop 1 indices)).
  rewrite length_map, length_drop. lia.
Qed.

(** Neither tier resolves more than [k] candidates. *)
Lemma candidates_bound movie_name k rec_result titles :
  (1 <= k)%Z ->
  recommend_ml w movie_name k = inr rec_result ->
  outcome (resolve_candidates w movie_name k) = inr (JArr titles) ->
  (Z.of_nat (length titles) <= k)%Z.
Proof.
  intros Hk Hrec.
  destruct (recommend_ml_failed_or_succeeded w movie_name k _ Hrec) as [Hml | Hml].
  - rewrite (resolve_candidates_failed w _ _ _ Hrec Hml). simpl. intros [= <-].
    by apply recommend_tmdb_bound.
  - rewrite (resolve_candidates_succeeded w _ _ _ Hrec Hml). simpl. intros [= <-].
    by rewrite (recommend_ml_exact _ _ _ Hk Hrec Hml).
Qed.

(** A result cannot both report a failure and not report one. *)
Lemma failed_not_succeeded v : failed v -> succeeded v -> False.
Proof. unfold failed, succeeded. by intros ->. Qed.

(** The candidate titles are those of the tier that resolved them. *)
Lemma resolve_candidates_titles movie_name k rec_result :
  recommend_ml w movie_name k = inr rec_result ->
  exists titles,
    (succeeded rec_result -> titles = titles_in rec_result) /\
    (failed rec_result ->
       titles = titles_in (outcome (recommend_tmdb w movie_name k))) /\
    outcome (resolve_candidates w movie_name k) = inr (JArr titles).
Proof.
  intros Hrec.
  destruct (recommend_ml_failed_or_succeeded w movie_name k _ Hrec) as [Hml | Hml].
  - eexists. split; [| split].
    + intros H. destruct (failed_not_succeeded _ Hml H).
    + reflexivity.
    + by rewrite (resolve_candidates_failed w _ _ _ Hrec Hml).
  - eexists. split; [| split].
    + reflexivity.
    + intros H. destruct (failed_not_succeeded _ H Hml).
    + by rewrite (resolve_candidates_succeeded w _ _ _ Hrec Hml).
Qed.

End Candidates.

(** C2. For [k >= 1], when the lookup of the similarity index returns
    (with titles or with an error dictionary), the aggregator returns a
    list with one entry per candidate title of the tier that resolved
    them: the titles [recommend_ml] returned when it succeeded, which are
    exactly [k], and the titles [recommend_tmdb] returned when the index
    failed, which are at most [k].  So the list has at most [k] entries,
    and fewer than [k] only when the index failed and the fallback gave
    fewer than [k] titles. *)
Theorem C2_result_length (w : World) (s : schedule) (movie_name : string) (k : Z)
    (rec_result : json) :
  (1 <= k)%Z ->
  recommend_ml w movie_name k = inr rec_result ->
  exists entries,
    outcome (get_full_recommendations w s movie_name k) =
      inr (JObj [("recommended_movies", JArr entries)]) /\
    (Z.of_nat (length entries) <= k)%Z /\
    (succeeded rec_result ->
       length entries = length (titles_in rec_result) /\
       Z.of_nat (length entries) = k) /\
    (failed rec_result ->
       length entries =
         length (titles_in (outcome (recommend_tmdb w movie_name k)))) /\
    ((Z.of_nat (length entries) < k)%Z ->
       failed rec_result /\
       (Z.of_nat (length (titles_in (outcome (recommend_tmdb w movie_name k)))) < k)%Z).
Proof.
  intros Hk Hrec.
  destruct (recommend_ml_failed_or_succeeded w movie_name k _ Hrec) as [Hml | Hml].
  - pose proof (f_equal outcome (resolve_candidates_failed w _ _ _ Hrec Hml)) as Hres.
    simpl in Hres.
    destruct (get_full_recommendations_run w s movie_name k _ Hres) as [_ Hout].
    pose proof (recommend_tmdb_bound w movie_name k Hk) as Hbound.
    eexists. split; [exact Hout |].
    rewrite length_map.
    split; [exact Hbound |].
    split; [intros Hok; destruct (failed_not_succeeded _ Hml Hok) |].
    split; [done |].
    intros Hlt. by split.
  - pose proof (f_equal outcome (resolve_candidates_succeeded w _ _ _ Hrec Hml)) as Hres.
    simpl in Hres.
    destruct (get_full_recommendations_run w s movie_name k _ Hres) as [_ Hout].
    pose proof (recommend_ml_exact w movie_name k _ Hk Hrec Hml) as Hexact.
    eexists. split; [exact Hout |].
    rewrite length_map.
    split; [lia |].
    split; [done |].
    split; [intros Hf; destruct (failed_not_succeeded _ Hf Hml) |].
    intros Hlt. lia.
Qed.

Lemma C2_result_length_witness :
  exists entries,
    outcome (get_full_recommendations Sample.online Sample.backwards "Avatar" 3) =
      inr (JObj [("recommended_movies", JArr entries)]) /\
    (Z.of_nat (length entries) <= 3)%Z /\
    (succeeded
       (JObj [("recommended_movies", JArr [JStr "Alien"; JStr "Dune"; JStr "Tron"]);
              ("source", JStr "ML model")]) ->
       length entries =
         length (titles_in
           (JObj [("recommended_movies", JArr [JStr "Alien"; JStr "Dune"; JStr "Tron"]);
                  ("source", JStr "ML model")])) /\
       Z.of_nat (length entries) = 3%Z) /\
    (failed
       (JObj [("recommended_movies", JArr [JStr "Alien"; JStr "Dune"; JStr "Tron"]);
              ("source", JStr "ML model")]) ->
       length entries =
         length (titles_in (outcome (recommend_tmdb Sample.online "Avatar" 3)))) /\
    ((Z.of_nat (length entries) < 3)%Z ->
       failed
         (JObj [("recommended_movies", JArr [JStr "Alien"; JStr "Dune"; JStr "Tron"]);
                ("source", JStr "ML model")]) /\
       (Z.of_nat (length (titles_in (outcome (recommend_tmdb Sample.online "Avatar" 3))))
        < 3)%Z).
Proof.
  apply (C2_result_length Sample.online Sample.backwards "Avatar" 3); [lia | reflexivity].
Defined.

(** C5. When the lookup of the similarity index returns, the result of
    the aggregator lists, in the rank order of the candidate titles of
    the resolving tier, one entry per title: the entry at position [i] is
    the dictionary built from what [get_movie_full_details] and
    [get_ott_links] return for the title at position [i], and nothing
    else.  The result is the same for every order in which the concurrent
    tasks and the two calls of each task complete. *)
Theorem C5_rank_order_preserved (w : World) (s : schedule) (movie_name : string) (k : Z)
    (rec_result : json) :
  recommend_ml w movie_name k = inr rec_result ->
  exists titles,
    (succeeded rec_result -> titles = titles_in rec_result) /\
    (failed rec_result ->
       titles = titles_in (outcome (recommend_tmdb w movie_name k))) /\
    outcome (get_full_recommendations w s movie_name k) =
      inr (JObj [("recommended_movies",
                  JArr (map (fun title =>
                               entry (fields_of (outcome (get_movie_full_details w title)))
                                     (fields_of (outcome (get_ott_links w title))))
                            titles))]) /\
    (forall entries,
       outcome (get_full_recommendations w s movie_name k) =
         inr (JObj [("recommended_movies", JArr entries)]) ->
       length entries = length titles /\
       forall i title,
         titles !! i = Some title ->
         entries !! i =
           Some (entry (fields_of (outcome (get_movie_full_details w title)))
                       (fields_of (outcome (get_ott_links w title))))) /\
    (forall s',
       outcome (get_full_recommendations w s' movie_name k) =
       outcome (get_full_recommendations w s movie_name k)).
Proof.
  intros Hrec.
  destruct (resolve_candidates_titles w movie_name k _ Hrec)
    as (titles & Hok & Hfail & Hres).
  destruct (get_full_recommendations_run w s movie_name k titles Hres) as [_ Hout].
  exists titles.
  split; [exact Hok |]. split; [exact Hfail |].
  split; [exact Hout |]. split.
  - intros entries Hentries. rewrite Hout in Hentries.
    injection Hentries as <-.
    split; [by rewrite length_map |].
    intros i title Hi. rewrite list_lookup_fmap, Hi. reflexivity.
  - intros s'.
    destruct (get_full_recommendations_run w s' movie_name k titles Hres) as [_ ->].
    by rewrite Hout.
Qed.

Lemma C5_rank_order_preserved_witness :
  exists titles,
    (succeeded (error_dict "Pre-trained ML model or movies mapping is not available.") ->
       titles =
         titles_in (error_dict "Pre-trained ML model or movies mapping is not available.")) /\
    (failed (error_dict "Pre-trained ML model or movies mapping is not available.") ->
       titles = titles_in (outcome (recommend_tmdb Sample.offline " Avatar" 3))) /\
    outcome (get_full_recommendations Sample.offline Sample.backwards " Avatar" 3) =
      inr (JObj [("recommended_movies",
                  JArr (map (fun title =>
                               entry (fields_of
                                        (outcome (get_movie_full_details Sample.offline title)))
                                     (fields_of
                                        (outcome (get_ott_links Sample.offline title))))
                            titles))]) /\
    (forall entries,
       outcome (get_full_recommendations Sample.offline Sample.backwards " Avatar" 3) =
         inr (JObj [("recommended_movies", JArr entries)]) ->
       length entries = length titles /\
       forall i title,
         titles !! i = Some title ->
         entries !! i =
           Some (entry (fields_of (outcome (get_movie_full_details Sample.offline title)))
                       (fields_of (outcome (get_ott_links Sample.offline title))))) /\
    (forall s',
       outcome (get_full_recommendations Sample.offline s' " Avatar" 3) =
       outcome (get_full_recommendations Sample.offline Sample.backwards " Avatar" 3)).
Proof.
  apply (C5_rank_order_preserved Sample.offline Sample.backwards " Avatar" 3).
  reflexivity.
Defined.

Example order_is_rank_order :
  outcome (get_full_recommendations Sample.offline Sample.backwards " Avatar" 3) =
  inr (JObj [("recommended_movies",
              JArr [entry_for Sample.offline (JStr "Alien");
                    entry_for Sample.offline (JStr "Dune");
                    entry_for Sample.offline (JStr "Tron")])]).
Proof. reflexivity. Qed.

Example completion_is_backwards :
  enrichment_calls
    (log (get_full_recommendations Sample.offline Sample.backwards " Avatar" 3)) =
  [JStr "Tron"; JStr "Tron"; JStr "Dune"; JStr "Dune"; JStr "Alien"; JStr "Alien"].
Proof. reflexivity. Qed.

Section Enrichment.

Context (w : World).

Lemma succeeded_details v :
  is_error v \/ is_details v -> succeeded v -> is_details v.
Proof. intros [[msg ->] | H] Hok; [discriminate | exact H]. Qed.

Lemma failed_providers v :
  is_error v \/ is_providers v -> failed v -> is_error v.
Proof. intros [H | (free & paid & ->)] Hf; [exact H | discriminate]. Qed.

Lemma entry_of_details d msg field :
  is_details (JObj d) ->
  field ∈ detail_fields ->
  getitem (entry d [("error", JStr msg)]) field = getitem (JObj d) field.
Proof.
  intros (t & o & r & rd & c & cr & p & [= ->]).
  unfold detail_fields. rewrite !elem_of_cons, elem_of_nil.
  intros [-> | [-> | [-> | [-> | [-> | [-> | [-> | []]]]]]]]; reflexivity.
Qed.

Lemma failed_enricher_handler e : failed (enricher_handler e).
Proof. apply failed_error, enricher_handler_error. Qed.

(** A providers request that raises, is answered with another status
    than 200 or with a body that is not JSON makes the streaming call
    fail, after its two requests. *)
Lemma get_ott_links_provider_failure title movie_id :
  search_resolves w title movie_id ->
  (forall providers_data,
     remote w (provider_url w movie_id) <> inr (Response 200 (inr providers_data))) ->
  failed (outcome (get_ott_links w title)) /\
  log (get_ott_links w title) =
    [search_url w (fmt w title); provider_url w movie_id].
Proof.
  intros (data & Hsearch & results & Hget & Htruthy & Hid) Hprov.
  unfold get_ott_links, get_ott_links_body, http_get.
  simpl. rewrite Hsearch. simpl. rewrite Hget. simpl. rewrite Htruthy. simpl.
  rewrite Hid. simpl.
  destruct (remote w (provider_url w movie_id)) as [e | [st b]] eqn:Hp; simpl;
    [by auto using failed_enricher_handler |].
  destruct (st =? 200)%Z eqn:Hst; simpl; [| done].
  apply Z.eqb_eq in Hst. subst st.
  destruct b as [e | providers_data]; simpl;
    [by auto using failed_enricher_handler |].
  by destruct (Hprov providers_data).
Qed.

End Enrichment.

(** C4. For a candidate title whose details call succeeds and whose
    streaming call fails, the result still has an entry at the title's
    position; each detail field of the entry is the one the details call
    returned, and its streaming field is "Not Available". *)
Theorem C4_partial_failure_isolation (w : World) (s : schedule)
    (movie_name : string) (k : Z) (titles : list json) (i : nat) (title : json) :
  outcome (resolve_candidates w movie_name k) = inr (JArr titles) ->
  titles !! i = Some title ->
  succeeded (outcome (get_movie_full_details w title)) ->
  failed (outcome (get_ott_links w title)) ->
  exists entries e,
    outcome (get_full_recommendations w s movie_name k) =
      inr (JObj [("recommended_movies", JArr entries)]) /\
    length entries = length titles /\
    entries !! i = Some e /\
    (forall field,
       field ∈ detail_fields ->
       getitem e field = getitem (outcome (get_movie_full_details w title)) field) /\
    getitem e "ott_availability" = inr (JStr "Not Available").
Proof.
  intros Hres Hi Hdetails Hott.
  destruct (get_full_recommendations_run w s movie_name k titles Hres) as [_ Hout].
  exists (map (entry_for w) titles), (entry_for w title).
  rewrite length_map, list_lookup_fmap, Hi. repeat split; try done.
  - intros field Hfield. unfold entry_for.
    pose proof (succeeded_details _ (get_movie_full_details_shape w title) Hdetails)
      as Hd.
    destruct (failed_providers _ (get_ott_links_shape w title) Hott) as [msg ->].
    destruct (get_movie_full_details_dict w title) as [d Heq].
    rewrite Heq in Hd |- *. by apply entry_of_details.
  - unfold entry_for.
    by destruct (failed_providers _ (get_ott_links_shape w title) Hott) as [msg ->].
Qed.

Lemma C4_partial_failure_isolation_witness :
  exists entries e,
    outcome (get_full_recommendations Sample.offline Sample.backwards "Avatar" 2) =
      inr (JObj [("recommended_movies", JArr entries)]) /\
    length entries = length [JStr "Alien"; JStr "Dune"] /\
    entries !! 1%nat = Some e /\
    (forall field,
       field ∈ detail_fields ->
       getitem e field =
       getitem (outcome (get_movie_full_details Sample.offline (JStr "Dune"))) field) /\
    getitem e "ott_availability" = inr (JStr "Not Available").
Proof.
  apply (C4_partial_failure_isolation Sample.offline Sample.backwards "Avatar" 2
           [JStr "Alien"; JStr "Dune"] 1 (JStr "Dune")); reflexivity.
Defined.

Example dune_entry :
  entry_for Sample.offline (JStr "Dune") =
  JObj [("title", JStr "Dune"); ("overview", JStr "On Arrakis");
        ("rating", JFloat 7.5); ("release_date", JStr "2021-09-15");
        ("cast", JStr ""); ("crew", JStr "");
        ("poster_url", JStr "https://image.tmdb.org/t/p/w500/Dune.jpg");
        ("ott_availability", JStr "Not Available")].
Proof. reflexivity. Qed.

(** C6. When the search of an enricher does not resolve the title to an
    identifier (the request raises, is answered with another status than
    200 or with a body that is not JSON, finds nothing, or its top match
    has no identifier), the enricher returns a dictionary with an error
    message, and the search is the only request it has made.  This holds
    for the details enricher and for the streaming enricher. *)
Theorem C6_search_failure_stops_enrichment (w : World) (title : json) :
  ~ (exists movie_id, search_resolves w title movie_id) ->
  (failed (outcome (get_movie_full_details w title)) /\
   log (get_movie_full_details w title) = [search_url w (fmt w title)]) /\
  (failed (outcome (get_ott_links w title)) /\
   log (get_ott_links w title) = [search_url w (fmt w title)]).
Proof.
  intros Hfail.
  unfold get_movie_full_details, get_movie_full_details_body,
    get_ott_links, get_ott_links_body, http_get.
  simpl.
  destruct (remote w (search_url w (fmt w title))) as [e | [st b]] eqn:Hsearch;
    simpl; [by auto using failed_enricher_handler |].
  destruct (st =? 200)%Z eqn:Hst; simpl; [| done].
  apply Z.eqb_eq in Hst. subst st.
  destruct b as [e | data]; simpl; [by auto using failed_enricher_handler |].
  destruct (get_or data "results" JNull) as [e | results] eqn:Hget; simpl;
    [by auto using failed_enricher_handler |].
  destruct (truthy results) eqn:Htruthy; simpl; [| done].
  destruct (getitem data "results") as [e | r] eqn:Hr; simpl;
    [by auto using failed_enricher_handler |].
  destruct (getitem0 r) as [e | m] eqn:Hm; simpl;
    [by auto using failed_enricher_handler |].
  destruct (getitem m "id") as [e | movie_id] eqn:Hid; simpl;
    [by auto using failed_enricher_handler |].
  exfalso. apply Hfail. exists movie_id, data. split; [done |].
  exists results. repeat split; try done.
  rewrite Hr. simpl. rewrite Hm. simpl. exact Hid.
Qed.

Lemma C6_search_failure_stops_enrichment_witness :
  (failed (outcome (get_movie_full_details Sample.offline (JStr "Solaris"))) /\
   log (get_movie_full_details Sample.offline (JStr "Solaris")) =
     [search_url Sample.offline "Solaris"]) /\
  (failed (outcome (get_ott_links Sample.offline (JStr "Solaris"))) /\
   log (get_ott_links Sample.offline (JStr "Solaris")) =
     [search_url Sample.offline "Solaris"]).
Proof.
  apply (C6_search_failure_stops_enrichment Sample.offline (JStr "Solaris")).
  intros (movie_id & data & Hsearch & results & Hget & Htruthy & _).
  injection Hsearch as <-. injection Hget as <-. discriminate.
Defined.

Section FirstRequest.

Context (w : World).

(** A computation that starts with a request has it first in its log. *)
Lemma http_get_first {A} url (f : response -> M string A) (handler : exn -> A) :
  exists more, log (try_except (resp ← http_get w url; f resp) handler) = url :: more.
Proof.
  unfold http_get, try_except, mbind, M_bind, bind, emit, lift. simpl.
  destruct (remote w url) as [e | resp]; simpl; [by eexists |].
  destruct (f resp) as [l [e | a]]; simpl; by eexists.
Qed.

Lemma recommend_tmdb_first_request movie_name k :
  TMDB_API_KEY w <> "" ->
  exists more,
    log (recommend_tmdb w movie_name k) =
      search_url w (str_strip w (str_lower w movie_name)) :: more.
Proof.
  intros Hkey. unfold recommend_tmdb.
  destruct (String.eqb_spec (TMDB_API_KEY w) "") as [H | _]; [done |].
  apply http_get_first.
Qed.

Lemma get_movie_full_details_first_request title :
  exists more, log (get_movie_full_details w title) = search_url w (fmt w title) :: more.
Proof. apply http_get_first. Qed.

Lemma get_ott_links_first_request title :
  exists more, log (get_ott_links w title) = search_url w (fmt w title) :: more.
Proof. apply http_get_first. Qed.

End FirstRequest.

(** C8, as stated, fails: with the key absent from the environment the
    fallback resolver does not report a missing key; it uses the built-in
    key, makes its two requests and returns candidates. *)
Lemma C8_unset_key_uses_builtin_key :
  environ_TMDB_API_KEY Sample.offline = None /\
  recommend_tmdb Sample.offline "Avatar" 2 =
    ([Sample.api +:+ "/search/movie?api_key=" +:+ Sample.key +:+ "&query=avatar";
      Sample.api +:+ "/movie/1/similar?api_key=" +:+ Sample.key
        +:+ "&language=en-US&page=1"],
     JObj [("recommended_movies", JArr [JStr "Alien"; JStr "Dune"]);
           ("source", JStr "TMDB fallback")]).
Proof. split; reflexivity. Qed.

(** C8, amended.  With [TMDB_API_KEY] unset, [train_model] uses its
    built-in key and its remote calls are made: the fallback resolver
    starts with the search request that carries the built-in key.  With
    the variable set to the empty string the fallback resolver returns
    the missing-key error without making any request.  [recommend] of
    [app.py], on its direct path, returns the missing-key error with
    status 500 without making any request when the variable is unset or
    empty.  The two enrichers of [train_model] never check the key:
    whatever it is they make their search request with it, with the
    built-in key when the variable is unset and with an empty key when
    it is set to the empty string. *)
Theorem C8_missing_key (w : World) (s : schedule) (movie_name : string) (k : Z)
    (title : json) :
  (environ_TMDB_API_KEY w = None ->
   TMDB_API_KEY w = "3075ab4eebb27e51a67f7869d6b7984a" /\
   exists more,
     log (recommend_tmdb w movie_name k) =
       ("https://api.themoviedb.org/3/search/movie?api_key="
          +:+ "3075ab4eebb27e51a67f7869d6b7984a"
          +:+ "&query=" +:+ str_strip w (str_lower w movie_name)) :: more) /\
  (environ_TMDB_API_KEY w = Some "" ->
   recommend_tmdb w movie_name k = ([], error_dict "TMDB API key is missing.")) /\
  (train_model_imported w = false ->
   environ_TMDB_API_KEY w = None \/ environ_TMDB_API_KEY w = Some "" ->
   App.recommend w s movie_name k =
     ([], inr (App.WithStatus (error_dict "TMDB API key is missing.") 500))) /\
  (exists more more',
     log (get_movie_full_details w title) =
       ("https://api.themoviedb.org/3/search/movie?api_key=" +:+ TMDB_API_KEY w
          +:+ "&query=" +:+ fmt w title) :: more /\
     log (get_ott_links w title) =
       ("https://api.themoviedb.org/3/search/movie?api_key=" +:+ TMDB_API_KEY w
          +:+ "&query=" +:+ fmt w title) :: more') /\
  (environ_TMDB_API_KEY w = Some "" ->
   exists more more',
     log (get_movie_full_details w title) =
       ("https://api.themoviedb.org/3/search/movie?api_key=&query=" +:+ fmt w title)
       :: more /\
     log (get_ott_links w title) =
       ("https://api.themoviedb.org/3/search/movie?api_key=&query=" +:+ fmt w title)
       :: more').
Proof.
  destruct (get_movie_full_details_first_request w title) as [more Hdetails].
  destruct (get_ott_links_first_request w title) as [more' Hott].
  split; [| split; [| split; [| split]]].
  - intros Hkey.
    assert (TMDB_API_KEY w = "3075ab4eebb27e51a67f7869d6b7984a") as Hdefault.
    { unfold TMDB_API_KEY. by rewrite Hkey. }
    split; [exact Hdefault |].
    destruct (recommend_tmdb_first_request w movie_name k) as [rest Hlog].
    { by rewrite Hdefault. }
    exists rest. rewrite Hlog. unfold search_url. by rewrite Hdefault.
  - unfold recommend_tmdb, TMDB_API_KEY. by intros ->.
  - unfold App.recommend, App.recommend_direct, App.API_KEY.
    by intros -> [-> | ->].
  - exists more, more'. by rewrite Hdetails, Hott.
  - intros Hkey. exists more, more'. rewrite Hdetails, Hott.
    unfold search_url, TMDB_API_KEY. by rewrite Hkey.
Qed.

Lemma C8_missing_key_witness :
  recommend_tmdb Sample.keyless "Avatar" 5 =
    ([], error_dict "TMDB API key is missing.") /\
  App.recommend Sample.keyless Sample.in_order "Avatar" 9 =
    ([], inr (App.WithStatus (error_dict "TMDB API key is missing.") 500)) /\
  (exists more more',
     log (get_movie_full_details Sample.keyless (JStr "Alien")) =
       "https://api.themoviedb.org/3/search/movie?api_key=&query=Alien" :: more /\
     log (get_ott_links Sample.keyless (JStr "Alien")) =
       "https://api.themoviedb.org/3/search/movie?api_key=&query=Alien" :: more') /\
  TMDB_API_KEY Sample.offline = "3075ab4eebb27e51a67f7869d6b7984a" /\
  exists more,
    log (recommend_tmdb Sample.offline "Avatar" 5) =
      "https://api.themoviedb.org/3/search/movie?api_key=3075ab4eebb27e51a67f7869d6b7984a&query=avatar"
      :: more.
Proof.
  destruct (C8_missing_key Sample.keyless Sample.in_order "Avatar" 5 (JStr "Alien"))
    as (_ & Htmdb & _ & _ & Henrich).
  destruct (C8_missing_key Sample.keyless Sample.in_order "Avatar" 9 (JStr "Alien"))
    as (_ & _ & Happ & _ & _).
  destruct (C8_missing_key Sample.offline Sample.in_order "Avatar" 5 (JStr "Alien"))
    as (Hkey & _ & _ & _ & _).
  split; [by apply Htmdb |]. split; [apply Happ; [done | by right] |].
  split; [by apply Henrich |].
  by apply Hkey.
Defined.

Example keyless_enricher_still_searches :
  log (get_movie_full_details Sample.keyless (JStr "Alien")) =
  ["https://api.themoviedb.org/3/search/movie?api_key=&query=Alien"].
Proof. reflexivity. Qed.

Section Credits.

Context (w : World).

Lemma join_from_strings i sep names :
  join_from i sep (map JStr names) = inr (String.concat sep names).
Proof.
  revert i. induction names as [| n names IH]; intros i; [done |].
  destruct names as [| n' names]; [done |].
  change (join_from i sep (map JStr (n :: n' :: names)))
    with (match join_from (S i) sep (map JStr (n' :: names)) with
          | inr t => inr (n +:+ sep +:+ t)
          | inl e => inl e
          end).
  by rewrite IH.
Qed.

Lemma join_strings sep names :
  join sep (map JStr names) = inr (String.concat sep names).
Proof. apply join_from_strings. Qed.

Lemma credited_name member :
  credited member -> getitem member "name" = inr (JStr (name_of member)).
Proof.
  intros (fields & name & -> & Hname). unfold name_of. simpl. by rewrite Hname.
Qed.

Lemma mapM_names members :
  Forall credited members ->
  mapM (fun member => getitem member "name") members =
    inr (map (fun member => JStr (name_of member)) members).
Proof.
  induction 1 as [| member members Hm _ IH]; [done |].
  by rewrite mapM_res_cons, (credited_name _ Hm), IH.
Qed.

(** Only the first three cast members are read. *)
Lemma cast_of_credited credits members :
  get_or credits "cast" (JArr []) = inr (JArr members) ->
  Forall credited (take 3 members) ->
  cast_of credits = inr (map (fun member => JStr (name_of member)) (take 3 members)).
Proof.
  intros Hget Hall. unfold cast_of. rewrite Hget. simpl.
  change (slice_to 3 members) with (take 3 members).
  by apply mapM_names.
Qed.

(** The job of every crew member is read, the name of the directors
    only. *)
Lemma directors_credited members :
  Forall is_dict members ->
  Forall credited (List.filter is_director members) ->
  directors members =
    inr (map (fun member => JStr (name_of member)) (List.filter is_director members)).
Proof.
  induction 1 as [| member members [fields ->] _ IH]; [done |].
  assert (is_director (JObj fields) =
          eq_str (default JNull (lookup_key "job" fields)) "Director") as Hjob by done.
  change (directors (JObj fields :: members))
    with (if eq_str (default JNull (lookup_key "job" fields)) "Director"
          then name ← getitem (JObj fields) "name";
               names ← directors members;
               mret (name :: names)
          else directors members).
  cbn [List.filter]. rewrite Hjob.
  destruct (eq_str _ "Director"); [| exact IH].
  intros Hall. apply Forall_cons in Hall as [Hm Hall].
  by rewrite (credited_name _ Hm), (IH Hall).
Qed.

Lemma crew_of_credited credits members :
  get_or credits "crew" (JArr []) = inr (JArr members) ->
  Forall is_dict members ->
  Forall credited (List.filter is_director members) ->
  crew_of credits =
    inr (map (fun member => JStr (name_of member)) (List.filter is_director members)).
Proof.
  intros Hget Hdicts Hall. unfold crew_of. rewrite Hget. simpl.
  by apply directors_credited.
Qed.

Lemma join_names members :
  join ", " (map (fun member => JStr (name_of member)) members) =
    inr (String.concat ", " (map name_of members)).
Proof. by rewrite <- join_strings, map_map. Qed.

(** A name that cannot be read stops the comprehension. *)
Lemma mapM_names_raises members :
  Exists unnamed members ->
  exists e, mapM (fun member => getitem member "name") members = inl e.
Proof.
  induction 1 as [member members [e He] | member members _ [e IH]];
    rewrite mapM_res_cons.
  - rewrite He. by eexists.
  - destruct (getitem member "name"); [by eexists |].
    rewrite IH. by eexists.
Qed.

Lemma cast_of_raises credits members :
  get_or credits "cast" (JArr []) = inr (JArr members) ->
  Exists unnamed (take 3 members) ->
  exists e, cast_of credits = inl e.
Proof.
  intros Hget Hsome. unfold cast_of. rewrite Hget. simpl.
  change (slice_to 3 members) with (take 3 members).
  by apply mapM_names_raises.
Qed.

Lemma directors_raises members :
  Exists (fun member => is_director member = true /\ unnamed member) members ->
  exists e, directors members = inl e.
Proof.
  induction 1 as [member members [Hjob [e He]] | member members _ [e IH]].
  - unfold is_director in Hjob. simpl.
    destruct (get_or member "job" JNull) as [e' | job]; [discriminate |].
    simpl. rewrite Hjob, He. by eexists.
  - simpl.
    destruct (get_or member "job" JNull) as [e' | job]; [by eexists |].
    simpl. destruct (eq_str job "Director").
    + destruct (getitem member "name"); [by eexists |].
      simpl. rewrite IH. by eexists.
    + rewrite IH. by eexists.
Qed.

Lemma crew_of_raises credits members :
  get_or credits "crew" (JArr []) = inr (JArr members) ->
  Exists (fun member => is_director member = true /\ unnamed member) members ->
  exists e, crew_of credits = inl e.
Proof.
  intros Hget Hsome. unfold crew_of. rewrite Hget. simpl.
  by apply directors_raises.
Qed.

End Credits.

(** C9, as stated, fails: the credits response is available, but one of
    the crew members tagged "Director" has no name.  The enriched details
    then have no cast and no crew at all: reading the name raises, and
    the whole details call answers with an error dictionary. *)
Lemma C9_unnamed_director_aborts_details :
  remote Cases.unnamed_director (credits_url Cases.unnamed_director (JInt 2)) =
    Sample.ok (JObj [("cast", JArr [Sample.person "Sigourney Weaver" "Acting"]);
                     ("crew", JArr [Sample.person "Terry Rawlings" "Editor";
                                    JObj [("job", JStr "Director")]])]) /\
  get_movie_full_details Cases.unnamed_director (JStr "Alien") =
    ([search_url Cases.unnamed_director "Alien";
      details_url Cases.unnamed_director (JInt 2);
      credits_url Cases.unnamed_director (JInt 2)],
     error_dict "Unexpected error: 'name'") /\
  getitem (outcome (get_movie_full_details Cases.unnamed_director (JStr "Alien"))) "cast" =
    inl (KeyError "'cast'") /\
  getitem (outcome (get_movie_full_details Cases.unnamed_director (JStr "Alien"))) "crew" =
    inl (KeyError "'crew'").
Proof. repeat split; reflexivity. Qed.

(** C9, amended.  When the search resolves the title, the details request
    is answered with a dictionary and the credits request is answered
    with credits whose cast and crew are lists:

    - if the first three cast members and the crew members whose job
      equals "Director" are dictionaries with a string name, and every
      crew member is a dictionary, the cast of the enriched details is
      the names of the first three cast members (of all of them when
      there are fewer), and the crew is the names of the crew members
      whose job equals "Director", each joined with ", "; nothing is
      asked of the cast members after the third, nor of the name of the
      crew members who did not direct;

    - if the name of one of the first three cast members, or of one of
      the crew members whose job equals "Director", cannot be read, the
      details call answers with an error dictionary, which has no cast
      and no crew. *)
Theorem C9_cast_and_crew (w : World) (title data movie_id details credits : json)
    (cast_members crew_members : list json) :
  remote w (search_url w (fmt w title)) = inr (Response 200 (inr data)) ->
  top_match data movie_id ->
  remote w (details_url w movie_id) = inr (Response 200 (inr details)) ->
  is_dict details ->
  remote w (credits_url w movie_id) = inr (Response 200 (inr credits)) ->
  get_or credits "cast" (JArr []) = inr (JArr cast_members) ->
  get_or credits "crew" (JArr []) = inr (JArr crew_members) ->
  (Forall credited (take 3 cast_members) ->
   Forall is_dict crew_members ->
   Forall credited (List.filter is_director crew_members) ->
   getitem (outcome (get_movie_full_details w title)) "cast" =
     inr (JStr (String.concat ", " (map name_of (take 3 cast_members)))) /\
   getitem (outcome (get_movie_full_details w title)) "crew" =
     inr (JStr (String.concat ", "
                  (map name_of (List.filter is_director crew_members))))) /\
  (Exists unnamed (take 3 cast_members) \/
   Exists (fun member => is_director member = true /\ unnamed member) crew_members ->
   is_error (outcome (get_movie_full_details w title)) /\
   getitem (outcome (get_movie_full_details w title)) "cast" = inl (KeyError "'cast'") /\
   getitem (outcome (get_movie_full_details w title)) "crew" = inl (KeyError "'crew'")).
Proof.
  intros Hsearch (results & Hget & Htruthy & Hid) Hdetails [dfs ->] Hcredits
    Hcast Hcrew.
  split.
  - intros Hcast_ok Hcrew_dicts Hcrew_ok.
    unfold get_movie_full_details, get_movie_full_details_body, http_get.
    simpl. rewrite Hsearch. simpl. rewrite Hget. simpl. rewrite Htruthy. simpl.
    destruct (getitem data "results") as [e | r]; simpl in Hid |- *; [done |].
    destruct (getitem0 r) as [e | m]; simpl in Hid |- *; [done |].
    rewrite Hid. simpl.
    destruct m as [| | | | | | mfs]; try discriminate Hid. simpl.
    destruct (lookup_key "poster_path" mfs) as [p |]; simpl.
    + destruct (truthy p); simpl; rewrite Hdetails; simpl; rewrite Hcredits; simpl;
        rewrite (cast_of_credited _ _ Hcast Hcast_ok); simpl;
        rewrite (crew_of_credited _ _ Hcrew Hcrew_dicts Hcrew_ok); simpl;
        rewrite !join_names; done.
    + rewrite Hdetails; simpl; rewrite Hcredits; simpl;
        rewrite (cast_of_credited _ _ Hcast Hcast_ok); simpl;
        rewrite (crew_of_credited _ _ Hcrew Hcrew_dicts Hcrew_ok); simpl;
        rewrite !join_names; done.
  - intros Hunnamed.
    assert ((exists e, cast_of credits = inl e) \/ (exists e, crew_of credits = inl e))
      as Hraises.
    { destruct Hunnamed as [H | H];
        [left; by eapply cast_of_raises | right; by eapply crew_of_raises]. }
    assert (is_error (outcome (get_movie_full_details w title))) as [msg Herror].
    { unfold get_movie_full_details, get_movie_full_details_body, http_get.
      simpl. rewrite Hsearch. simpl. rewrite Hget. simpl. rewrite Htruthy. simpl.
      destruct (getitem data "results") as [e | r]; simpl in Hid |- *; [done |].
      destruct (getitem0 r) as [e | m]; simpl in Hid |- *; [done |].
      rewrite Hid. simpl.
      destruct m as [| | | | | | mfs]; try discriminate Hid. simpl.
      destruct (cast_of credits) as [e1 | cast] eqn:Hc1;
        destruct (crew_of credits) as [e2 | crew] eqn:Hc2;
        try (destruct Hraises as [[e [=]] | [e [=]]]; fail);
        destruct (lookup_key "poster_path" mfs) as [p |]; simpl;
        try destruct (truthy p); simpl; rewrite Hdetails; simpl;
        rewrite Hcredits; simpl; rewrite ?Hc1, ?Hc2; simpl;
        apply enricher_handler_error. }
    rewrite Herror. split; [by exists msg | by split].
Qed.

Lemma C9_cast_and_crew_witness :
  (getitem (outcome (get_movie_full_details Cases.unnamed_extras (JStr "Alien"))) "cast" =
     inr (JStr "Sigourney Weaver, Tom Skerritt, John Hurt") /\
   getitem (outcome (get_movie_full_details Cases.unnamed_extras (JStr "Alien"))) "crew" =
     inr (JStr "Ridley Scott")) /\
  is_error (outcome (get_movie_full_details Cases.unnamed_actor (JStr "Alien"))).
Proof.
  destruct (C9_cast_and_crew Cases.unnamed_extras (JStr "Alien")
           (JObj [("results", JArr [Sample.movie 2 "Alien"])])
           (JInt 2)
           (JObj [("title", JStr "Alien"); ("overview", JStr "In space");
                  ("vote_average", JFloat 8.5); ("release_date", JStr "1979-05-25")])
           (JObj [("cast", JArr [Sample.person "Sigourney Weaver" "Acting";
                                 Sample.person "Tom Skerritt" "Acting";
                                 Sample.person "John Hurt" "Acting";
                                 JObj [("character", JStr "Ash")]]);
                  ("crew", JArr [JObj [("job", JStr "Editor")];
                                 Sample.person "Ridley Scott" "Director"])])
           [Sample.person "Sigourney Weaver" "Acting";
            Sample.person "Tom Skerritt" "Acting";
            Sample.person "John Hurt" "Acting";
            JObj [("character", JStr "Ash")]]
           [JObj [("job", JStr "Editor")];
            Sample.person "Ridley Scott" "Director"]) as [Hnamed _].
  { reflexivity. }
  { exists (JArr [Sample.movie 2 "Alien"]). repeat split; reflexivity. }
  { reflexivity. }
  { by eexists. }
  { reflexivity. }
  { reflexivity. }
  { reflexivity. }
  destruct (C9_cast_and_crew Cases.unnamed_actor (JStr "Alien")
           (JObj [("results", JArr [Sample.movie 2 "Alien"])])
           (JInt 2)
           (JObj [("title", JStr "Alien"); ("overview", JStr "In space");
                  ("vote_average", JFloat 8.5); ("release_date", JStr "1979-05-25")])
           (JObj [("cast", JArr [JObj [("character", JStr "Ash")]])])
           [JObj [("character", JStr "Ash")]]
           []) as [_ Hunnamed].
  { reflexivity. }
  { exists (JArr [Sample.movie 2 "Alien"]). repeat split; reflexivity. }
  { reflexivity. }
  { by eexists. }
  { reflexivity. }
  { reflexivity. }
  { reflexivity. }
  split.
  - apply Hnamed.
    + repeat constructor; by do 2 eexists.
    + repeat constructor; by eexists.
    + repeat constructor; by do 2 eexists.
  - apply Hunnamed. left. constructor. by eexists.
Defined.

Example uncredited_member_aborts_details :
  outcome (get_movie_full_details Cases.unnamed_actor (JStr "Alien")) =
  error_dict "Unexpected error: 'name'".
Proof. reflexivity. Qed.

Example credited_members_of_alien :
  getitem (outcome (get_movie_full_details Sample.offline (JStr "Alien"))) "cast" =
    inr (JStr "Sigourney Weaver, Tom Skerritt, John Hurt") /\
  getitem (outcome (get_movie_full_details Sample.offline (JStr "Alien"))) "crew" =
    inr (JStr "Ridley Scott").
Proof. split; reflexivity. Qed.

Example lower_strip_avatar :
  AsciiText.strip (AsciiText.lower "  The AVATAR 2 ") = "the avatar 2".
Proof. reflexivity. Qed.

Example join_three :
  join ", " [JStr "a"; JStr "b"; JStr "c"] = inr "a, b, c".
Proof. reflexivity. Qed.

Example join_not_str :
  join ", " [JStr "a"; JInt 3] =
  inl (TypeError "sequence item 1: expected str instance, int found").
Proof. reflexivity. Qed.

Example slice_to_negative : slice_to (-1) [1; 2; 3]%Z = [1; 2]%Z.
Proof. reflexivity. Qed.


(** * Further properties of the code *)

(** Case analysis on what the next matched expression evaluates to. *)
Ltac split_match :=
  match goal with
  | |- context [match ?x with _ => _ end] =>
      lazymatch x with
      | context [match _ with _ => _ end] => fail
      | _ => destruct x eqn:?
      end
  end.

Section IndexLookup.

Context (w : World).

Lemma forallb_Forall {A} (f : A -> bool) (l : list A) :
  forallb f l = true <-> Forall (fun x => f x = true) l.
Proof.
  induction l as [| x l IH]; simpl; [by split; [constructor |] |].
  rewrite andb_true_iff, Forall_cons, IH. done.
Qed.

Lemma squeeze_tolist_scalar row :
  length row = 1%nat -> exists i, squeeze_tolist row = Scalar i.
Proof. destruct row as [| i [| j row]]; simpl; [lia | by eexists | lia]. Qed.

(** The three ways the lookup can go, by the state of the artifacts and
    the outcome of [transform]. *)
Lemma recommend_ml_not_loaded e movie_name k :
  artifacts w = inl e ->
  recommend_ml w movie_name k =
    inr (error_dict "Pre-trained ML model or movies mapping is not available.").
Proof.
  intros Hart. unfold recommend_ml, knn_model, vectorizer, movies_df.
  by rewrite Hart.
Qed.

Lemma recommend_ml_transform_raised knn vec df e movie_name k :
  artifacts w = inr (knn, vec, df) ->
  transform vec [str_strip w (str_lower w movie_name)] = inl e ->
  recommend_ml w movie_name k = inl e.
Proof.
  intros Hart Hvec. unfold recommend_ml, knn_model, vectorizer, movies_df.
  by rewrite Hart, Hvec.
Qed.

Lemma recommend_ml_transformed knn vec df input_vector movie_name k :
  artifacts w = inr (knn, vec, df) ->
  transform vec [str_strip w (str_lower w movie_name)] = inr input_vector ->
  recommend_ml w movie_name k =
    inr (match recommend_ml_body knn df input_vector k with
         | inr result => result
         | inl e => error_dict ("ML recommendation failed: " +:+ str_of_exn e)
         end).
Proof.
  intros Hart Hvec. unfold recommend_ml, knn_model, vectorizer, movies_df.
  by rewrite Hart, Hvec.
Qed.

(** When the [try] block succeeds, for [k >= 1]. *)
Lemma recommend_ml_body_succeeds knn df input_vector k :
  (1 <= k)%Z ->
  succeeded (match recommend_ml_body knn df input_vector k with
             | inr result => result
             | inl e => error_dict ("ML recommendation failed: " +:+ str_of_exn e)
             end) <->
  exists ranked col,
    ranking knn input_vector = inr ranked /\
    (k + 1 <= Z.of_nat (length ranked))%Z /\
    Forall (fun i => (i < index_len df)%nat) (drop 1 (take (Z.to_nat (k + 1)) ranked)) /\
    find_column "title" (columns df) = Some col.
Proof.
  intros Hk. unfold succeeded, recommend_ml_body, kneighbors.
  destruct (k + 1 <=? 0)%Z eqn:Hpos; [lia |].
  destruct (ranking knn _) as [e | ranked] eqn:Hranked; simpl.
  { split; [done |]. by intros (? & ? & [=] & _). }
  destruct (Z.of_nat (length ranked) <? k + 1)%Z eqn:Hlen; simpl.
  { split; [done |]. intros (? & ? & [= <-] & Hl & _). lia. }
  rewrite squeeze_tolist_vector by (rewrite length_take; lia). simpl.
  unfold iloc.
  destruct (forallb _ (drop 1 (take (Z.to_nat (k + 1)) ranked))) eqn:Hrows; simpl.
  - unfold column_tolist. simpl.
    rewrite (find_column_map "title"
               (fun f i => f (nth i (drop 1 (take (Z.to_nat (k + 1)) ranked)) O))
               (columns df)).
    destruct (find_column "title" (columns df)) as [col |] eqn:Hcol; simpl.
    + split; [intros _ | done].
      exists ranked, col. repeat split; try done; [lia |].
      apply forallb_Forall in Hrows.
      eapply Forall_impl; [exact Hrows |]. intros i Hi. simpl in Hi.
      by apply Nat.ltb_lt.
    + split; [done |]. by intros (? & ? & _ & _ & _ & [=]).
  - split; [done |].
    intros (? & ? & [= <-] & _ & Hall & _).
    assert (forallb (fun i => (i <? index_len df)%nat)
              (drop 1 (take (Z.to_nat (k + 1)) ranked)) = true) as Hyes.
    { apply forallb_Forall. eapply Forall_impl; [exact Hall |].
      intros i Hi. by apply Nat.ltb_lt. }
    congruence.
Qed.

(** For [k <= 0] the [try] block always ends in an error dictionary. *)
Lemma recommend_ml_body_fails knn df input_vector k :
  (k <= 0)%Z ->
  is_error (match recommend_ml_body knn df input_vector k with
            | inr result => result
            | inl e => error_dict ("ML recommendation failed: " +:+ str_of_exn e)
            end).
Proof.
  intros Hk. unfold recommend_ml_body, kneighbors.
  destruct (k + 1 <=? 0)%Z eqn:Hpos; simpl; [apply is_error_dict |].
  destruct (ranking knn _) as [e | ranked]; simpl; [apply is_error_dict |].
  destruct (Z.of_nat (length ranked) <? k + 1)%Z eqn:Hlen; simpl;
    [apply is_error_dict |].
  destruct (squeeze_tolist_scalar (take (Z.to_nat (k + 1)) ranked)) as [i ->];
    [rewrite length_take; lia |].
  apply is_error_dict.
Qed.

(** After the lookup has failed with an error dictionary, the run of the
    aggregator holds exactly one call of the fallback resolver. *)
Lemma fallback_called_once s movie_name k rec_result :
  recommend_ml w movie_name k = inr rec_result ->
  failed rec_result ->
  fallback_calls (log (get_full_recommendations w s movie_name k)) = [(movie_name, k)].
Proof.
  intros Hrec Hf.
  pose proof (resolve_candidates_failed w _ _ _ Hrec Hf) as Hres.
  destruct (get_full_recommendations_run w s movie_name k _ (f_equal outcome Hres))
    as [-> _].
  unfold fallback_calls at 1. rewrite omap_app.
  fold (fallback_calls
          (log (gather (tasks_order s)
                  (enrichment_tasks w s
                     (titles_in (outcome (recommend_tmdb w movie_name k))))))).
  rewrite (fallback_calls_enrichment _ (enrichment_log w s _)), app_nil_r.
  by rewrite Hres.
Qed.

End IndexLookup.

(** X1. For [k >= 1] the index lookup returns a success exactly when the
    three artifacts are loaded, [transform] returns the query vector,
    the neighbour search returns a ranking of at least [k + 1] fitted
    samples, the positions ranked second to [k + 1]-th are rows of the
    title table, and the table has a "title" column.  It raises exactly
    when the artifacts are loaded and [transform] raises, with the
    exception of [transform].  Whatever else it returns is an error
    dictionary. *)
Theorem recommend_ml_succeeds_iff (w : World) (movie_name : string) (k : Z) :
  (1 <= k)%Z ->
  ((exists rec_result,
      recommend_ml w movie_name k = inr rec_result /\ succeeded rec_result) <->
   exists knn vec df input_vector ranked col,
     artifacts w = inr (knn, vec, df) /\
     transform vec [str_strip w (str_lower w movie_name)] = inr input_vector /\
     ranking knn input_vector = inr ranked /\
     (k + 1 <= Z.of_nat (length ranked))%Z /\
     Forall (fun i => (i < index_len df)%nat) (drop 1 (take (Z.to_nat (k + 1)) ranked)) /\
     find_column "title" (columns df) = Some col) /\
  (forall e,
     recommend_ml w movie_name k = inl e <->
     exists knn vec df,
       artifacts w = inr (knn, vec, df) /\
       transform vec [str_strip w (str_lower w movie_name)] = inl e) /\
  (forall rec_result,
     recommend_ml w movie_name k = inr rec_result ->
     succeeded rec_result \/ is_error rec_result).
Proof.
  intros Hk. split; [| split].
  - destruct (artifacts w) as [e | [[knn vec] df]] eqn:Hart.
    { rewrite (recommend_ml_not_loaded w e _ _ Hart).
      split; [by intros (r & [= <-] & Hr) | by intros (? & ? & ? & ? & ? & ? & [=] & _)]. }
    destruct (transform vec [str_strip w (str_lower w movie_name)])
      as [e | input_vector] eqn:Hvec.
    { rewrite (recommend_ml_transform_raised w _ _ _ e _ _ Hart Hvec).
      split; [by intros (r & [=] & _) |].
      intros (? & ? & ? & ? & ? & ? & [= <- <- <-] & Hv & _). congruence. }
    rewrite (recommend_ml_transformed w _ _ _ _ _ _ Hart Hvec).
    split.
    + intros (r & [= <-] & Hr).
      apply (recommend_ml_body_succeeds knn df input_vector k Hk) in Hr
        as (ranked & col & H).
      by exists knn, vec, df, input_vector, ranked, col.
    + intros (? & ? & ? & iv & ranked & col & [= <- <- <-] & Hv & H).
      rewrite Hvec in Hv. injection Hv as <-.
      eexists. split; [reflexivity |].
      apply (recommend_ml_body_succeeds knn df input_vector k Hk).
      by exists ranked, col.
  - intros e.
    destruct (artifacts w) as [e' | [[knn vec] df]] eqn:Hart.
    { rewrite (recommend_ml_not_loaded w e' _ _ Hart).
      split; [done | by intros (? & ? & ? & [=] & _)]. }
    destruct (transform vec [str_strip w (str_lower w movie_name)])
      as [e' | input_vector] eqn:Hvec.
    + rewrite (recommend_ml_transform_raised w _ _ _ e' _ _ Hart Hvec).
      split.
      * intros [= <-]. by exists knn, vec, df.
      * intros (? & ? & ? & [= <- <- <-] & Hv). congruence.
    + rewrite (recommend_ml_transformed w _ _ _ _ _ _ Hart Hvec).
      split; [done |].
      intros (? & ? & ? & [= <- <- <-] & Hv). congruence.
  - intros rec_result Hrec.
    destruct (recommend_ml_shape w movie_name k _ Hrec) as [H | H];
      [by right | left; by eapply succeeded_candidates].
Qed.

Lemma recommend_ml_succeeds_iff_witness :
  ((exists rec_result,
      recommend_ml Sample.online "Avatar" 3 = inr rec_result /\ succeeded rec_result) <->
   exists knn vec df input_vector ranked col,
     artifacts Sample.online = inr (knn, vec, df) /\
     transform vec [str_strip Sample.online (str_lower Sample.online "Avatar")] =
       inr input_vector /\
     ranking knn input_vector = inr ranked /\
     (3 + 1 <= Z.of_nat (length ranked))%Z /\
     Forall (fun i => (i < index_len df)%nat) (drop 1 (take (Z.to_nat (3 + 1)) ranked)) /\
     find_column "title" (columns df) = Some col) /\
  (forall e,
     recommend_ml Sample.online "Avatar" 3 = inl e <->
     exists knn vec df,
       artifacts Sample.online = inr (knn, vec, df) /\
       transform vec [str_strip Sample.online (str_lower Sample.online "Avatar")] =
         inl e) /\
  (forall rec_result,
     recommend_ml Sample.online "Avatar" 3 = inr rec_result ->
     succeeded rec_result \/ is_error rec_result).
Proof. apply (recommend_ml_succeeds_iff Sample.online "Avatar" 3). lia. Defined.

(** X2. For [k <= 0] the index lookup never succeeds: a negative [k]
    asks for no neighbour, and with [k = 0] the single neighbour comes
    out of [squeeze] as a bare number, which cannot be sliced.  Whenever
    it returns, it returns an error dictionary, and the aggregator then
    calls the fallback resolver once; it raises when the artifacts are
    loaded and [transform] raises, and returns in every other case. *)
Theorem recommend_ml_fails_without_positive_k (w : World) (s : schedule)
    (movie_name : string) (k : Z) :
  (k <= 0)%Z ->
  (forall rec_result,
     recommend_ml w movie_name k = inr rec_result ->
     is_error rec_result /\ failed rec_result /\
     fallback_calls (log (get_full_recommendations w s movie_name k)) =
       [(movie_name, k)]) /\
  (forall e,
     recommend_ml w movie_name k = inl e <->
     exists knn vec df,
       artifacts w = inr (knn, vec, df) /\
       transform vec [str_strip w (str_lower w movie_name)] = inl e).
Proof.
  intros Hk.
  assert (forall rec_result,
            recommend_ml w movie_name k = inr rec_result -> is_error rec_result)
    as Herror.
  { intros rec_result.
    destruct (artifacts w) as [e | [[knn vec] df]] eqn:Hart.
    { rewrite (recommend_ml_not_loaded w e _ _ Hart). intros [= <-].
      apply is_error_dict. }
    destruct (transform vec [str_strip w (str_lower w movie_name)])
      as [e | input_vector] eqn:Hvec.
    { by rewrite (recommend_ml_transform_raised w _ _ _ e _ _ Hart Hvec). }
    rewrite (recommend_ml_transformed w _ _ _ _ _ _ Hart Hvec). intros [= <-].
    by apply recommend_ml_body_fails. }
  split.
  - intros rec_result Hrec.
    pose proof (failed_error _ (Herror _ Hrec)) as Hf.
    split; [by apply Herror |]. split; [exact Hf |].
    by apply (fallback_called_once w s movie_name k rec_result).
  - intros e.
    destruct (artifacts w) as [e' | [[knn vec] df]] eqn:Hart.
    { rewrite (recommend_ml_not_loaded w e' _ _ Hart).
      split; [done | by intros (? & ? & ? & [=] & _)]. }
    destruct (transform vec [str_strip w (str_lower w movie_name)])
      as [e' | input_vector] eqn:Hvec.
    + rewrite (recommend_ml_transform_raised w _ _ _ e' _ _ Hart Hvec).
      split.
      * intros [= <-]. by exists knn, vec, df.
      * intros (? & ? & ? & [= <- <- <-] & Hv). congruence.
    + rewrite (recommend_ml_transformed w _ _ _ _ _ _ Hart Hvec).
      split; [done |].
      intros (? & ? & ? & [= <- <- <-] & Hv). congruence.
Qed.

Lemma recommend_ml_fails_without_positive_k_witness :
  (is_error (error_dict "ML recommendation failed: 'int' object is not subscriptable") /\
   failed (error_dict "ML recommendation failed: 'int' object is not subscriptable") /\
   fallback_calls
     (log (get_full_recommendations Sample.online Sample.backwards "Avatar" 0)) =
     [("Avatar", 0%Z)]) /\
  recommend_ml Cases.unfitted "Avatar" (-2) =
    inl (OtherError "The TF-IDF vectorizer is not fitted").
Proof.
  destruct (recommend_ml_fails_without_positive_k
              Sample.online Sample.backwards "Avatar" 0) as [Hreturns _]; [lia |].
  destruct (recommend_ml_fails_without_positive_k
              Cases.unfitted Sample.backwards "Avatar" (-2)) as [_ Hraises]; [lia |].
  split.
  - apply Hreturns. reflexivity.
  - apply Hraises. by eexists _, _, _.
Defined.

Section FallbackResolver.

Context (w : World).

Lemma getitem_get_or v key x dflt :
  getitem v key = inr x -> get_or v key dflt = inr x.
Proof.
  destruct v; try discriminate. simpl.
  destruct (lookup_key key fields); [by intros [= ->] | discriminate].
Qed.

Lemma mapM_titles movies :
  Forall titled movies ->
  mapM (fun movie => getitem movie "title") movies = inr (map title_of movies).
Proof.
  induction 1 as [| movie movies (fields & title & -> & Ht) _ IH]; [done |].
  rewrite mapM_res_cons, IH. unfold title_of. simpl. by rewrite Ht.
Qed.

Lemma titles_of_titled movies :
  Forall titled movies -> titles_of (JArr movies) = inr (map title_of movies).
Proof. intros H. unfold titles_of. simpl. by apply mapM_titles. Qed.

(** The requests of the fallback: none, the search, or the search and
    then the similar-titles request. *)
Lemma recommend_tmdb_requests movie_name k :
  log (recommend_tmdb w movie_name k) = [] \/
  log (recommend_tmdb w movie_name k) = [search_url w (str_strip w (str_lower w movie_name))] \/
  exists movie_id,
    log (recommend_tmdb w movie_name k) =
      [search_url w (str_strip w (str_lower w movie_name)); similar_url w movie_id].
Proof.
  unfold recommend_tmdb, recommend_tmdb_body, http_get, try_except. simpl.
  repeat (split_match; simpl); eauto.
Qed.

End FallbackResolver.

Arguments titles_of : simpl never.

(** X3. When the fallback's search finds a top match and the
    similar-titles request is answered with a non-empty list of movies
    that have titles, the fallback returns the titles of the list cut by
    [[:k]], in the order of the response, with the source "TMDB
    fallback", after exactly these two requests. *)
Theorem recommend_tmdb_returns_first_titles (w : World) (movie_name : string) (k : Z)
    (data movie_id similar_data : json) (movies : list json) :
  TMDB_API_KEY w <> "" ->
  remote w (search_url w (str_strip w (str_lower w movie_name))) = inr (Response 200 (inr data)) ->
  top_match data movie_id ->
  remote w (similar_url w movie_id) = inr (Response 200 (inr similar_data)) ->
  getitem similar_data "results" = inr (JArr movies) ->
  movies <> [] ->
  Forall titled movies ->
  recommend_tmdb w movie_name k =
    ([search_url w (str_strip w (str_lower w movie_name)); similar_url w movie_id],
     JObj [("recommended_movies", JArr (slice_to k (map title_of movies)));
           ("source", JStr "TMDB fallback")]).
Proof.
  intros Hkey Hsearch (results & Hget & Htruthy & Hid) Hsimilar Hmovies Hne Htitled.
  unfold recommend_tmdb. apply String.eqb_neq in Hkey. rewrite Hkey.
  unfold recommend_tmdb_body, http_get. simpl. rewrite Hsearch. simpl.
  rewrite Hget. simpl. rewrite Htruthy. simpl. rewrite Hid. simpl.
  rewrite Hsimilar. simpl.
  rewrite (getitem_get_or _ _ _ JNull Hmovies). simpl.
  destruct movies as [| movie rest]; [done |]. simpl.
  rewrite Hmovies. simpl.
  by rewrite (titles_of_titled _ Htitled).
Qed.

Lemma recommend_tmdb_returns_first_titles_witness :
  recommend_tmdb Sample.offline " Avatar" 2 =
    ([search_url Sample.offline "avatar"; similar_url Sample.offline (JInt 1)],
     JObj [("recommended_movies", JArr [JStr "Alien"; JStr "Dune"]);
           ("source", JStr "TMDB fallback")]).
Proof.
  apply (recommend_tmdb_returns_first_titles Sample.offline " Avatar" 2
           (JObj [("results", JArr [Sample.movie 1 "Avatar"])]) (JInt 1)
           (JObj [("results", JArr [Sample.movie 2 "Alien"; Sample.movie 3 "Dune";
                                    Sample.movie 4 "Tron"])])
           [Sample.movie 2 "Alien"; Sample.movie 3 "Dune"; Sample.movie 4 "Tron"]).
  - discriminate.
  - reflexivity.
  - exists (JArr [Sample.movie 1 "Avatar"]). repeat split; reflexivity.
  - reflexivity.
  - reflexivity.
  - discriminate.
  - repeat constructor; by do 2 eexists.
Defined.

Example recommend_tmdb_negative_k :
  outcome (recommend_tmdb Sample.offline "Avatar" (-1)) =
  JObj [("recommended_movies", JArr [JStr "Alien"; JStr "Dune"]);
        ("source", JStr "TMDB fallback")].
Proof. reflexivity. Qed.

(** X4. The fallback never makes more than two requests and never
    repeats one: its requests are none (the key is empty), the search
    for the lower-cased, stripped movie name, or that search followed by
    one similar-titles request. *)
Theorem recommend_tmdb_request_discipline (w : World) (movie_name : string) (k : Z) :
  (length (log (recommend_tmdb w movie_name k)) <= 2)%nat /\
  (forall url,
     log (recommend_tmdb w movie_name k) !! 0%nat = Some url ->
     url = search_url w (str_strip w (str_lower w movie_name))) /\
  (forall url,
     log (recommend_tmdb w movie_name k) !! 1%nat = Some url ->
     exists movie_id, url = similar_url w movie_id) /\
  (TMDB_API_KEY w = "" -> log (recommend_tmdb w movie_name k) = []).
Proof.
  split; [| split; [| split]].
  - destruct (recommend_tmdb_requests w movie_name k) as [-> | [-> | [id ->]]];
      simpl; lia.
  - intros url.
    destruct (recommend_tmdb_requests w movie_name k) as [-> | [-> | [id ->]]];
      simpl; congruence.
  - intros url.
    destruct (recommend_tmdb_requests w movie_name k) as [-> | [-> | [id ->]]];
      simpl; try done. intros [= <-]. by exists id.
  - intros Hkey. unfold recommend_tmdb. by rewrite Hkey.
Qed.

(** X5. What the fallback answers when the remote catalogue fails: a
    search that raises gives the message of the exception after
    "Error during TMDB fallback: ", a search answered with another
    status than 200 gives "TMDB API search failed.", both after one
    request; a similar-titles request answered with another status than
    200 gives "TMDB API similar movies fetch failed." after two. *)
Theorem recommend_tmdb_upstream_errors (w : World) (movie_name : string) (k : Z) :
  TMDB_API_KEY w <> "" ->
  (forall e,
     remote w (search_url w (str_strip w (str_lower w movie_name))) = inl e ->
     recommend_tmdb w movie_name k =
       ([search_url w (str_strip w (str_lower w movie_name))],
        error_dict ("Error during TMDB fallback: " +:+ str_of_exn e))) /\
  (forall code b,
     remote w (search_url w (str_strip w (str_lower w movie_name))) = inr (Response code b) ->
     code <> 200%Z ->
     recommend_tmdb w movie_name k =
       ([search_url w (str_strip w (str_lower w movie_name))],
        error_dict "TMDB API search failed.")) /\
  (forall data movie_id code b,
     remote w (search_url w (str_strip w (str_lower w movie_name))) = inr (Response 200 (inr data)) ->
     top_match data movie_id ->
     remote w (similar_url w movie_id) = inr (Response code b) ->
     code <> 200%Z ->
     recommend_tmdb w movie_name k =
       ([search_url w (str_strip w (str_lower w movie_name)); similar_url w movie_id],
        error_dict "TMDB API similar movies fetch failed.")).
Proof.
  intros Hkey. apply String.eqb_neq in Hkey.
  unfold recommend_tmdb, recommend_tmdb_body, http_get. rewrite Hkey. simpl.
  split; [| split].
  - intros e ->. done.
  - intros code b -> Hcode. simpl. apply Z.eqb_neq in Hcode. by rewrite Hcode.
  - intros data movie_id code b -> (results & Hget & Htruthy & Hid) Hsimilar Hcode.
    simpl. rewrite Hget. simpl. rewrite Htruthy. simpl. rewrite Hid. simpl.
    rewrite Hsimilar. simpl. apply Z.eqb_neq in Hcode. by rewrite Hcode.
Qed.

Lemma recommend_tmdb_upstream_errors_witness :
  recommend_tmdb
    {| environ_TMDB_API_KEY := Some "k";
       remote := fun _ => inr (Response 401 (inr (JObj [])));
       artifacts := inl (OtherError "");
       repr := fun _ => "";
       str_lower := AsciiText.lower;
       str_strip := AsciiText.strip;
       str_split := AsciiText.split;
       train_model_imported := true |} "Avatar" 5 =
  (["https://api.themoviedb.org/3/search/movie?api_key=k&query=avatar"],
   error_dict "TMDB API search failed.").
Proof.
  refine (proj1 (proj2 (recommend_tmdb_upstream_errors
    {| environ_TMDB_API_KEY := Some "k";
       remote := fun _ => inr (Response 401 (inr (JObj [])));
       artifacts := inl (OtherError "");
       repr := fun _ => "";
       str_lower := AsciiText.lower;
       str_strip := AsciiText.strip;
       str_split := AsciiText.split;
       train_model_imported := true |} "Avatar" 5 _)) 401%Z (inr (JObj [])) _ _);
    [discriminate | reflexivity | discriminate].
Defined.

Section Enrichers.

Context (w : World).

(** The requests of the details enricher: the search, then the details,
    then the credits; it stops with an error after the first or the
    second. *)
Lemma get_movie_full_details_requests title :
  (log (get_movie_full_details w title) = [search_url w (fmt w title)] /\
   is_error (outcome (get_movie_full_details w title))) \/
  (exists movie_id,
     log (get_movie_full_details w title) =
       [search_url w (fmt w title); details_url w movie_id] /\
     is_error (outcome (get_movie_full_details w title))) \/
  (exists movie_id,
     log (get_movie_full_details w title) =
       [search_url w (fmt w title); details_url w movie_id; credits_url w movie_id]).
Proof.
  unfold get_movie_full_details, get_movie_full_details_body, http_get, try_except.
  simpl.
  repeat (split_match; simpl);
    eauto 8 using is_error_dict, enricher_handler_error.
Qed.

(** The requests of the streaming enricher: the search, then the
    providers; it stops with an error after the first. *)
Lemma get_ott_links_requests title :
  (log (get_ott_links w title) = [search_url w (fmt w title)] /\
   is_error (outcome (get_ott_links w title))) \/
  (exists movie_id,
     log (get_ott_links w title) =
       [search_url w (fmt w title); provider_url w movie_id]).
Proof.
  unfold get_ott_links, get_ott_links_body, http_get, try_except.
  simpl.
  repeat (split_match; simpl);
    eauto 8 using is_error_dict, enricher_handler_error.
Qed.

Lemma mapM_provider_names providers :
  Forall is_dict providers ->
  mapM (fun p => get_or p "provider_name" JNull) providers =
    inr (map provider_name providers).
Proof.
  induction 1 as [| p providers [fields ->] _ IH]; [done |].
  by rewrite mapM_res_cons, IH.
Qed.

Lemma provider_names_dicts providers :
  Forall is_dict providers ->
  provider_names (JArr providers) = inr (map provider_name providers).
Proof. intros H. unfold provider_names. simpl. by apply mapM_provider_names. Qed.

End Enrichers.

Arguments provider_names : simpl never.

(** X6. The details enricher always starts with the search for its
    title and makes at most three requests; a call that succeeds has
    made exactly three: the search, the details and the credits of the
    identifier found, in this order. *)
Theorem get_movie_full_details_request_discipline (w : World) (title : json) :
  log (get_movie_full_details w title) !! 0%nat = Some (search_url w (fmt w title)) /\
  (length (log (get_movie_full_details w title)) <= 3)%nat /\
  (succeeded (outcome (get_movie_full_details w title)) ->
   exists movie_id,
     log (get_movie_full_details w title) =
       [search_url w (fmt w title); details_url w movie_id; credits_url w movie_id]).
Proof.
  destruct (get_movie_full_details_requests w title)
    as [[Hlog Herr] | [(id & Hlog & Herr) | (id & Hlog)]]; rewrite Hlog;
    (split; [done |]); (split; [simpl; lia |]); intros Hok.
  - destruct Herr as [msg Hmsg]. rewrite Hmsg in Hok. discriminate.
  - destruct Herr as [msg Hmsg]. rewrite Hmsg in Hok. discriminate.
  - by exists id.
Qed.

Lemma get_movie_full_details_request_discipline_witness :
  log (get_movie_full_details Sample.offline (JStr "Alien")) !! 0%nat =
    Some (search_url Sample.offline "Alien") /\
  exists movie_id,
    log (get_movie_full_details Sample.offline (JStr "Alien")) =
      [search_url Sample.offline "Alien"; details_url Sample.offline movie_id;
       credits_url Sample.offline movie_id].
Proof.
  destruct (get_movie_full_details_request_discipline Sample.offline (JStr "Alien"))
    as (Hfirst & _ & Hthree).
  split; [exact Hfirst |]. apply Hthree. reflexivity.
Defined.

(** X7. The streaming enricher always starts with the search for its
    title and makes at most two requests, the second one for the
    providers of the identifier found; a call that succeeds has made
    both. *)
Theorem get_ott_links_request_discipline (w : World) (title : json) :
  log (get_ott_links w title) !! 0%nat = Some (search_url w (fmt w title)) /\
  (length (log (get_ott_links w title)) <= 2)%nat /\
  (succeeded (outcome (get_ott_links w title)) ->
   exists movie_id,
     log (get_ott_links w title) =
       [search_url w (fmt w title); provider_url w movie_id]).
Proof.
  destruct (get_ott_links_requests w title) as [[Hlog Herr] | (id & Hlog)];
    rewrite Hlog; (split; [done |]); (split; [simpl; lia |]); intros Hok.
  - destruct Herr as [msg Hmsg]. rewrite Hmsg in Hok. discriminate.
  - by exists id.
Qed.

Lemma get_ott_links_request_discipline_witness :
  exists movie_id,
    log (get_ott_links Sample.offline (JStr "Alien")) =
      [search_url Sample.offline "Alien"; provider_url Sample.offline movie_id].
Proof.
  destruct (get_ott_links_request_discipline Sample.offline (JStr "Alien"))
    as (_ & _ & Htwo).
  apply Htwo. reflexivity.
Defined.

(** X8. A credits request answered with another status than 200 does
    not fail the details: the enricher succeeds with an empty cast and
    an empty crew, and with the title, overview, rating and release date
    of the details response (the rating being its "vote_average"). *)
Theorem get_movie_full_details_without_credits (w : World)
    (title data movie_id details : json) (code : Z) (b : res json) :
  remote w (search_url w (fmt w title)) = inr (Response 200 (inr data)) ->
  top_match data movie_id ->
  remote w (details_url w movie_id) = inr (Response 200 (inr details)) ->
  is_dict details ->
  remote w (credits_url w movie_id) = inr (Response code b) ->
  code <> 200%Z ->
  succeeded (outcome (get_movie_full_details w title)) /\
  getitem (outcome (get_movie_full_details w title)) "cast" = inr (JStr "") /\
  getitem (outcome (get_movie_full_details w title)) "crew" = inr (JStr "") /\
  getitem (outcome (get_movie_full_details w title)) "title" =
    get_or details "title" JNull /\
  getitem (outcome (get_movie_full_details w title)) "overview" =
    get_or details "overview" JNull /\
  getitem (outcome (get_movie_full_details w title)) "rating" =
    get_or details "vote_average" JNull /\
  getitem (outcome (get_movie_full_details w title)) "release_date" =
    get_or details "release_date" JNull.
Proof.
  intros Hsearch (results & Hget & Htruthy & Hid) Hdetails [dfs ->] Hcredits Hcode.
  apply Z.eqb_neq in Hcode.
  unfold get_movie_full_details, get_movie_full_details_body, http_get.
  simpl. rewrite Hsearch. simpl. rewrite Hget. simpl. rewrite Htruthy. simpl.
  destruct (getitem data "results") as [e | r]; simpl in Hid |- *; [done |].
  destruct (getitem0 r) as [e | m]; simpl in Hid |- *; [done |].
  rewrite Hid. simpl.
  destruct m as [| | | | | | mfs]; try discriminate Hid. simpl.
  destruct (lookup_key "poster_path" mfs) as [p |]; simpl;
    [destruct (truthy p); simpl |];
    rewrite Hdetails; simpl; rewrite Hcredits; simpl; rewrite Hcode; simpl; done.
Qed.

Lemma get_movie_full_details_without_credits_witness :
  succeeded (outcome (get_movie_full_details Sample.offline (JStr "Dune"))) /\
  getitem (outcome (get_movie_full_details Sample.offline (JStr "Dune"))) "cast" =
    inr (JStr "") /\
  getitem (outcome (get_movie_full_details Sample.offline (JStr "Dune"))) "title" =
    inr (JStr "Dune").
Proof.
  destruct (get_movie_full_details_without_credits Sample.offline (JStr "Dune")
              (JObj [("results", JArr [Sample.movie 3 "Dune"])]) (JInt 3)
              (JObj [("title", JStr "Dune"); ("overview", JStr "On Arrakis");
                     ("vote_average", JFloat 7.5);
                     ("release_date", JStr "2021-09-15")])
              500 (inl (OtherError "Expecting value")))
    as (Hok & Hcast & _ & Htitle & _).
  - reflexivity.
  - exists (JArr [Sample.movie 3 "Dune"]). repeat split; reflexivity.
  - reflexivity.
  - by eexists.
  - reflexivity.
  - discriminate.
  - split; [exact Hok | split; [exact Hcast | exact Htitle]].
Defined.

(** X9. Failures that abort the details: a details request answered
    with another status than 200 gives the error "Failed to fetch
    additional movie details." and no credits request is made; a credits
    request that raises gives an error too, although a credits request
    answered with a bad status does not. *)
Theorem get_movie_full_details_aborts (w : World) (title data movie_id : json) :
  remote w (search_url w (fmt w title)) = inr (Response 200 (inr data)) ->
  top_match data movie_id ->
  (forall code b,
     remote w (details_url w movie_id) = inr (Response code b) ->
     code <> 200%Z ->
     get_movie_full_details w title =
       ([search_url w (fmt w title); details_url w movie_id],
        error_dict "Failed to fetch additional movie details.")) /\
  (forall details e,
     remote w (details_url w movie_id) = inr (Response 200 (inr details)) ->
     remote w (credits_url w movie_id) = inl e ->
     get_movie_full_details w title =
       ([search_url w (fmt w title); details_url w movie_id; credits_url w movie_id],
        enricher_handler e)).
Proof.
  intros Hsearch (results & Hget & Htruthy & Hid).
  unfold get_movie_full_details, get_movie_full_details_body, http_get.
  simpl. rewrite Hsearch. simpl. rewrite Hget. simpl. rewrite Htruthy. simpl.
  destruct (getitem data "results") as [e | r]; simpl in Hid |- *; [done |].
  destruct (getitem0 r) as [e | m]; simpl in Hid |- *; [done |].
  rewrite Hid. simpl.
  destruct m as [| | | | | | mfs]; try discriminate Hid. simpl.
  split.
  - intros code b Hdetails Hcode. apply Z.eqb_neq in Hcode.
    destruct (lookup_key "poster_path" mfs) as [p |]; simpl;
      [destruct (truthy p); simpl |];
      rewrite Hdetails; simpl; rewrite Hcode; simpl; done.
  - intros details e Hdetails Hcredits.
    destruct (lookup_key "poster_path" mfs) as [p |]; simpl;
      [destruct (truthy p); simpl |];
      rewrite Hdetails; simpl; rewrite Hcredits; simpl; done.
Qed.

Lemma get_movie_full_details_aborts_witness :
  get_movie_full_details
    (Cases.world None
       [(Sample.api +:+ "/search/movie?api_key=" +:+ Sample.key +:+ "&query=Tron",
         Sample.ok (JObj [("results", JArr [Sample.movie 4 "Tron"])]));
        (Sample.api +:+ "/movie/4?api_key=" +:+ Sample.key,
         inr (Response 503 (inl (OtherError "Expecting value"))))] true)
    (JStr "Tron") =
    ([Sample.api +:+ "/search/movie?api_key=" +:+ Sample.key +:+ "&query=Tron";
      Sample.api +:+ "/movie/4?api_key=" +:+ Sample.key],
     error_dict "Failed to fetch additional movie details.").
Proof.
  refine (proj1 (get_movie_full_details_aborts _ (JStr "Tron")
                   (JObj [("results", JArr [Sample.movie 4 "Tron"])]) (JInt 4) _ _)
                503%Z (inl (OtherError "Expecting value")) _ _).
  - reflexivity.
  - exists (JArr [Sample.movie 4 "Tron"]). repeat split; reflexivity.
  - reflexivity.
  - discriminate.
Defined.

(** X10. When the search resolves the title and the providers request
    is answered with a dictionary, the streaming enricher reads the
    region "IN" only: "Paid" is the provider names of its "flatrate"
    list and "Free" those of its "free" list, each in the order of the
    response. *)
Theorem get_ott_links_reads_region_IN (w : World)
    (title movie_id providers_data results in_country : json)
    (paid free : list json) :
  search_resolves w title movie_id ->
  remote w (provider_url w movie_id) = inr (Response 200 (inr providers_data)) ->
  get_or providers_data "results" (JObj []) = inr results ->
  get_or results "IN" (JObj []) = inr in_country ->
  get_or in_country "flatrate" (JArr []) = inr (JArr paid) ->
  get_or in_country "free" (JArr []) = inr (JArr free) ->
  Forall is_dict paid ->
  Forall is_dict free ->
  get_ott_links w title =
    ([search_url w (fmt w title); provider_url w movie_id],
     JObj [("Free", JArr (map provider_name free));
           ("Paid", JArr (map provider_name paid))]).
Proof.
  intros (data & Hsearch & sr & Hget & Htruthy & Hid) Hprov Hres Hin Hpaid Hfree
    Hpaid_ok Hfree_ok.
  unfold get_ott_links, get_ott_links_body, http_get.
  simpl. rewrite Hsearch. simpl. rewrite Hget. simpl. rewrite Htruthy. simpl.
  rewrite Hid. simpl. rewrite Hprov. simpl. rewrite Hres. simpl.
  rewrite Hin. simpl. rewrite Hpaid. simpl. rewrite Hfree. simpl.
  rewrite (provider_names_dicts _ Hfree_ok). simpl.
  by rewrite (provider_names_dicts _ Hpaid_ok).
Qed.

Lemma get_ott_links_reads_region_IN_witness :
  get_ott_links Sample.offline (JStr "Alien") =
    ([search_url Sample.offline "Alien"; provider_url Sample.offline (JInt 2)],
     JObj [("Free", JArr []); ("Paid", JArr [JStr "Netflix"])]).
Proof.
  apply (get_ott_links_reads_region_IN Sample.offline (JStr "Alien") (JInt 2)
           (JObj [("results",
                   JObj [("IN", JObj [("flatrate",
                          JArr [JObj [("provider_name", JStr "Netflix")]])])])])
           (JObj [("IN", JObj [("flatrate",
                          JArr [JObj [("provider_name", JStr "Netflix")]])])])
           (JObj [("flatrate", JArr [JObj [("provider_name", JStr "Netflix")]])])
           [JObj [("provider_name", JStr "Netflix")]] []).
  - exists (JObj [("results", JArr [Sample.movie 2 "Alien"])]).
    split; [reflexivity |].
    exists (JArr [Sample.movie 2 "Alien"]). repeat split; reflexivity.
  - reflexivity.
  - reflexivity.
  - reflexivity.
  - reflexivity.
  - reflexivity.
  - repeat constructor. by eexists.
  - constructor.
Defined.

(** X11. A movie without streaming data for the region is not an
    error: when the providers response has no "results", or its results
    have no region "IN", the streaming enricher returns empty "Free" and
    "Paid" lists, and the aggregator's entry carries that dictionary and
    not "Not Available". *)
Theorem get_ott_links_without_region (w : World)
    (title movie_id : json) (fields : list (string * json)) :
  search_resolves w title movie_id ->
  remote w (provider_url w movie_id) = inr (Response 200 (inr (JObj fields))) ->
  lookup_key "results" fields = None \/
  (exists regions,
     lookup_key "results" fields = Some (JObj regions) /\
     lookup_key "IN" regions = None) ->
  outcome (get_ott_links w title) = JObj [("Free", JArr []); ("Paid", JArr [])] /\
  getitem (entry_for w title) "ott_availability" =
    inr (JObj [("Free", JArr []); ("Paid", JArr [])]).
Proof.
  intros (data & Hsearch & sr & Hget & Htruthy & Hid) Hprov Hnone.
  assert (outcome (get_ott_links w title) =
          JObj [("Free", JArr []); ("Paid", JArr [])]) as Hout.
  { unfold get_ott_links, get_ott_links_body, http_get.
    simpl. rewrite Hsearch. simpl. rewrite Hget. simpl. rewrite Htruthy. simpl.
    rewrite Hid. simpl. rewrite Hprov. simpl.
    destruct Hnone as [-> | (regions & -> & Hin)]; simpl; [done |].
    by rewrite Hin. }
  split; [exact Hout |]. unfold entry_for. by rewrite Hout.
Qed.

Lemma get_ott_links_without_region_witness :
  outcome
    (get_ott_links
       (Cases.world None
          [(Sample.api +:+ "/search/movie?api_key=" +:+ Sample.key +:+ "&query=Tron",
            Sample.ok (JObj [("results", JArr [Sample.movie 4 "Tron"])]));
           (Sample.api +:+ "/movie/4/watch/providers?api_key=" +:+ Sample.key,
            Sample.ok (JObj [("results",
                              JObj [("US", JObj [("flatrate",
                                     JArr [JObj [("provider_name", JStr "Hulu")]])])])]))]
          true)
       (JStr "Tron")) =
  JObj [("Free", JArr []); ("Paid", JArr [])].
Proof.
  refine (proj1 (get_ott_links_without_region _ (JStr "Tron") (JInt 4)
           [("results",
             JObj [("US", JObj [("flatrate",
                    JArr [JObj [("provider_name", JStr "Hulu")]])])])] _ _ _)).
  - exists (JObj [("results", JArr [Sample.movie 4 "Tron"])]).
    split; [reflexivity |].
    exists (JArr [Sample.movie 4 "Tron"]). repeat split; reflexivity.
  - reflexivity.
  - right. eexists. split; reflexivity.
Defined.

Section Entries.

Context (w : World).

(** The entry at the position of a candidate title. *)
Lemma entry_at s movie_name k titles i title :
  outcome (resolve_candidates w movie_name k) = inr (JArr titles) ->
  titles !! i = Some title ->
  exists entries,
    outcome (get_full_recommendations w s movie_name k) =
      inr (JObj [("recommended_movies", JArr entries)]) /\
    entries !! i = Some (entry_for w title).
Proof.
  intros Hres Hi.
  destruct (get_full_recommendations_run w s movie_name k titles Hres) as [_ Hout].
  exists (map (entry_for w) titles). split; [done |].
  by rewrite list_lookup_fmap, Hi.
Qed.

Lemma failed_details v : is_error v \/ is_details v -> failed v -> is_error v.
Proof.
  intros [H | (? & ? & ? & ? & ? & ? & ? & ->)] Hf; [exact H | discriminate].
Qed.

Lemma succeeded_providers v :
  is_error v \/ is_providers v -> succeeded v -> is_providers v.
Proof. intros [[msg ->] | H] Hok; [discriminate | exact H]. Qed.

End Entries.

(** X12. For a candidate title whose details call fails, the entry at
    the title's position has "N/A" for the title, overview, rating,
    release date, cast and crew and no poster; the error message of the
    details call is not part of the entry. *)
Theorem failed_details_give_placeholders (w : World) (s : schedule)
    (movie_name : string) (k : Z) (titles : list json) (i : nat) (title : json) :
  outcome (resolve_candidates w movie_name k) = inr (JArr titles) ->
  titles !! i = Some title ->
  failed (outcome (get_movie_full_details w title)) ->
  exists entries e,
    outcome (get_full_recommendations w s movie_name k) =
      inr (JObj [("recommended_movies", JArr entries)]) /\
    entries !! i = Some e /\
    (forall field,
       field ∈ ["title"; "overview"; "rating"; "release_date"; "cast"; "crew"] ->
       getitem e field = inr (JStr "N/A")) /\
    getitem e "poster_url" = inr JNull /\
    succeeded e.
Proof.
  intros Hres Hi Hfailed.
  destruct (entry_at w s movie_name k titles i title Hres Hi) as (entries & Hout & He).
  exists entries, (entry_for w title). repeat split; try done.
  - intros field. unfold entry_for.
    destruct (failed_details _ (get_movie_full_details_shape w title) Hfailed)
      as [msg ->].
    rewrite !elem_of_cons, elem_of_nil.
    intros [-> | [-> | [-> | [-> | [-> | [-> | []]]]]]]; reflexivity.
  - unfold entry_for.
    by destruct (failed_details _ (get_movie_full_details_shape w title) Hfailed)
      as [msg ->].
Qed.

Lemma failed_details_give_placeholders_witness :
  exists entries e,
    outcome (get_full_recommendations Sample.offline Sample.backwards "Avatar" 3) =
      inr (JObj [("recommended_movies", JArr entries)]) /\
    entries !! 2%nat = Some e /\
    (forall field,
       field ∈ ["title"; "overview"; "rating"; "release_date"; "cast"; "crew"] ->
       getitem e field = inr (JStr "N/A")) /\
    getitem e "poster_url" = inr JNull /\
    succeeded e.
Proof.
  apply (failed_details_give_placeholders Sample.offline Sample.backwards "Avatar" 3
           [JStr "Alien"; JStr "Dune"; JStr "Tron"] 2 (JStr "Tron")); reflexivity.
Defined.

(** X13. The streaming field of an entry is "Not Available" exactly
    when the streaming call of its title failed; otherwise it is the
    dictionary of "Free" and "Paid" provider names that the call
    returned. *)
Theorem streaming_field_of_entry (w : World) (s : schedule)
    (movie_name : string) (k : Z) (titles : list json) (i : nat) (title : json) :
  outcome (resolve_candidates w movie_name k) = inr (JArr titles) ->
  titles !! i = Some title ->
  exists entries e,
    outcome (get_full_recommendations w s movie_name k) =
      inr (JObj [("recommended_movies", JArr entries)]) /\
    entries !! i = Some e /\
    (getitem e "ott_availability" = inr (JStr "Not Available") <->
     failed (outcome (get_ott_links w title))) /\
    (succeeded (outcome (get_ott_links w title)) ->
     getitem e "ott_availability" = inr (outcome (get_ott_links w title)) /\
     is_providers (outcome (get_ott_links w title))).
Proof.
  intros Hres Hi.
  destruct (entry_at w s movie_name k titles i title Hres Hi) as (entries & Hout & He).
  exists entries, (entry_for w title).
  split; [done |]. split; [done |]. unfold entry_for.
  destruct (get_ott_links_shape w title) as [[msg ->] | (free & paid & ->)].
  - split; [done |]. intros Hok. discriminate Hok.
  - split; [split; intros H; discriminate H |].
    intros _. split; [done | by do 2 eexists].
Qed.

Lemma streaming_field_of_entry_witness :
  exists entries e,
    outcome (get_full_recommendations Sample.offline Sample.backwards "Avatar" 3) =
      inr (JObj [("recommended_movies", JArr entries)]) /\
    entries !! 0%nat = Some e /\
    (getitem e "ott_availability" = inr (JStr "Not Available") <->
     failed (outcome (get_ott_links Sample.offline (JStr "Alien")))) /\
    (succeeded (outcome (get_ott_links Sample.offline (JStr "Alien"))) ->
     getitem e "ott_availability" =
       inr (outcome (get_ott_links Sample.offline (JStr "Alien"))) /\
     is_providers (outcome (get_ott_links Sample.offline (JStr "Alien")))).
Proof.
  apply (streaming_field_of_entry Sample.offline Sample.backwards "Avatar" 3
           [JStr "Alien"; JStr "Dune"; JStr "Tron"] 0 (JStr "Alien")); reflexivity.
Defined.

Section GatherTrace.

Context {E A : Type}.

Implicit Types (tasks : list (M E A)) (vals : list A) (finished : gmap nat A).

(** The tasks that [complete] runs: each at most once, only tasks not
    yet complete, and every such task that [order] names. *)
Lemma complete_trace tasks vals order finished :
  Forall2 returns tasks vals ->
  exists ran,
    log (complete tasks order finished) =
      ran ≫= (fun i => from_option log [] (tasks !! i)) /\
    NoDup ran /\
    (forall i, i ∈ ran -> finished !! i = None /\ (i < length tasks)%nat) /\
    (forall i, i ∈ order -> (i < length tasks)%nat -> finished !! i = None ->
               i ∈ ran).
Proof.
  intros Hret. revert finished.
  induction order as [| i rest IH]; intros finished; simpl.
  - exists []. split; [done |]. split; [apply NoDup_nil_2 |].
    split; intros i Hi; by apply elem_of_nil in Hi.
  - destruct (finished !! i) as [x |] eqn:Hi.
    + destruct (IH finished) as (ran & Hlog & Hnodup & Hfresh & Hcover).
      exists ran. repeat split; try done; [by apply Hfresh | by apply Hfresh |].
      intros j [-> | Hj]%elem_of_cons Hlt Hnone; [congruence | by auto].
    + destruct (tasks !! i) as [task |] eqn:Ht.
      * destruct (Forall2_lookup_l _ _ _ _ _ Hret Ht) as (v & Hv & Hrun).
        destruct (IH (<[i := v]> finished)) as (ran & Hlog & Hnodup & Hfresh & Hcover).
        assert (forall j, j ∈ ran -> j <> i) as Hne.
        { intros j Hj ->. destruct (Hfresh _ Hj) as [Hnone _].
          by rewrite lookup_insert_eq in Hnone. }
        exists (i :: ran). split; [| split; [| split]].
        -- destruct (bind_returns task
                       (fun x => complete tasks rest (<[i := x]> finished)) v Hrun)
             as [-> _].
           rewrite bind_cons, Hlog. f_equal. symmetry.
           exact (f_equal (from_option log []) Ht).
        -- apply NoDup_cons. split; [| done]. intros Hin. by apply (Hne i).
        -- intros j [-> | Hj]%elem_of_cons.
           ++ split; [done | by eapply lookup_lt_Some].
           ++ destruct (Hfresh _ Hj) as [Hnone Hlt]. split; [| done].
              rewrite lookup_insert_ne in Hnone; [done |].
              intros ->. by apply (Hne j).
        -- intros j [-> | Hj]%elem_of_cons Hlt Hnone; [by left |].
           destruct (decide (j = i)) as [-> | Hji]; [by left |].
           right. apply Hcover; [done | done |]. by rewrite lookup_insert_ne.
      * destruct (IH finished) as (ran & Hlog & Hnodup & Hfresh & Hcover).
        exists ran. repeat split; try done; [by apply Hfresh | by apply Hfresh |].
        intros j [-> | Hj]%elem_of_cons Hlt Hnone; [| by auto].
        apply lookup_ge_None in Ht. lia.
Qed.

Lemma bind_seq_lookup {B C} (f : B -> list C) (l : list B) (g : nat -> option B) a :
  (forall i x, l !! i = Some x -> g (a + i)%nat = Some x) ->
  seq a (length l) ≫= (fun i => from_option f [] (g i)) = l ≫= f.
Proof.
  revert a. induction l as [| x l IH]; intros a Hg; [done |].
  change (seq a (length (x :: l))) with (a :: seq (S a) (length l)).
  rewrite !bind_cons. f_equal.
  - rewrite <- (Nat.add_0_r a) at 1. by rewrite (Hg O x eq_refl).
  - apply IH. intros i y Hi.
    replace (S a + i)%nat with (a + S i)%nat by lia. by apply Hg.
Qed.

(** Whatever the completion order, the trace of [gather] is the traces
    of its tasks, each once, in some order. *)
Lemma gather_trace order tasks vals :
  Forall2 returns tasks vals ->
  log (gather order tasks) ≡ₚ tasks ≫= log.
Proof.
  intros Hret. unfold gather.
  destruct (complete_trace tasks vals (order ++ seq 0 (length tasks)) ∅ Hret)
    as (ran & Hlog & Hnodup & Hfresh & Hcover).
  destruct (complete_returns tasks vals (order ++ seq 0 (length tasks)) ∅ Hret)
    as (finished' & Hout & _).
  { intros i x. by rewrite lookup_empty. }
  destruct (bind_returns _
    (fun finished => mret (omap (fun i => finished !! i) (seq 0 (length tasks))))
    _ Hout) as [-> _].
  simpl. rewrite app_nil_r, Hlog.
  assert (ran ≡ₚ seq 0 (length tasks)) as ->.
  { apply NoDup_Permutation; [done | apply NoDup_seq |].
    intros i. rewrite elem_of_seq. split.
    - intros Hi. destruct (Hfresh _ Hi). lia.
    - intros Hi. apply Hcover; [| lia | apply lookup_empty].
      apply elem_of_app. right. apply elem_of_seq. lia. }
  by rewrite (bind_seq_lookup log tasks (fun i => tasks !! i) 0).
Qed.

End GatherTrace.

Section EnrichmentTrace.

Context (w : World).

(** The two calls made for a title. *)
Lemma enrichment_task_trace order title :
  log (gather order [call_get_movie_full_details w title;
                     call_get_ott_links w title]) ≡ₚ
  [Get_movie_full_details title (log (get_movie_full_details w title));
   Get_ott_links title (log (get_ott_links w title))].
Proof.
  rewrite (gather_trace order _ (enriched w title)); [done |].
  by repeat constructor.
Qed.

Lemma bind_imap_Permutation {A B C} (F : nat -> A -> list B) (g : A -> list C)
    (h : list B -> list C) (l : list A) :
  (forall i x, h (F i x) ≡ₚ g x) ->
  (forall l1 l2, h (l1 ++ l2)%list = (h l1 ++ h l2)%list) ->
  h [] = [] ->
  h (imap F l ≫= id) ≡ₚ l ≫= g.
Proof.
  intros HF Happ Hnil. revert F HF.
  induction l as [| x l IH]; intros F HF; [simpl; by rewrite Hnil |].
  rewrite imap_cons, !bind_cons, Happ. unfold id at 1.
  rewrite HF. apply Permutation_app_head.
  apply IH. intros i y. apply HF.
Qed.

Lemma bind_fmap_id {A B} (f : A -> list B) (l : list A) :
  l ≫= f = (f <$> l) ≫= id.
Proof.
  induction l as [| x l IH]; [done |].
  rewrite fmap_cons, !bind_cons, IH. done.
Qed.

Lemma fmap_imap {A B C} (f : B -> C) (F : nat -> A -> B) (l : list A) :
  f <$> imap F l = imap (fun i x => f (F i x)) l.
Proof.
  revert F. induction l as [| x l IH]; intros F; [done |].
  simpl. f_equal. apply IH.
Qed.

(** The trace of the enrichment stage, through any homomorphism [h] of
    traces that does not depend on their order. *)
Lemma enrichment_trace {C} (h : list invocation -> list C) (g : json -> list C)
    s titles :
  (forall l1 l2, l1 ≡ₚ l2 -> h l1 ≡ₚ h l2) ->
  (forall l1 l2, h (l1 ++ l2)%list = (h l1 ++ h l2)%list) ->
  h [] = [] ->
  (forall title,
     h [Get_movie_full_details title (log (get_movie_full_details w title));
        Get_ott_links title (log (get_ott_links w title))] = g title) ->
  h (log (gather (tasks_order s) (enrichment_tasks w s titles))) ≡ₚ titles ≫= g.
Proof.
  intros Hperm Happ Hnil Hg.
  rewrite (Hperm _ _ (gather_trace (tasks_order s) _ _
                        (enrichment_tasks_return w s titles))).
  rewrite bind_fmap_id. unfold enrichment_tasks. rewrite fmap_imap.
  apply bind_imap_Permutation; [| done | done].
  intros i title. rewrite <- Hg. apply Hperm, enrichment_task_trace.
Qed.

Lemma get_movie_full_details_at_most_3 title :
  (length (log (get_movie_full_details w title)) <= 3)%nat.
Proof.
  destruct (get_movie_full_details_requests w title)
    as [[-> _] | [(id & -> & _) | (id & ->)]]; simpl; lia.
Qed.

Lemma get_ott_links_at_most_2 title :
  (length (log (get_ott_links w title)) <= 2)%nat.
Proof.
  destruct (get_ott_links_requests w title) as [[-> _] | (id & ->)]; simpl; lia.
Qed.

Lemma recommend_tmdb_at_most_2 movie_name k :
  (length (log (recommend_tmdb w movie_name k)) <= 2)%nat.
Proof.
  destruct (recommend_tmdb_requests w movie_name k) as [-> | [-> | [id ->]]];
    simpl; lia.
Qed.

Lemma length_bind_le {A B} (f : A -> list B) (n : nat) (l : list A) :
  (forall x, (length (f x) <= n)%nat) ->
  (length (l ≫= f) <= n * length l)%nat.
Proof.
  intros Hf. induction l as [| x l IH]; [simpl; lia |].
  rewrite bind_cons, length_app, length_cons, Nat.mul_succ_r.
  specialize (Hf x). lia.
Qed.

(** The trace of the resolution stage holds no enrichment call and at
    most two requests. *)
Lemma resolve_candidates_trace movie_name k :
  details_calls (log (resolve_candidates w movie_name k)) = [] /\
  streaming_calls (log (resolve_candidates w movie_name k)) = [] /\
  (length (all_requests (log (resolve_candidates w movie_name k))) <= 2)%nat.
Proof.
  destruct (recommend_ml w movie_name k) as [e | rec_result] eqn:Hrec.
  { rewrite (resolve_candidates_raised w _ _ _ Hrec). repeat split. simpl. lia. }
  destruct (recommend_ml_failed_or_succeeded w movie_name k _ Hrec) as [H | H].
  - rewrite (resolve_candidates_failed w _ _ _ Hrec H). repeat split.
    unfold all_requests. simpl. rewrite app_nil_r.
    apply recommend_tmdb_at_most_2.
  - rewrite (resolve_candidates_succeeded w _ _ _ Hrec H). repeat split.
    simpl. lia.
Qed.

(** The enrichment calls of a run that resolved these titles. *)
Lemma enrichment_calls_of_run s movie_name k titles :
  outcome (resolve_candidates w movie_name k) = inr (JArr titles) ->
  details_calls (log (get_full_recommendations w s movie_name k)) ≡ₚ titles /\
  streaming_calls (log (get_full_recommendations w s movie_name k)) ≡ₚ titles.
Proof.
  intros Hres.
  destruct (get_full_recommendations_run w s movie_name k titles Hres) as [Hlog _].
  destruct (resolve_candidates_trace movie_name k) as (Hd & Hs & _).
  rewrite Hlog.
  unfold details_calls, streaming_calls in *. rewrite !omap_app, Hd, Hs. simpl.
  split.
  - rewrite (enrichment_trace _ (fun title => [title]) s titles); try done.
    + clear. induction titles as [| t titles IH]; [done |].
      rewrite bind_cons. simpl. by rewrite IH.
    + intros l1 l2 H. by rewrite H.
    + intros l1 l2. apply omap_app.
  - rewrite (enrichment_trace _ (fun title => [title]) s titles); try done.
    + clear. induction titles as [| t titles IH]; [done |].
      rewrite bind_cons. simpl. by rewrite IH.
    + intros l1 l2 H. by rewrite H.
    + intros l1 l2. apply omap_app.
Qed.

(** The requests of a run that resolved these titles. *)
Lemma requests_of_run s movie_name k titles :
  outcome (resolve_candidates w movie_name k) = inr (JArr titles) ->
  (length (all_requests (log (get_full_recommendations w s movie_name k)))
   <= 2 + 5 * length titles)%nat.
Proof.
  intros Hres.
  destruct (get_full_recommendations_run w s movie_name k titles Hres) as [Hlog _].
  destruct (resolve_candidates_trace movie_name k) as (_ & _ & Hresolve).
  rewrite Hlog. unfold all_requests in *. rewrite bind_app, length_app.
  rewrite (enrichment_trace (fun trace => trace ≫= requests_of)
             (fun title => (log (get_movie_full_details w title)
                            ++ log (get_ott_links w title))%list) s titles).
  - pose proof (length_bind_le
      (fun title => (log (get_movie_full_details w title)
                     ++ log (get_ott_links w title))%list) 5 titles) as Hlen.
    cut (length (titles ≫= (fun title => (log (get_movie_full_details w title)
                                          ++ log (get_ott_links w title))%list))
         <= 5 * length titles)%nat; [lia |].
    apply Hlen. intros title. rewrite length_app.
    pose proof (get_movie_full_details_at_most_3 title).
    pose proof (get_ott_links_at_most_2 title). lia.
  - intros l1 l2 H. by rewrite H.
  - intros l1 l2. apply bind_app.
  - done.
  - intros title. rewrite bind_cons, bind_singleton. done.
Qed.

End EnrichmentTrace.

(** X14. When the index lookup returns, then whatever the order in which
    the concurrent calls complete, the aggregator passes every candidate
    title of the resolving tier exactly once to the details enricher and
    exactly once to the streaming enricher, and nothing else: the titles
    of the details calls are a permutation of the candidate titles, and
    so are the titles of the streaming calls.  When the lookup raises, no
    enricher is called. *)
Theorem every_candidate_enriched_once (w : World) (s : schedule)
    (movie_name : string) (k : Z) :
  (forall rec_result,
     recommend_ml w movie_name k = inr rec_result ->
     exists titles,
       (succeeded rec_result -> titles = titles_in rec_result) /\
       (failed rec_result ->
          titles = titles_in (outcome (recommend_tmdb w movie_name k))) /\
       details_calls (log (get_full_recommendations w s movie_name k)) ≡ₚ titles /\
       streaming_calls (log (get_full_recommendations w s movie_name k)) ≡ₚ titles) /\
  (forall e,
     recommend_ml w movie_name k = inl e ->
     details_calls (log (get_full_recommendations w s movie_name k)) = [] /\
     streaming_calls (log (get_full_recommendations w s movie_name k)) = []).
Proof.
  split.
  - intros rec_result Hrec.
    destruct (resolve_candidates_titles w movie_name k _ Hrec)
      as (titles & Hok & Hfail & Hres).
    destruct (enrichment_calls_of_run w s movie_name k titles Hres) as [Hd Hs].
    by exists titles.
  - intros e Hrec.
    by rewrite (get_full_recommendations_raised w s _ _ _ Hrec).
Qed.

Lemma every_candidate_enriched_once_witness :
  (exists titles,
     (succeeded (error_dict "Pre-trained ML model or movies mapping is not available.") ->
        titles =
          titles_in
            (error_dict "Pre-trained ML model or movies mapping is not available.")) /\
     (failed (error_dict "Pre-trained ML model or movies mapping is not available.") ->
        titles = titles_in (outcome (recommend_tmdb Sample.offline "Avatar" 3))) /\
     details_calls
       (log (get_full_recommendations Sample.offline Sample.backwards "Avatar" 3))
       ≡ₚ titles /\
     streaming_calls
       (log (get_full_recommendations Sample.offline Sample.backwards "Avatar" 3))
       ≡ₚ titles) /\
  details_calls
    (log (get_full_recommendations Cases.unfitted Sample.backwards "Avatar" 3)) = [] /\
  streaming_calls
    (log (get_full_recommendations Cases.unfitted Sample.backwards "Avatar" 3)) = [].
Proof.
  destruct (every_candidate_enriched_once Sample.offline Sample.backwards "Avatar" 3)
    as [Hreturns _].
  destruct (every_candidate_enriched_once Cases.unfitted Sample.backwards "Avatar" 3)
    as [_ Hraises].
  split.
  - apply Hreturns. reflexivity.
  - eapply Hraises. reflexivity.
Defined.

Example enriched_once_backwards :
  details_calls
    (log (get_full_recommendations Sample.offline Sample.backwards "Avatar" 3)) =
  [JStr "Tron"; JStr "Dune"; JStr "Alien"].
Proof. reflexivity. Qed.

(** X15. Whatever the order in which the concurrent calls complete, a
    run of the aggregator that resolves its candidates makes at most two
    requests to resolve them and at most five for each candidate title,
    and a run in which the index lookup raises makes none; for [k >= 1]
    that is at most [2 + 5 k] requests in every run. *)
Theorem requests_bound (w : World) (s : schedule) (movie_name : string) (k : Z) :
  ((1 <= k)%Z ->
   (Z.of_nat (length (all_requests
                        (log (get_full_recommendations w s movie_name k))))
    <= 2 + 5 * k)%Z) /\
  (forall titles,
     outcome (resolve_candidates w movie_name k) = inr (JArr titles) ->
     (length (all_requests (log (get_full_recommendations w s movie_name k)))
      <= 2 + 5 * length titles)%nat) /\
  (forall e,
     recommend_ml w movie_name k = inl e ->
     all_requests (log (get_full_recommendations w s movie_name k)) = []).
Proof.
  split; [| split].
  - intros Hk.
    destruct (recommend_ml w movie_name k) as [e | rec_result] eqn:Hrec.
    { rewrite (get_full_recommendations_raised w s _ _ _ Hrec). simpl. lia. }
    destruct (resolve_candidates_returns w movie_name k _ Hrec) as [titles Hres].
    pose proof (requests_of_run w s movie_name k titles Hres).
    pose proof (candidates_bound w movie_name k _ titles Hk Hrec Hres). lia.
  - intros titles Hres. by apply requests_of_run.
  - intros e Hrec.
    by rewrite (get_full_recommendations_raised w s _ _ _ Hrec).
Qed.

Lemma requests_bound_witness :
  (Z.of_nat (length (all_requests
                       (log (get_full_recommendations Sample.offline
                               Sample.backwards "Avatar" 3))))
   <= 2 + 5 * 3)%Z /\
  (length (all_requests
             (log (get_full_recommendations Sample.offline Sample.backwards
                     "Avatar" 3)))
   <= 2 + 5 * length [JStr "Alien"; JStr "Dune"; JStr "Tron"])%nat /\
  all_requests
    (log (get_full_recommendations Cases.unfitted Sample.backwards "Avatar" 3)) = [].
Proof.
  destruct (requests_bound Sample.offline Sample.backwards "Avatar" 3)
    as (Hk & Htitles & _).
  destruct (requests_bound Cases.unfitted Sample.backwards "Avatar" 3)
    as (_ & _ & Hraises).
  split; [apply Hk; lia |]. split; [apply Htitles; reflexivity |].
  eapply Hraises. reflexivity.
Defined.

Arguments App.key_text : simpl never.
Arguments App.actor_api_url : simpl never.
Arguments App.actor_movies_url : simpl never.
Arguments App.genre_url : simpl never.
Arguments App.title_search_url : simpl never.
Arguments App.stripped_arg : simpl never.
Arguments BASE_URL : simpl never.

(** X16. When [train_model] is imported, [recommend] of [app.py] never
    raises.  When the index lookup returns, it returns the aggregator's
    dictionary, a list under "recommended_movies", of at most [k]
    entries for [k >= 1].  When the index lookup raises, which it does
    when [transform] raises, the aggregator raises and [recommend]
    returns the error "Failed to fetch recommendations." with status
    500. *)
Theorem recommend_with_aggregator (w : World) (s : schedule)
    (movie_name : string) (k : Z) :
  train_model_imported w = true ->
  (exists r, outcome (App.recommend w s movie_name k) = inr r) /\
  (forall rec_result,
     recommend_ml w movie_name k = inr rec_result ->
     exists entries,
       outcome (App.recommend w s movie_name k) =
         inr (App.Plain (JObj [("recommended_movies", JArr entries)])) /\
       ((1 <= k)%Z -> (Z.of_nat (length entries) <= k)%Z)) /\
  (forall e,
     recommend_ml w movie_name k = inl e ->
     App.recommend w s movie_name k =
       ([App.Aggregator (Recommend_ml movie_name k)],
        inr (App.WithStatus (error_dict "Failed to fetch recommendations.") 500))).
Proof.
  intros Himp. split; [| split].
  - unfold App.recommend. rewrite Himp. by eexists.
  - intros rec_result Hrec.
    destruct (resolve_candidates_returns w movie_name k _ Hrec) as [titles Hres].
    destruct (get_full_recommendations_run w s movie_name k titles Hres) as [_ Hout].
    exists (map (entry_for w) titles). split.
    + unfold App.recommend. rewrite Himp. simpl. by rewrite Hout.
    + intros Hk. rewrite length_map.
      by apply (candidates_bound w movie_name k rec_result).
  - intros e Hrec. unfold App.recommend. rewrite Himp.
    by rewrite (get_full_recommendations_raised w s _ _ _ Hrec).
Qed.

Lemma recommend_with_aggregator_witness :
  (exists entries,
     outcome (App.recommend Sample.offline Sample.backwards "Avatar" 2) =
       inr (App.Plain (JObj [("recommended_movies", JArr entries)])) /\
     (Z.of_nat (length entries) <= 2)%Z) /\
  App.recommend Cases.unfitted Sample.backwards "Avatar" 2 =
    ([App.Aggregator (Recommend_ml "Avatar" 2)],
     inr (App.WithStatus (error_dict "Failed to fetch recommendations.") 500)).
Proof.
  destruct (recommend_with_aggregator Sample.offline Sample.backwards "Avatar" 2)
    as (_ & Hreturns & _); [reflexivity |].
  destruct (recommend_with_aggregator Cases.unfitted Sample.backwards "Avatar" 2)
    as (_ & _ & Hraises); [reflexivity |].
  split.
  - destruct (Hreturns _ eq_refl) as (entries & Hout & Hlen).
    exists entries. split; [exact Hout | apply Hlen; lia].
  - eapply Hraises. reflexivity.
Defined.

(** X17. The direct path of [recommend], with a key in the environment:
    a search answered with another status than 200 gives status 500, a
    search that finds nothing gives "Movie not found." with status 404,
    both after one request; a search that raises is not caught, the
    exception leaves [recommend]. *)
Theorem recommend_direct_failures (w : World) (s : schedule)
    (key movie_name : string) (k : Z) :
  train_model_imported w = false ->
  environ_TMDB_API_KEY w = Some key ->
  key <> "" ->
  (forall code b,
     remote w (App.search_url key movie_name) = inr (Response code b) ->
     code <> 200%Z ->
     App.recommend w s movie_name k =
       ([App.Request (App.search_url key movie_name)],
        inr (App.WithStatus (error_dict "Failed to fetch movie info.") 500))) /\
  (forall data,
     remote w (App.search_url key movie_name) = inr (Response 200 (inr data)) ->
     no_results data ->
     App.recommend w s movie_name k =
       ([App.Request (App.search_url key movie_name)],
        inr (App.WithStatus (error_dict "Movie not found.") 404))) /\
  (forall e,
     remote w (App.search_url key movie_name) = inl e ->
     App.recommend w s movie_name k =
       ([App.Request (App.search_url key movie_name)], inl e)).
Proof.
  intros Himp Henv Hkey.
  unfold App.recommend, App.recommend_direct, App.API_KEY, App.requests_get.
  rewrite Himp, Henv.
  destruct key as [| c key]; [done |]. simpl.
  split; [| split].
  - intros code b -> Hcode. simpl. apply Z.eqb_neq in Hcode. by rewrite Hcode.
  - intros data -> (results & Hget & Hfalsy). simpl. rewrite Hget. simpl.
    by rewrite Hfalsy.
  - by intros e ->.
Qed.

Lemma recommend_direct_failures_witness :
  App.recommend (Cases.world (Some "k") [] false) Sample.in_order "Nothing" 9 =
    ([App.Request "https://api.themoviedb.org/3/search/movie?api_key=k&query=Nothing"],
     inr (App.WithStatus (error_dict "Movie not found.") 404)).
Proof.
  refine (proj1 (proj2 (recommend_direct_failures (Cases.world (Some "k") [] false)
            Sample.in_order "k" "Nothing" 9 _ _ _)) (JObj [("results", JArr [])]) _ _).
  - reflexivity.
  - reflexivity.
  - discriminate.
  - reflexivity.
  - exists (JArr []). split; reflexivity.
Defined.

(** X18. When the direct path of [recommend] succeeds it returns a bare
    list, the first [k] movie dictionaries of the recommendations
    response as they came, not the aggregator's dictionary of enriched
    entries, after exactly two requests. *)
Theorem recommend_direct_returns_bare_list (w : World) (s : schedule)
    (key movie_name : string) (k : Z) (data movie_id rec_data : json)
    (movies : list json) :
  train_model_imported w = false ->
  environ_TMDB_API_KEY w = Some key ->
  key <> "" ->
  remote w (App.search_url key movie_name) = inr (Response 200 (inr data)) ->
  top_match data movie_id ->
  remote w (App.rec_url w key movie_id) = inr (Response 200 (inr rec_data)) ->
  get_or rec_data "results" (JArr []) = inr (JArr movies) ->
  App.recommend w s movie_name k =
    ([App.Request (App.search_url key movie_name);
      App.Request (App.rec_url w key movie_id)],
     inr (App.Plain (JArr (slice_to k movies)))).
Proof.
  intros Himp Henv Hkey Hsearch (results & Hget & Htruthy & Hid) Hrec Hmovies.
  unfold App.recommend, App.recommend_direct, App.API_KEY, App.requests_get.
  rewrite Himp, Henv.
  destruct key as [| c key]; [done |]. simpl.
  rewrite Hsearch. simpl. rewrite Hget. simpl. rewrite Htruthy. simpl.
  rewrite Hid. simpl. rewrite Hrec. simpl. by rewrite Hmovies.
Qed.

Lemma recommend_direct_returns_bare_list_witness :
  App.recommend
    (Cases.world (Some "k")
       [("https://api.themoviedb.org/3/search/movie?api_key=k&query=Avatar",
         Sample.ok (JObj [("results", JArr [Sample.movie 1 "Avatar"])]));
        ("https://api.themoviedb.org/3/movie/1/recommendations?api_key=k",
         Sample.ok (JObj [("results", JArr [Sample.movie 2 "Alien";
                                            Sample.movie 3 "Dune"])]))] false)
    Sample.in_order "Avatar" 1 =
    ([App.Request "https://api.themoviedb.org/3/search/movie?api_key=k&query=Avatar";
      App.Request "https://api.themoviedb.org/3/movie/1/recommendations?api_key=k"],
     inr (App.Plain (JArr [Sample.movie 2 "Alien"]))).
Proof.
  apply (recommend_direct_returns_bare_list _ Sample.in_order "k" "Avatar" 1
           (JObj [("results", JArr [Sample.movie 1 "Avatar"])]) (JInt 1)
           (JObj [("results", JArr [Sample.movie 2 "Alien"; Sample.movie 3 "Dune"])])
           [Sample.movie 2 "Alien"; Sample.movie 3 "Dune"]).
  - reflexivity.
  - reflexivity.
  - discriminate.
  - reflexivity.
  - exists (JArr [Sample.movie 1 "Avatar"]). repeat split; reflexivity.
  - reflexivity.
  - reflexivity.
Defined.

(** X19. [get_ott_links] of [app.py] checks the key first: with
    [TMDB_API_KEY] unset or empty it returns the error "TMDB API key is
    missing" and makes no request. *)
Theorem app_get_ott_links_missing_key (w : World) (movie_name : string) :
  environ_TMDB_API_KEY w = None \/ environ_TMDB_API_KEY w = Some "" ->
  App.get_ott_links w movie_name = ([], error_dict "TMDB API key is missing").
Proof.
  unfold App.get_ott_links, App.API_KEY. by intros [-> | ->].
Qed.

Lemma app_get_ott_links_missing_key_witness :
  App.get_ott_links Sample.offline "Alien" =
    ([], error_dict "TMDB API key is missing") /\
  App.get_ott_links Sample.keyless "Alien" =
    ([], error_dict "TMDB API key is missing").
Proof.
  split.
  - apply (app_get_ott_links_missing_key Sample.offline "Alien"). by left.
  - apply (app_get_ott_links_missing_key Sample.keyless "Alien"). by right.
Defined.

(** X20. The two [get_ott_links] disagree on a movie without streaming
    data.  With the same key, the same search result and a providers
    response without "results" or with empty "results", the one of
    [app.py] returns the error "No streaming info available." and the
    one of [train_model.py] returns empty "Free" and "Paid" lists. *)
Theorem get_ott_links_versions_disagree (w : World) (key movie_name : string)
    (data movie_id : json) (fields : list (string * json)) :
  environ_TMDB_API_KEY w = Some key ->
  key <> "" ->
  remote w (search_url w movie_name) = inr (Response 200 (inr data)) ->
  top_match data movie_id ->
  remote w (provider_url w movie_id) = inr (Response 200 (inr (JObj fields))) ->
  lookup_key "results" fields = None \/ lookup_key "results" fields = Some (JObj []) ->
  outcome (App.get_ott_links w movie_name) =
    error_dict "No streaming info available." /\
  outcome (get_ott_links w (JStr movie_name)) =
    JObj [("Free", JArr []); ("Paid", JArr [])].
Proof.
  intros Henv Hkey Hsearch (results & Hget & Htruthy & Hid) Hprov Hnone.
  assert (TMDB_API_KEY w = key) as Hk by (unfold TMDB_API_KEY; by rewrite Henv).
  assert (App.search_url key movie_name = search_url w movie_name) as Hs.
  { unfold App.search_url, search_url. by rewrite Hk. }
  assert (BASE_URL +:+ "/movie/" +:+ fmt w movie_id
          +:+ "/watch/providers?api_key=" +:+ key = provider_url w movie_id) as Hp.
  { unfold provider_url. by rewrite Hk. }
  split.
  - unfold App.get_ott_links, App.API_KEY.
    rewrite Henv. destruct key as [| c key]; [done |].
    cbv beta iota. unfold App.get_ott_links_body, http_get.
    rewrite Hs. simpl. rewrite Hsearch. simpl. rewrite Hget. simpl.
    rewrite Htruthy. simpl. rewrite Hid. simpl. rewrite Hp, Hprov. simpl.
    by destruct Hnone as [-> | ->].
  - unfold get_ott_links, get_ott_links_body, http_get.
    change (fmt w (JStr movie_name)) with movie_name.
    simpl. rewrite Hsearch. simpl. rewrite Hget. simpl.
    rewrite Htruthy. simpl. rewrite Hid. simpl. rewrite Hprov. simpl.
    by destruct Hnone as [-> | ->].
Qed.

Lemma get_ott_links_versions_disagree_witness :
  outcome
    (App.get_ott_links
       (Cases.world (Some "k")
          [("https://api.themoviedb.org/3/search/movie?api_key=k&query=Tron",
            Sample.ok (JObj [("results", JArr [Sample.movie 4 "Tron"])]));
           ("https://api.themoviedb.org/3/movie/4/watch/providers?api_key=k",
            Sample.ok (JObj [("id", JInt 4); ("results", JObj [])]))] true)
       "Tron") =
    error_dict "No streaming info available." /\
  outcome
    (get_ott_links
       (Cases.world (Some "k")
          [("https://api.themoviedb.org/3/search/movie?api_key=k&query=Tron",
            Sample.ok (JObj [("results", JArr [Sample.movie 4 "Tron"])]));
           ("https://api.themoviedb.org/3/movie/4/watch/providers?api_key=k",
            Sample.ok (JObj [("id", JInt 4); ("results", JObj [])]))] true)
       (JStr "Tron")) =
    JObj [("Free", JArr []); ("Paid", JArr [])].
Proof.
  apply (get_ott_links_versions_disagree _ "k" "Tron"
           (JObj [("results", JArr [Sample.movie 4 "Tron"])]) (JInt 4)
           [("id", JInt 4); ("results", JObj [])]).
  - reflexivity.
  - discriminate.
  - reflexivity.
  - exists (JArr [Sample.movie 4 "Tron"]). repeat split; reflexivity.
  - reflexivity.
  - by right.
Defined.

(** X21. Every view that takes a movie name answers a missing, empty or
    blank name with "Movie name is required!" and status 400, and
    [/search] answers such a query with "Query is required!" and status
    400; none of them makes a request or calls the model then. *)
Theorem blank_name_is_rejected (w : World) (s : schedule) (arg : option string)
    (k_arg : option Z) (search_type : option string) :
  App.stripped_arg w arg = "" ->
  App.recommend_movie w s arg =
    ([], inr (error_dict "Movie name is required!", 400%Z)) /\
  App.ott_route w arg = ([], inr (error_dict "Movie name is required!", 400%Z)) /\
  (train_model_imported w = true ->
   App.movie_details w arg =
     ([], inr (error_dict "Movie name is required!", 400%Z)) /\
   App.full_recommendations w s arg k_arg =
     ([], inr (error_dict "Movie name is required!", 400%Z))) /\
  App.search_movies w arg search_type =
    ([], inr (error_dict "Query is required!", 400%Z)).
Proof.
  intros Hblank.
  unfold App.recommend_movie, App.ott_route, App.movie_details,
    App.full_recommendations, App.search_movies.
  rewrite Hblank. simpl.
  split; [done |]. split; [done |]. split; [| done].
  intros ->. by split.
Qed.

Lemma blank_name_is_rejected_witness :
  App.recommend_movie Sample.offline Sample.in_order (Some "   ") =
    ([], inr (error_dict "Movie name is required!", 400%Z)) /\
  App.search_movies Sample.offline None (Some "actor") =
    ([], inr (error_dict "Query is required!", 400%Z)).
Proof.
  destruct (blank_name_is_rejected Sample.offline Sample.in_order (Some "   ")
              None None) as (H & _); [reflexivity |].
  destruct (blank_name_is_rejected Sample.offline Sample.in_order None
              None (Some "actor")) as (_ & _ & _ & H'); [reflexivity |].
  by split.
Defined.

(** X22. With [train_model] imported, [/recommend] answers a name
    that is not blank with status 200 and a list of at most 9 entries
    under "recommended_movies" whenever the index lookup returns, also
    when both tiers failed to resolve the name; when the index lookup
    raises, it answers "Failed to fetch recommendations." with status
    500. *)
Theorem recommend_movie_answers_200 (w : World) (s : schedule) (arg : option string) :
  train_model_imported w = true ->
  App.stripped_arg w arg <> "" ->
  (forall rec_result,
     recommend_ml w (App.stripped_arg w arg) 9 = inr rec_result ->
     exists entries,
       outcome (App.recommend_movie w s arg) =
         inr (JObj [("recommended_movies", JArr entries)], 200%Z) /\
       (length entries <= 9)%nat) /\
  (forall e,
     recommend_ml w (App.stripped_arg w arg) 9 = inl e ->
     outcome (App.recommend_movie w s arg) =
       inr (error_dict "Failed to fetch recommendations.", 500%Z)).
Proof.
  intros Himp Hname. apply String.eqb_neq in Hname.
  split.
  - intros rec_result Hml.
    destruct (resolve_candidates_returns w (App.stripped_arg w arg) 9 _ Hml)
      as [titles Hres].
    destruct (get_full_recommendations_run w s (App.stripped_arg w arg) 9 titles Hres)
      as [_ Hout].
    pose proof (candidates_bound w (App.stripped_arg w arg) 9 _ titles
                  ltac:(lia) Hml Hres).
    exists (map (entry_for w) titles). rewrite length_map. split; [| lia].
    assert (outcome (App.recommend w s (App.stripped_arg w arg) 9) =
            inr (App.Plain (JObj [("recommended_movies",
                                   JArr (map (entry_for w) titles))]))) as Hrec.
    { unfold App.recommend. rewrite Himp. simpl. by rewrite Hout. }
    unfold App.recommend_movie. rewrite Hname.
    destruct (bind_returns (App.recommend w s (App.stripped_arg w arg) 9)
      (fun recs => match recs with
                   | App.WithStatus v code => mret (v, code)
                   | App.Plain v => mret (App.jsonify v)
                   end) _ Hrec) as [_ ->].
    done.
  - intros e Hml.
    assert (outcome (App.recommend w s (App.stripped_arg w arg) 9) =
            inr (App.WithStatus
                   (error_dict "Failed to fetch recommendations.") 500)) as Hrec.
    { unfold App.recommend. rewrite Himp.
      by rewrite (get_full_recommendations_raised w s _ _ _ Hml). }
    unfold App.recommend_movie. rewrite Hname.
    destruct (bind_returns (App.recommend w s (App.stripped_arg w arg) 9)
      (fun recs => match recs with
                   | App.WithStatus v code => mret (v, code)
                   | App.Plain v => mret (App.jsonify v)
                   end) _ Hrec) as [_ ->].
    done.
Qed.

Lemma recommend_movie_answers_200_witness :
  (exists entries,
     outcome (App.recommend_movie Sample.offline Sample.in_order
                (Some " Zzzznotamovie123 ")) =
       inr (JObj [("recommended_movies", JArr entries)], 200%Z) /\
     (length entries <= 9)%nat) /\
  outcome (App.recommend_movie Cases.unfitted Sample.in_order (Some "Avatar")) =
    inr (error_dict "Failed to fetch recommendations.", 500%Z).
Proof.
  destruct (recommend_movie_answers_200 Sample.offline Sample.in_order
              (Some " Zzzznotamovie123 ")) as [Hreturns _];
    [reflexivity | discriminate |].
  destruct (recommend_movie_answers_200 Cases.unfitted Sample.in_order
              (Some "Avatar")) as [_ Hraises];
    [reflexivity | discriminate |].
  split.
  - eapply Hreturns. reflexivity.
  - eapply Hraises. reflexivity.
Defined.

Section Search.

Context (w : World).

(** [fetch_movies] makes its one request, whatever comes of it. *)
Lemma fetch_movies_log api_url :
  log (App.fetch_movies w api_url) = [App.Request api_url].
Proof.
  unfold App.fetch_movies, App.except_RequestException, App.requests_get. simpl.
  repeat (split_match; simpl); simplify_eq; done.
Qed.

End Search.

(** X23. [fetch_movies] makes exactly one request and, when it returns,
    always answers with status 200: also a response with another status
    than 200 and an exception of the [requests] library come back as a
    body with an "error" under status 200. *)
Theorem fetch_movies_always_200 (w : World) (api_url : string) :
  log (App.fetch_movies w api_url) = [App.Request api_url] /\
  (forall v code, outcome (App.fetch_movies w api_url) = inr (v, code) -> code = 200%Z) /\
  (forall code b,
     remote w api_url = inr (Response code b) -> code <> 200%Z ->
     outcome (App.fetch_movies w api_url) =
       inr (error_dict "Failed to fetch movies.", 200%Z)) /\
  (forall msg,
     remote w api_url = inl (OtherError msg) ->
     outcome (App.fetch_movies w api_url) =
       inr (error_dict ("Request failed: " +:+ msg), 200%Z)).
Proof.
  split; [apply fetch_movies_log |].
  unfold App.fetch_movies, App.except_RequestException, App.requests_get. simpl.
  split; [| split].
  - intros v code. repeat (split_match; simpl); simplify_eq; simpl;
      intros; simplify_eq; done.
  - intros code b -> Hcode. simpl. apply Z.eqb_neq in Hcode. by rewrite Hcode.
  - by intros msg ->.
Qed.

(** X24. A query that is a genre keyword, in any letter case and with
    blanks around it, is answered by exactly one request, the discover
    request for the identifier of the genre, unless the search type is
    "actor"; no actor search is made, also for the genres of two
    words. *)
Theorem genre_query_makes_one_request (w : World)
    (query_arg type_arg : option string) (id : Z) :
  App.stripped_arg w query_arg <> "" ->
  str_lower w (App.stripped_arg w type_arg) <> "actor" ->
  App.genre_id (str_lower w (App.stripped_arg w query_arg)) App.genre_keywords = Some id ->
  log (App.search_movies w query_arg type_arg) = [App.Request (App.genre_url w id)] /\
  outcome (App.search_movies w query_arg type_arg) =
    outcome (App.fetch_movies w (App.genre_url w id)).
Proof.
  intros Hq Htype Hgenre. unfold App.search_movies.
  apply String.eqb_neq in Hq, Htype. rewrite Hq, Htype, Hgenre.
  split; [apply fetch_movies_log | done].
Qed.

Lemma genre_query_makes_one_request_witness :
  log (App.search_movies Sample.offline (Some " Science Fiction ") None) =
    [App.Request
       ("https://api.themoviedb.org/3/discover/movie?api_key=None"
        +:+ "&with_genres=878&sort_by=popularity.desc")].
Proof.
  refine (proj1 (genre_query_makes_one_request Sample.offline
                   (Some " Science Fiction ") None 878 _ _ _)).
  - discriminate.
  - discriminate.
  - reflexivity.
Defined.

(** X25. A query of several words that is no genre first searches an
    actor.  When an actor is found and the request for the actor's
    movies is answered with a list of results, [search_movies] does not
    return that list: reading "error" off the list raises an
    [AttributeError], which nothing catches. *)
Theorem actor_movies_are_never_returned (w : World)
    (query_arg type_arg : option string) (data actor_id movies_data : json)
    (movies : list json) :
  App.stripped_arg w query_arg <> "" ->
  str_lower w (App.stripped_arg w type_arg) <> "actor" ->
  App.genre_id (str_lower w (App.stripped_arg w query_arg)) App.genre_keywords = None ->
  (1 < length (str_split w (App.stripped_arg w query_arg)))%nat ->
  remote w (App.actor_api_url w (App.stripped_arg w query_arg)) =
    inr (Response 200 (inr data)) ->
  top_match data actor_id ->
  remote w (App.actor_movies_url w actor_id) = inr (Response 200 (inr movies_data)) ->
  get_or movies_data "results" (JArr []) = inr (JArr movies) ->
  App.search_movies w query_arg type_arg =
    ([App.Request (App.actor_api_url w (App.stripped_arg w query_arg));
      App.Request (App.actor_movies_url w actor_id)],
     inl (AttributeError "'list' object has no attribute 'get'")).
Proof.
  intros Hq Htype Hgenre Hwords Hactor (results & Hget & Htruthy & Hid) Hmovies Hres.
  unfold App.search_movies.
  apply String.eqb_neq in Hq, Htype. rewrite Hq, Htype, Hgenre.
  apply Nat.ltb_lt in Hwords. rewrite Hwords.
  unfold App.search_actor, App.fetch_movies, App.except_RequestException,
    App.requests_get.
  simpl. rewrite Hactor. simpl. rewrite Hget. simpl. rewrite Htruthy. simpl.
  rewrite Hid. simpl. rewrite Hmovies. simpl. by rewrite Hres.
Qed.

Lemma actor_movies_are_never_returned_witness :
  App.search_movies Cases.actor_found (Some "Sigourney Weaver") None =
    ([App.Request
        "https://api.themoviedb.org/3/search/person?api_key=k&query=Sigourney Weaver";
      App.Request
        "https://api.themoviedb.org/3/discover/movie?api_key=k&with_cast=10205"],
     inl (AttributeError "'list' object has no attribute 'get'")).
Proof.
  apply (actor_movies_are_never_returned Cases.actor_found
           (Some "Sigourney Weaver") None
           (JObj [("results", JArr [JObj [("id", JInt 10205)]])]) (JInt 10205)
           (JObj [("results", JArr [Sample.movie 2 "Alien"])])
           [Sample.movie 2 "Alien"]).
  - discriminate.
  - discriminate.
  - reflexivity.
  - vm_compute. lia.
  - reflexivity.
  - exists (JArr [JObj [("id", JInt 10205)]]). repeat split; reflexivity.
  - reflexivity.
  - reflexivity.
Defined.

(** X26. For a query of several words that is no genre, when the actor
    search finds no actor, [search_movies] goes on to the search by
    title and returns what that gives. *)
Theorem unknown_actor_falls_back_to_titles (w : World)
    (query_arg type_arg : option string) (data : json) :
  App.stripped_arg w query_arg <> "" ->
  str_lower w (App.stripped_arg w type_arg) <> "actor" ->
  App.genre_id (str_lower w (App.stripped_arg w query_arg)) App.genre_keywords = None ->
  (1 < length (str_split w (App.stripped_arg w query_arg)))%nat ->
  remote w (App.actor_api_url w (App.stripped_arg w query_arg)) =
    inr (Response 200 (inr data)) ->
  no_results data ->
  log (App.search_movies w query_arg type_arg) =
    [App.Request (App.actor_api_url w (App.stripped_arg w query_arg));
     App.Request (App.title_search_url w (App.stripped_arg w query_arg))] /\
  outcome (App.search_movies w query_arg type_arg) =
    outcome (App.fetch_movies w (App.title_search_url w (App.stripped_arg w query_arg))).
Proof.
  intros Hq Htype Hgenre Hwords Hactor (results & Hget & Hfalsy).
  unfold App.search_movies.
  apply String.eqb_neq in Hq, Htype. rewrite Hq, Htype, Hgenre.
  apply Nat.ltb_lt in Hwords. rewrite Hwords.
  pose proof (fetch_movies_log w
                (App.title_search_url w (App.stripped_arg w query_arg))) as Hlog.
  unfold App.search_actor, App.except_RequestException, App.requests_get.
  simpl. rewrite Hactor. simpl. rewrite Hget. simpl. rewrite Hfalsy. simpl.
  destruct (App.fetch_movies w _) as [l r]. simpl in *. by rewrite Hlog.
Qed.

Lemma unknown_actor_falls_back_to_titles_witness :
  log (App.search_movies Sample.offline (Some "the matrix") None) =
    [App.Request
       "https://api.themoviedb.org/3/search/person?api_key=None&query=the matrix";
     App.Request
       "https://api.themoviedb.org/3/search/movie?api_key=None&query=the matrix"].
Proof.
  refine (proj1 (unknown_actor_falls_back_to_titles Sample.offline
                   (Some "the matrix") None (JObj [("results", JArr [])])
                   _ _ _ _ _ _)).
  - discriminate.
  - discriminate.
  - reflexivity.
  - vm_compute. lia.
  - reflexivity.
  - exists (JArr []). split; reflexivity.
Defined.

(** X27. With the search type "actor" the same actor search does return
    the movies: when the actor is found and the request for the actor's
    movies is answered with a list of results, [search_movies] answers
    with that list and status 200, after the two requests. *)
Theorem explicit_actor_search_returns_movies (w : World)
    (query_arg type_arg : option string) (data actor_id movies_data : json)
    (movies : list json) :
  App.stripped_arg w query_arg <> "" ->
  str_lower w (App.stripped_arg w type_arg) = "actor" ->
  remote w (App.actor_api_url w (App.stripped_arg w query_arg)) =
    inr (Response 200 (inr data)) ->
  top_match data actor_id ->
  remote w (App.actor_movies_url w actor_id) = inr (Response 200 (inr movies_data)) ->
  get_or movies_data "results" (JArr []) = inr (JArr movies) ->
  App.search_movies w query_arg type_arg =
    ([App.Request (App.actor_api_url w (App.stripped_arg w query_arg));
      App.Request (App.actor_movies_url w actor_id)],
     inr (JArr movies, 200%Z)).
Proof.
  intros Hq Htype Hactor (results & Hget & Htruthy & Hid) Hmovies Hres.
  unfold App.search_movies.
  apply String.eqb_neq in Hq. rewrite Hq, Htype.
  unfold App.search_actor, App.fetch_movies, App.except_RequestException,
    App.requests_get.
  simpl. rewrite Hactor. simpl. rewrite Hget. simpl. rewrite Htruthy. simpl.
  rewrite Hid. simpl. rewrite Hmovies. simpl. by rewrite Hres.
Qed.

Lemma explicit_actor_search_returns_movies_witness :
  App.search_movies Cases.actor_found (Some "Sigourney Weaver") (Some " Actor ") =
    ([App.Request
        "https://api.themoviedb.org/3/search/person?api_key=k&query=Sigourney Weaver";
      App.Request
        "https://api.themoviedb.org/3/discover/movie?api_key=k&with_cast=10205"],
     inr (JArr [Sample.movie 2 "Alien"], 200%Z)).
Proof.
  apply (explicit_actor_search_returns_movies Cases.actor_found
           (Some "Sigourney Weaver") (Some " Actor ")
           (JObj [("results", JArr [JObj [("id", JInt 10205)]])]) (JInt 10205)
           (JObj [("results", JArr [Sample.movie 2 "Alien"])])
           [Sample.movie 2 "Alien"]).
  - discriminate.
  - reflexivity.
  - reflexivity.
  - exists (JArr [JObj [("id", JInt 10205)]]). repeat split; reflexivity.
  - reflexivity.
  - reflexivity.
Defined.
